(** * Rule-based Java snippet analyser: detection rules, metrics and report

    Shallow embedding of [direct_detection.py] (the pattern and the
    vulnerability detectors) and of the scoring half of [api_server.py]
    ([extract_code_metrics] and the body of [analyze_code]).

    Conventions of the model.
    - A Python [str] is a [string]; a character is a code point below 256,
      so [lower], [strip] and [title] follow Python's tables on Latin-1
      text ([title] wherever its result is Latin-1 text too, see
      [has_title_form]).
    - A request is what [request.json] makes of it: an exception, or a
      parsed JSON value.
    - Python [int] is [Z]; a Python [float] is an exact rational [Q]: the
      binary64 rounding of the interpreter is not modelled.
    - A [dict] literal is an association list in insertion order; a
      [DataFrame] row with its fixed columns is a record. *)

From Stdlib Require Import String Ascii List Bool Arith ZArith QArith Qround Qminmax Lia.
From Stdlib Require Import Lqa.
Import ListNotations.

Open Scope string_scope.
Open Scope Z_scope.

(** ** Python string primitives *)

Module PyStr.

(** The double quote and the line feed, which the literals below need. *)
Definition dq : string := String "034"%char EmptyString.
Definition nl : string := String "010"%char EmptyString.

(** [s.startswith(p)] *)
Fixpoint startswith (p s : string) : bool :=
  match p, s with
  | EmptyString, _ => true
  | String _ _, EmptyString => false
  | String a p', String b s' => Ascii.eqb a b && startswith p' s'
  end.

(** [sub in s] *)
Fixpoint str_in (sub s : string) : bool :=
  startswith sub s ||
  match s with
  | EmptyString => false
  | String _ s' => str_in sub s'
  end.

(** [s.count(sub)]: occurrences found left to right, without overlap.
    [skip] is the number of characters of the last match still to pass. *)
Fixpoint count_from (sub s : string) (skip : nat) : Z :=
  match s with
  | EmptyString => 0
  | String _ s' =>
      match skip with
      | S k => count_from sub s' k
      | O => if startswith sub s
             then 1 + count_from sub s' (String.length sub - 1)
             else count_from sub s' 0
      end
  end.

Definition count (s sub : string) : Z :=
  match sub with
  | EmptyString => Z.of_nat (String.length s) + 1
  | _ => count_from sub s 0
  end.

(** [s.split('\n')]: never empty, one more piece than there are line feeds *)
Fixpoint split_lines (s : string) : list string :=
  match s with
  | EmptyString => [EmptyString]
  | String c s' =>
      if Ascii.eqb c "010"%char then EmptyString :: split_lines s'
      else match split_lines s' with
           | [] => [String c EmptyString]
           | l :: ls => String c l :: ls
           end
  end.

(** [str.lower] on code points below 256: A-Z and the upper-case letters
    U+00C0..U+00DE (the sign U+00D7 apart) move up by 32. *)
Definition lower_char (c : ascii) : ascii :=
  let n := nat_of_ascii c in
  if ((65 <=? n) && (n <=? 90))%nat
     || ((192 <=? n) && (n <=? 222) && negb (n =? 215))%nat
  then ascii_of_nat (n + 32) else c.

Fixpoint lower (s : string) : string :=
  match s with
  | EmptyString => EmptyString
  | String c s' => String (lower_char c) (lower s')
  end.

(** [str.isspace] on one code point below 256 *)
Definition is_space (c : ascii) : bool :=
  let n := nat_of_ascii c in
  ((9 <=? n) && (n <=? 13))%nat || ((28 <=? n) && (n <=? 32))%nat
  || (n =? 133)%nat || (n =? 160)%nat.

Fixpoint lstrip (s : string) : string :=
  match s with
  | EmptyString => EmptyString
  | String c s' => if is_space c then lstrip s' else s
  end.

Fixpoint rstrip (s : string) : string :=
  match s with
  | EmptyString => EmptyString
  | String c s' =>
      match rstrip s' with
      | EmptyString => if is_space c then EmptyString else String c EmptyString
      | r => String c r
      end
  end.

(** [s.strip()] *)
Definition strip (s : string) : string := rstrip (lstrip s).

(** Truth value of a string: the empty string is false. *)
Definition truthy (s : string) : bool :=
  match s with EmptyString => false | _ => true end.

(** [s.find(c)] and [s.rfind(c)] for a one-character needle, [-1] when absent *)
Fixpoint find_char (c : ascii) (s : string) : Z :=
  match s with
  | EmptyString => -1
  | String b s' =>
      if Ascii.eqb b c then 0
      else let r := find_char c s' in if r <? 0 then -1 else 1 + r
  end.

Fixpoint rfind_char (c : ascii) (s : string) : Z :=
  match s with
  | EmptyString => -1
  | String b s' =>
      let r := rfind_char c s' in
      if 0 <=? r then 1 + r
      else if Ascii.eqb b c then 0 else -1
  end.

(** [s[a:b]] for [0 <= a] and [0 <= b] *)
Definition slice (s : string) (a b : Z) : string :=
  String.substring (Z.to_nat a) (Z.to_nat (b - a)) s.

(** [s.replace(old, new)] for a non-empty [old] *)
Fixpoint replace_from (old new s : string) (skip : nat) : string :=
  match s with
  | EmptyString => EmptyString
  | String c s' =>
      match skip with
      | S k => replace_from old new s' k
      | O => if startswith old s
             then new ++ replace_from old new s' (String.length old - 1)
             else String c (replace_from old new s' 0)
      end
  end.

Definition replace (s old new : string) : string := replace_from old new s 0.

(** The cased code points below 256, after which [str.title] lowers: A-Z,
    a-z, the ordinal indicators U+00AA and U+00BA, the micro sign U+00B5 and
    the letters U+00C0..U+00FF (the signs U+00D7 and U+00F7 apart). *)
Definition is_cased (c : ascii) : bool :=
  let n := nat_of_ascii c in
  (((65 <=? n) && (n <=? 90)) || ((97 <=? n) && (n <=? 122))
   || (n =? 170) || (n =? 181) || (n =? 186)
   || ((192 <=? n) && negb (n =? 215) && negb (n =? 247)))%nat.

(** The title-case form of U+00B5 is U+039C and that of U+00FF is U+0178:
    the two code points below 256 whose title-case form is not below 256. *)
Definition has_title_form (c : ascii) : bool :=
  let n := nat_of_ascii c in negb ((n =? 181) || (n =? 255))%nat.

(** The title-case form of one code point: a-z and the lower-case letters
    U+00E0..U+00FE (the sign U+00F7 apart) move down by 32, the sharp s
    U+00DF becomes the two letters Ss, every other code point stays.  The
    two code points without [has_title_form] are kept as they are: on them
    the model stands for no Python string, and what is stated of [title]
    for an arbitrary text assumes [has_title_form] of its characters. *)
Definition title_char (c : ascii) : string :=
  let n := nat_of_ascii c in
  if (((97 <=? n) && (n <=? 122))
      || ((224 <=? n) && (n <=? 254) && negb (n =? 247)))%nat
  then String (ascii_of_nat (n - 32)) EmptyString
  else if (n =? 223)%nat then "Ss"
  else String c EmptyString.

(** [s.title()]: a character that follows a cased one is lowered, any other
    character takes its title-case form. *)
Fixpoint title_from (s : string) (previous_is_cased : bool) : string :=
  match s with
  | EmptyString => EmptyString
  | String c s' =>
      (if previous_is_cased then String (lower_char c) EmptyString
       else title_char c)
      ++ title_from s' (is_cased c)
  end.

Definition title (s : string) : string := title_from s false.

End PyStr.
Import PyStr.

(** ** direct_detection.py: the vulnerability detector *)

(** The dict that [detect_vulnerabilities_directly] returns; every return
    site fills the same five keys. *)
Record vuln_result := mk_vuln {
  vulnerability : string;
  severity : string;
  confidence : Q;
  description : string;
  references : list string
}.

Definition sql_injection_result : vuln_result :=
  mk_vuln "sql_injection" "HIGH" 0.92
    "SQL Injection vulnerability detected - unsafe string concatenation in SQL query" [].
Definition xss_result : vuln_result :=
  mk_vuln "xss" "HIGH" 0.90
    "XSS vulnerability detected - unescaped HTML output" [].
Definition path_traversal_result : vuln_result :=
  mk_vuln "path_traversal" "HIGH" 0.88
    "Path Traversal vulnerability detected - unsafe file path handling" [].
Definition xxe_result : vuln_result :=
  mk_vuln "xxe" "MEDIUM" 0.85
    "XXE vulnerability detected - unprotected XML parsing" [].
Definition authentication_bypass_result : vuln_result :=
  mk_vuln "authentication_bypass" "CRITICAL" 0.87
    "Authentication Bypass vulnerability detected - weak authentication logic" [].
Definition insecure_deserialization_result : vuln_result :=
  mk_vuln "insecure_deserialization" "CRITICAL" 0.89
    "Insecure Deserialization vulnerability detected - unsafe object deserialization" [].
Definition secure_result : vuln_result :=
  mk_vuln "none" "LOW" 0.95
    "Secure implementation detected - proper password hashing and validation" [].
Definition no_vulnerability_result : vuln_result :=
  mk_vuln "none" "LOW" 0.50
    "No obvious vulnerabilities detected" [].

(** [detect_vulnerabilities_directly]: a chain of [if ...: return ...]. *)
Definition detect_vulnerabilities_directly (java_code : string) : vuln_result :=
  (* SQL Injection *)
  if ((str_in "+" java_code || str_in "concat" (lower java_code))
      && (str_in "SELECT" java_code || str_in "select" (lower java_code)))
     || (str_in (dq ++ "SELECT") java_code && str_in "+" java_code)
  then sql_injection_result
  (* XSS *)
  else if (str_in "@GetMapping" java_code && str_in ("return " ++ dq ++ "<") java_code)
          || (str_in "<div>" java_code && str_in "+" java_code)
  then xss_result
  (* Path Traversal *)
  else if ((str_in "File(" java_code || str_in "Paths.get" java_code)
           && str_in "+" java_code)
          || (str_in "uploads" (lower java_code) && str_in "+" java_code)
  then path_traversal_result
  (* XXE *)
  else if (str_in "DocumentBuilderFactory" java_code || str_in "parseXML" java_code)
          && negb (str_in "setFeature" java_code)
  then xxe_result
  (* Auth Bypass *)
  else if str_in "password.length()" java_code
          || str_in (".equals(" ++ dq ++ "admin" ++ dq ++ ")") java_code
          || (str_in ".length() >" java_code && str_in "password" (lower java_code))
  then authentication_bypass_result
  (* Insecure Deserialization *)
  else if str_in "ObjectInputStream" java_code && str_in ".readObject()" java_code
  then insecure_deserialization_result
  (* Secure State *)
  else if (str_in "BCryptPasswordEncoder" java_code || str_in "encoder.encode" java_code)
          && str_in "@Valid" java_code
  then secure_result
  (* No vulnerability detected *)
  else no_vulnerability_result.

(** ** direct_detection.py: the pattern detector *)

(** Values stored in the dicts of the detector and of the report. *)
Inductive pyval : Type :=
| VStr (s : string)
| VInt (z : Z)
| VFloat (q : Q)
| VStrs (l : list string).

(** A dict literal with string keys, in insertion order. *)
Definition pydict : Type := list (string * pyval).

Fixpoint assoc {A : Type} (k : string) (d : list (string * A)) : option A :=
  match d with
  | [] => None
  | (k', v) :: rest => if String.eqb k k' then Some v else assoc k rest
  end.

(** [d.get(k, default)] *)
Definition dict_get {A : Type} (d : list (string * A)) (k : string) (default : A) : A :=
  match assoc k d with
  | Some v => v
  | None => default
  end.

(** [k in d] *)
Definition has_key {A : Type} (d : list (string * A)) (k : string) : bool :=
  match assoc k d with
  | Some _ => true
  | None => false
  end.

(** [if cond: detected.append(entry)] *)
Definition append_if (cond : bool) (detected : list pydict) (entry : pydict)
  : list pydict :=
  if cond then (detected ++ [entry])%list else detected.

Definition detect_patterns_directly (java_code : string) : list pydict :=
  let lines := split_lines java_code in
  let code_lower := lower java_code in
  let detected := [] in
  (* 1. Singleton *)
  let has_private_constructor := str_in "private " java_code && str_in "()" java_code in
  let has_static_instance := (str_in "static" java_code
      && str_in "instance" code_lower) || str_in "private static" java_code in
  let has_get_instance := str_in "getInstance" java_code
      || str_in "instance()" java_code in
  let detected := append_if (has_private_constructor && has_static_instance
      && has_get_instance) detected
    [("pattern", VStr "singleton_design_pattern");
     ("confidence", VFloat 0.95);
     ("theory", VStr "Singleton Design Pattern");
     ("references", VStrs [])] in
  (* 2. Factory *)
  let has_factory_keywords := existsb (fun kw => str_in kw java_code) ["getCar"; "getProduct"; "createButton"; "create"; "Factory"] in
  let has_switch_return := str_in "switch" java_code && str_in "return new" java_code in
  let num_if := Z.of_nat (length (filter (fun l => str_in " if " l || str_in " if(" l
      || str_in "if(" l) lines)) in
  let has_if_return := (num_if >=? 2) && str_in "return new" java_code in
  let num_static := count java_code "static " in
  let detected := append_if ((has_factory_keywords && (has_switch_return
      || has_if_return)) || (str_in "Factory" java_code
      && str_in "return new" java_code && (num_static >=? 1))) detected
    [("pattern", VStr "factory_design_pattern");
     ("confidence", VFloat 0.92);
     ("theory", VStr "Factory Design Pattern");
     ("references", VStrs [])] in
  (* 3. Builder *)
  let num_classes := count java_code "class " in
  let has_builder_class := (str_in "Builder" java_code
      || str_in "builder" code_lower) && (num_classes >=? 2) in
  let has_build_method := str_in "build()" java_code || str_in ".build()" java_code in
  let has_fluent_api := str_in "return this" java_code in
  let has_chaining := (count java_code "return this" >=? 2) in
  let detected := append_if ((has_builder_class && has_build_method
      && has_fluent_api) || (has_chaining && has_build_method)) detected
    [("pattern", VStr "builder_design_pattern");
     ("confidence", VFloat 0.93);
     ("theory", VStr "Builder Design Pattern");
     ("references", VStrs [])] in
  (* 4. Prototype *)
  let has_clone := str_in ".clone()" java_code || str_in "clone()" java_code
      || (str_in "@Override" java_code && str_in "clone" code_lower) in
  let has_cloneable := str_in "Cloneable" java_code
      || str_in "implements Cloneable" java_code in
  let num_methods := count java_code "public " + count java_code "private " + count java_code "protected " in
  let has_copy_constructor := (str_in "public " java_code || truthy "private ")
      && str_in "(this)" java_code in
  let detected := append_if (has_clone || has_cloneable || (has_copy_constructor
      && (num_methods >=? 1))) detected
    [("pattern", VStr "prototype_design_pattern");
     ("confidence", VFloat 0.90);
     ("theory", VStr "Prototype Design Pattern");
     ("references", VStrs [])] in
  (* 5. Abstract Factory *)
  let num_interfaces := count java_code "interface " in
  let has_abstract_factory := str_in "AbstractFactory" java_code
      || (str_in "abstract" code_lower && str_in "Factory" java_code) in
  let has_factory_interface := str_in "interface" java_code
      && str_in "Factory" java_code in
  let has_multiple_create := (count java_code "create" >=? 2)
      || (count java_code "Factory" >=? 2) in
  let detected := append_if (has_abstract_factory || (has_factory_interface
      && has_multiple_create && (num_interfaces >=? 1))) detected
    [("pattern", VStr "abstract_factory_design_pattern");
     ("confidence", VFloat 0.88);
     ("theory", VStr "Abstract Factory Design Pattern");
     ("references", VStrs [])] in
  (* 6. Adapter *)
  let has_adapter := str_in "Adapter" java_code in
  let has_adaptee := str_in "adaptee" code_lower || str_in "wrapped" code_lower in
  let has_delegation := str_in "adaptee." java_code || str_in ".playVlc" java_code
      || str_in "legacy." java_code in
  let detected := append_if (has_adapter || (has_adaptee
      && str_in "implements" java_code) || (has_delegation
      && str_in "implements" java_code)) detected
    [("pattern", VStr "adapter_design_pattern");
     ("confidence", VFloat 0.91);
     ("theory", VStr "Adapter Design Pattern");
     ("references", VStrs [])] in
  (* 7. Decorator *)
  let has_decorator := str_in "Decorator" java_code in
  let has_component := str_in "component" code_lower || str_in "Component" java_code in
  let wraps_and_calls := str_in "component." java_code
      && str_in "implements" java_code in
  let detected := append_if (has_decorator || (has_component && wraps_and_calls
      && (num_classes >=? 1))) detected
    [("pattern", VStr "decorator_design_pattern");
     ("confidence", VFloat 0.90);
     ("theory", VStr "Decorator Design Pattern");
     ("references", VStrs [])] in
  (* 8. Proxy *)
  let has_proxy := str_in "Proxy" java_code in
  let has_real_subject := str_in "real" code_lower && (str_in "Subject" java_code
      || str_in "Image" java_code) in
  let has_check_access := str_in "checkAccess" java_code
      || (str_in "check" code_lower && str_in "access" code_lower) in
  let detected := append_if (has_proxy || (has_real_subject && has_check_access)
      || (str_in "real." code_lower && str_in "implements" java_code)) detected
    [("pattern", VStr "proxy_design_pattern");
     ("confidence", VFloat 0.89);
     ("theory", VStr "Proxy Design Pattern");
     ("references", VStrs [])] in
  (* 9. Composite *)
  let has_composite := str_in "Composite" java_code in
  let has_children := str_in "children" code_lower
      || str_in "List<Component>" java_code in
  let has_add_method := str_in ".add(" java_code && has_children in
  let has_loop_children := str_in "for" java_code && str_in "children" code_lower in
  let detected := append_if (has_composite || (has_children && has_add_method)
      || has_loop_children) detected
    [("pattern", VStr "composite_design_pattern");
     ("confidence", VFloat 0.88);
     ("theory", VStr "Composite Design Pattern");
     ("references", VStrs [])] in
  (* 10. Facade *)
  let detected := append_if (str_in "Facade" java_code) detected
    [("pattern", VStr "facade_design_pattern");
     ("confidence", VFloat 0.87);
     ("theory", VStr "Facade Design Pattern");
     ("references", VStrs [])] in
  (* 11. Bridge *)
  let has_bridge := str_in "Bridge" java_code in
  let has_implementation := str_in "implementation" code_lower
      || str_in "DrawingAPI" java_code in
  let has_abstract_shape := str_in "abstract" java_code && (str_in "Shape" java_code
      || str_in "class" java_code) in
  let detected := append_if (has_bridge || (has_implementation && has_abstract_shape)) detected
    [("pattern", VStr "bridge_design_pattern");
     ("confidence", VFloat 0.86);
     ("theory", VStr "Bridge Design Pattern");
     ("references", VStrs [])] in
  (* 12. Flyweight *)
  let has_flyweight := str_in "Flyweight" java_code in
  let has_cache := str_in "cache" code_lower || str_in "Map<" java_code
      || str_in "HashMap" java_code in
  let has_get_or_create := str_in "containsKey" java_code || (str_in "get" java_code
      && str_in "put" java_code) in
  let detected := append_if (has_flyweight || (has_cache && has_get_or_create)) detected
    [("pattern", VStr "flyweight_design_pattern");
     ("confidence", VFloat 0.85);
     ("theory", VStr "Flyweight Design Pattern");
     ("references", VStrs [])] in
  (* 13. Strategy *)
  let has_strategy := str_in "Strategy" java_code in
  let has_context := str_in "Context" java_code in
  let has_set_strategy := str_in "setStrategy" java_code
      || str_in "strategy" code_lower in
  let detected := append_if (has_strategy || (has_context && has_set_strategy)) detected
    [("pattern", VStr "strategy_design_pattern");
     ("confidence", VFloat 0.90);
     ("theory", VStr "Strategy Design Pattern");
     ("references", VStrs [])] in
  (* 14. Observer *)
  let has_observer := str_in "Observer" java_code in
  let has_observers_list := str_in "List<Observer>" java_code
      || str_in "observers" code_lower in
  let has_notify := str_in "notify" code_lower || str_in "update" code_lower in
  let has_attach := str_in "attach" code_lower || str_in "register" code_lower in
  let detected := append_if (has_observer || (has_observers_list && (has_notify
      || has_attach))) detected
    [("pattern", VStr "observer_design_pattern");
     ("confidence", VFloat 0.89);
     ("theory", VStr "Observer Design Pattern");
     ("references", VStrs [])] in
  (* 15. Command *)
  let has_command := str_in "Command" java_code in
  let has_execute := str_in "execute()" java_code || str_in "execute(" java_code in
  let has_receiver := str_in "receiver" code_lower || (str_in "Light" java_code
      && str_in "Command" java_code) in
  let detected := append_if (has_command || (has_execute && has_receiver)) detected
    [("pattern", VStr "command_design_pattern");
     ("confidence", VFloat 0.88);
     ("theory", VStr "Command Design Pattern");
     ("references", VStrs [])] in
  (* 16. Template Method *)
  let has_template := str_in "Template" java_code in
  let has_abstract_method := str_in "abstract" java_code && (num_methods >=? 2) in
  let has_final_method := str_in "final" java_code && str_in "process" code_lower in
  let detected := append_if (has_template || (has_abstract_method
      && str_in "abstract void" java_code) || has_final_method) detected
    [("pattern", VStr "template_method_design_pattern");
     ("confidence", VFloat 0.87);
     ("theory", VStr "Template Method Design Pattern");
     ("references", VStrs [])] in
  (* 17. Iterator *)
  let has_iterator := str_in "Iterator" java_code in
  let has_has_next := str_in "hasNext()" java_code in
  let has_next_method := str_in "next()" java_code in
  let implements_iterator := str_in "implements Iterator" java_code in
  let detected := append_if (has_iterator || implements_iterator || (has_has_next
      && has_next_method)) detected
    [("pattern", VStr "iterator_design_pattern");
     ("confidence", VFloat 0.92);
     ("theory", VStr "Iterator Design Pattern");
     ("references", VStrs [])] in
  (* 18. State *)
  let has_state := str_in "State" java_code && (num_classes >=? 1) in
  let has_set_state := str_in "setState" java_code || str_in "changeState" java_code in
  let has_state_interface := str_in "interface State" java_code in
  let detected := append_if (has_state || has_set_state || has_state_interface) detected
    [("pattern", VStr "state_design_pattern");
     ("confidence", VFloat 0.86);
     ("theory", VStr "State Design Pattern");
     ("references", VStrs [])] in
  (* 19. Chain of Responsibility *)
  let has_chain := str_in "Chain" java_code || str_in "Handler" java_code in
  let has_next_handler := str_in "nextHandler" java_code
      || str_in "setNext" java_code in
  let has_handle_request := str_in "handleRequest" java_code
      || str_in "handle(" java_code in
  let detected := append_if (has_chain || (has_next_handler && has_handle_request)) detected
    [("pattern", VStr "chain_of_responsibility_design_pattern");
     ("confidence", VFloat 0.85);
     ("theory", VStr "Chain Of Responsibility Design Pattern");
     ("references", VStrs [])] in
  (* 20. Mediator *)
  let has_mediator := str_in "Mediator" java_code in
  let has_chat := str_in "Chat" java_code && str_in "Mediator" java_code in
  let has_send_message := str_in "sendMessage" java_code in
  let detected := append_if (has_mediator || (has_chat && has_send_message)) detected
    [("pattern", VStr "mediator_design_pattern");
     ("confidence", VFloat 0.84);
     ("theory", VStr "Mediator Design Pattern");
     ("references", VStrs [])] in
  (* 21. Memento *)
  let has_memento := str_in "Memento" java_code in
  let has_caretaker := str_in "Caretaker" java_code in
  let has_save_restore := (str_in "saveState" java_code || str_in "save" code_lower)
      && str_in "restore" code_lower in
  let has_originator := str_in "Originator" java_code in
  let detected := append_if (has_memento || has_caretaker || has_originator
      || has_save_restore) detected
    [("pattern", VStr "memento_design_pattern");
     ("confidence", VFloat 0.86);
     ("theory", VStr "Memento Design Pattern");
     ("references", VStrs [])] in
  (* 22. Visitor *)
  let has_visitor := str_in "Visitor" java_code in
  let has_accept := str_in "accept(" java_code || str_in "accept (" java_code in
  let has_visit := str_in "visit(" java_code in
  let detected := append_if (has_visitor || (has_accept && has_visit)) detected
    [("pattern", VStr "visitor_design_pattern");
     ("confidence", VFloat 0.88);
     ("theory", VStr "Visitor Design Pattern");
     ("references", VStrs [])] in
  (* 23. Interpreter *)
  let has_interpreter := str_in "Interpreter" java_code
      || str_in "Expression" java_code in
  let has_interpret := str_in "interpret()" java_code
      || str_in "interpret(" java_code in
  let has_number_expr := str_in "NumberExpression" java_code
      || str_in "AddExpression" java_code in
  let detected := append_if (has_interpreter || has_interpret || has_number_expr) detected
    [("pattern", VStr "interpreter_design_pattern");
     ("confidence", VFloat 0.87);
     ("theory", VStr "Interpreter Design Pattern");
     ("references", VStrs [])] in
  (* 24. Dependency Injection *)
  let detected := append_if (str_in "@Autowired" java_code
      || str_in "@Inject" java_code) detected
    [("pattern", VStr "dependency_injection");
     ("confidence", VFloat 0.94);
     ("theory", VStr "Dependency Injection");
     ("references", VStrs [])] in
  (* 25. Spring MVC *)
  let has_rest_controller := str_in "@RestController" java_code
      || str_in "@Controller" java_code in
  let has_mapping := str_in "@GetMapping" java_code
      || str_in "@PostMapping" java_code || str_in "@RequestMapping" java_code in
  let detected := append_if (has_rest_controller && has_mapping) detected
    [("pattern", VStr "spring_mvc_pattern");
     ("confidence", VFloat 0.93);
     ("theory", VStr "Spring MVC Pattern");
     ("references", VStrs [])] in
  (* 26. RESTful API *)
  let has_api_methods := count java_code "@GetMapping" + count java_code "@PostMapping" + count java_code "@PutMapping" in
  let detected := append_if ((has_api_methods >=? 2) || (has_rest_controller
      && str_in "@RequestMapping" java_code)) detected
    [("pattern", VStr "restful_api_pattern");
     ("confidence", VFloat 0.92);
     ("theory", VStr "RESTful API Pattern");
     ("references", VStrs [])] in
  (* 27. Repository *)
  let detected := append_if (str_in "@Repository" java_code
      || str_in "JpaRepository" java_code || str_in "CrudRepository" java_code) detected
    [("pattern", VStr "repository_pattern");
     ("confidence", VFloat 0.93);
     ("theory", VStr "Repository Pattern");
     ("references", VStrs [])] in
  (* 28. Service Layer *)
  let detected := append_if (str_in "@Service" java_code) detected
    [("pattern", VStr "service_layer_pattern");
     ("confidence", VFloat 0.91);
     ("theory", VStr "Service Layer Pattern");
     ("references", VStrs [])] in
  (* 29. DTO *)
  let has_dto_name := str_in "DTO" java_code in
  let has_getters_setters := (str_in "getUsername" java_code
      || str_in "get" java_code) && (str_in "setUsername" java_code
      || str_in "set" java_code) in
  let detected := append_if (has_dto_name || (has_getters_setters
      && (num_methods >=? 2) && (num_methods <=? 10))) detected
    [("pattern", VStr "dto_pattern");
     ("confidence", VFloat 0.89);
     ("theory", VStr "DTO Pattern");
     ("references", VStrs [])] in
  (* 30. AOP *)
  let detected := append_if (str_in "@Aspect" java_code
      || ((str_in "@Before" java_code || str_in "@After" java_code)
      && str_in "JoinPoint" java_code)) detected
    [("pattern", VStr "aop_pattern");
     ("confidence", VFloat 0.92);
     ("theory", VStr "AOP Pattern");
     ("references", VStrs [])] in
  (* 31. OOP Fundamentals *)
  let detected := append_if ((str_in "extends" java_code
      || str_in "@Override" java_code) && (num_classes >=? 1)) detected
    [("pattern", VStr "oop_fundamentals");
     ("confidence", VFloat 0.88);
     ("theory", VStr "OOP Fundamentals");
     ("references", VStrs [])] in
  (* 32. Collections Framework *)
  let has_list := str_in "ArrayList" java_code || str_in "List<" java_code in
  let has_set := str_in "HashSet" java_code || str_in "Set<" java_code in
  let has_map := str_in "HashMap" java_code || str_in "Map<" java_code in
  let has_collection_ops := str_in ".add(" java_code || str_in ".put(" java_code in
  let detected := append_if ((has_list || has_set || has_map) && has_collection_ops) detected
    [("pattern", VStr "collections_framework");
     ("confidence", VFloat 0.90);
     ("theory", VStr "Collections Framework");
     ("references", VStrs [])] in
  (* 33. Exception Handling *)
  let detected := append_if (str_in "@ExceptionHandler" java_code
      || str_in "@RestControllerAdvice" java_code
      || str_in "@ControllerAdvice" java_code) detected
    [("pattern", VStr "exception_handling");
     ("confidence", VFloat 0.92);
     ("theory", VStr "Exception Handling");
     ("references", VStrs [])] in
  (* 34. Conditional Control Flow *)
  let detected := append_if ((str_in "switch" java_code && str_in "case" java_code)
      || (str_in "else if" java_code && (num_if >=? 1))) detected
    [("pattern", VStr "conditional_control_flow");
     ("confidence", VFloat 0.86);
     ("theory", VStr "Conditional Control Flow");
     ("references", VStrs [])] in
  (* 35. Loops and Iteration *)
  let num_for := Z.of_nat (length (filter (fun l => str_in " for " l
      || str_in " for(" l || str_in "for(" l) lines)) in
  let detected := append_if ((num_for >=? 1) || str_in "forEach" java_code) detected
    [("pattern", VStr "loops_and_iteration");
     ("confidence", VFloat 0.85);
     ("theory", VStr "Loops And Iteration");
     ("references", VStrs [])] in
  (* 36. Basic Programming Constructs *)
  let detected := append_if ((num_methods <=? 5) && (num_classes <=? 2)) detected
    [("pattern", VStr "basic_programming_constructs");
     ("confidence", VFloat 0.80);
     ("theory", VStr "Basic Programming Constructs");
     ("references", VStrs [])] in
  (* 37. Optional *)
  let detected := append_if (str_in "Optional<" java_code
      || str_in "Optional." java_code || str_in ".orElse" java_code) detected
    [("pattern", VStr "optional_null_safety");
     ("confidence", VFloat 0.91);
     ("theory", VStr "Optional Null Safety");
     ("references", VStrs [])] in
  (* 38. Functional Programming *)
  let detected := append_if (str_in "->" java_code || str_in ".stream()" java_code
      || str_in "Collectors" java_code) detected
    [("pattern", VStr "functional_programming");
     ("confidence", VFloat 0.90);
     ("theory", VStr "Functional Programming");
     ("references", VStrs [])] in
  (* 39. Spring Boot Error Handling *)
  let detected := append_if (str_in "@ControllerAdvice" java_code
      || (str_in "@ExceptionHandler" java_code && str_in "@" java_code)) detected
    [("pattern", VStr "spring_boot_error_handling");
     ("confidence", VFloat 0.93);
     ("theory", VStr "Spring Boot Error Handling");
     ("references", VStrs [])] in
  (* 40. Reactive Programming *)
  let detected := append_if ((str_in "Mono<" java_code || str_in "Flux<" java_code)
      && (str_in "WebClient" java_code || str_in "webClient" java_code)) detected
    [("pattern", VStr "reactive_programming");
     ("confidence", VFloat 0.92);
     ("theory", VStr "Reactive Programming");
     ("references", VStrs [])] in
  (* 41. Utility Libraries *)
  let detected := append_if (str_in "Utils" java_code || str_in "Helper" java_code) detected
    [("pattern", VStr "utility_libraries");
     ("confidence", VFloat 0.84);
     ("theory", VStr "Utility Libraries");
     ("references", VStrs [])] in
  (* 42. Lombok & JPA *)
  let detected := append_if (str_in "@Data" java_code || str_in "@Entity" java_code
      || str_in "@Id" java_code || str_in "@GeneratedValue" java_code) detected
    [("pattern", VStr "lombok_jpa_annotations");
     ("confidence", VFloat 0.91);
     ("theory", VStr "Lombok JPA Annotations");
     ("references", VStrs [])] in
  (* 43. Core Annotations & DI *)
  let detected := append_if ((str_in "@Component" java_code
      || str_in "@Service" java_code || str_in "@Repository" java_code)
      && (str_in "@Autowired" java_code || str_in "@Value" java_code)) detected
    [("pattern", VStr "core_annotations_di");
     ("confidence", VFloat 0.90);
     ("theory", VStr "Core Annotations DI");
     ("references", VStrs [])] in
  (* 44. Web MVC Annotations *)
  let detected := append_if (str_in "@Controller" java_code
      || str_in "@RequestParam" java_code) detected
    [("pattern", VStr "web_mvc_annotations");
     ("confidence", VFloat 0.89);
     ("theory", VStr "Web MVC Annotations");
     ("references", VStrs [])] in
  (* 45. HTTP Request Processing *)
  let detected := append_if (str_in "@RequestBody" java_code
      || str_in "@ResponseBody" java_code || str_in "ResponseEntity" java_code) detected
    [("pattern", VStr "http_request_processing");
     ("confidence", VFloat 0.88);
     ("theory", VStr "HTTP Request Processing");
     ("references", VStrs [])] in
  (* 46. OpenAPI *)
  let detected := append_if (str_in "@Api" java_code
      || str_in "@ApiOperation" java_code || str_in "@ApiResponse" java_code) detected
    [("pattern", VStr "openapi_documentation");
     ("confidence", VFloat 0.91);
     ("theory", VStr "OpenAPI Documentation");
     ("references", VStrs [])] in
  (* 47. Spring Data JPA *)
  let detected := append_if (str_in "@Entity" java_code
      || str_in "JpaRepository" java_code || str_in "@Query" java_code) detected
    [("pattern", VStr "spring_data_jpa");
     ("confidence", VFloat 0.92);
     ("theory", VStr "Spring Data JPA");
     ("references", VStrs [])] in
  (* 48. Batch Processing *)
  let detected := append_if (str_in "@EnableBatchProcessing" java_code
      || str_in "JobBuilderFactory" java_code || str_in ".chunk(" java_code) detected
    [("pattern", VStr "batch_processing_etl");
     ("confidence", VFloat 0.89);
     ("theory", VStr "Batch Processing ETL");
     ("references", VStrs [])] in
  detected.

(** ** api_server.py: extract_code_metrics *)

(** The local variables of [extract_code_metrics] that are still read after
    the detection part of the function: the line lists, the basic counts,
    the 48 pattern verdicts and the three security flags. *)
Record metric_locals := mk_locals {
  lines : list string;
  non_empty_lines : list string;
  code_lower : string;
  num_classes : Z;
  num_interfaces : Z;
  num_methods : Z;
  num_static : Z;
  num_if : Z;
  num_for : Z;
  num_while : Z;
  num_switch : Z;
  is_singleton : bool;
  is_factory : bool;
  is_builder : bool;
  is_prototype : bool;
  is_abstract_factory : bool;
  is_adapter : bool;
  is_decorator : bool;
  is_proxy : bool;
  is_composite : bool;
  is_facade : bool;
  is_bridge : bool;
  is_flyweight : bool;
  is_strategy : bool;
  is_observer : bool;
  is_command : bool;
  is_template_method : bool;
  is_iterator : bool;
  is_state : bool;
  is_chain : bool;
  is_mediator : bool;
  is_memento : bool;
  is_visitor : bool;
  is_interpreter : bool;
  is_dependency_injection : bool;
  is_spring_mvc : bool;
  is_restful_api : bool;
  is_repository : bool;
  is_service_layer : bool;
  is_dto : bool;
  is_aop : bool;
  is_oop : bool;
  is_collections : bool;
  is_exception_handling : bool;
  is_conditional_flow : bool;
  is_loops : bool;
  is_simple_class : bool;
  is_basic_programming : bool;
  is_optional : bool;
  is_functional : bool;
  is_spring_error : bool;
  is_reactive : bool;
  is_utility : bool;
  is_lombok_jpa : bool;
  is_core_annotations : bool;
  is_web_mvc_annotations : bool;
  is_http_processing : bool;
  is_openapi : bool;
  is_spring_data_jpa : bool;
  is_batch : bool;
  has_sql_concat : bool;
  has_string_query : bool;
  has_bcrypt : bool
}.

(** [extract_code_metrics], from its first line to the end of the section
    SECURITY VULNERABILITY DETECTION. *)
Definition detection_locals (java_code : string) : metric_locals :=
  let lines := split_lines java_code in
  let non_empty_lines := filter (fun l => truthy (strip l)) lines in
  let code_lower := lower java_code in
  (* ========== BASIC COUNTS ========== *)
  let num_classes := count java_code "class " in
  let num_interfaces := count java_code "interface " in
  let num_methods := count java_code "public " + count java_code "private " + count java_code "protected " in
  let num_static := count java_code "static " in
  let num_if := Z.of_nat (length (filter (fun l => str_in " if " l || str_in " if(" l
      || str_in "if(" l) lines)) in
  let num_for := Z.of_nat (length (filter (fun l => str_in " for " l
      || str_in " for(" l || str_in "for(" l) lines)) in
  let num_while := Z.of_nat (length (filter (fun l => str_in " while " l
      || str_in " while(" l) lines)) in
  let num_switch := Z.of_nat (length (filter (fun l => str_in "switch" l) lines)) in
  (* 1. Singleton - Enhanced *)
  let has_private_constructor := str_in "private " java_code && str_in "()" java_code in
  let has_static_instance := (str_in "static" java_code
      && str_in "instance" code_lower) || str_in "private static" java_code in
  let has_get_instance := str_in "getInstance" java_code
      || str_in "instance()" java_code in
  let is_singleton := has_private_constructor && has_static_instance
      && has_get_instance in
  (* 2. Factory - Enhanced *)
  let has_factory_keywords := existsb (fun kw => str_in kw java_code) ["getCar"; "getProduct"; "createButton"; "create"; "Factory"] in
  let has_switch_return := str_in "switch" java_code && str_in "return new" java_code in
  let has_if_return := (num_if >=? 2) && str_in "return new" java_code in
  let is_factory := (has_factory_keywords && (has_switch_return || has_if_return))
      || (str_in "Factory" java_code && str_in "return new" java_code
      && (num_static >=? 1)) in
  (* 3. Builder - Enhanced *)
  let has_builder_class := (str_in "Builder" java_code
      || str_in "builder" code_lower) && (num_classes >=? 2) in
  let has_build_method := str_in "build()" java_code || str_in ".build()" java_code in
  let has_fluent_api := str_in "return this" java_code in
  let has_chaining := (count java_code "return this" >=? 2) in
  let is_builder := (has_builder_class && has_build_method && has_fluent_api)
      || (has_chaining && has_build_method) in
  (* 4. Prototype - Enhanced *)
  let has_clone := str_in ".clone()" java_code || str_in "clone()" java_code
      || (str_in "@Override" java_code && str_in "clone" code_lower) in
  let has_cloneable := str_in "Cloneable" java_code
      || str_in "implements Cloneable" java_code in
  let has_copy_constructor := (str_in "public " java_code || truthy "private ")
      && str_in "(this)" java_code in
  let is_prototype := has_clone || has_cloneable || (has_copy_constructor
      && (num_methods >=? 1)) in
  (* 5. Abstract Factory - Enhanced *)
  let has_abstract_factory := str_in "AbstractFactory" java_code
      || (str_in "abstract" code_lower && str_in "Factory" java_code) in
  let has_factory_interface := str_in "interface" java_code
      && str_in "Factory" java_code in
  let has_multiple_create := (count java_code "create" >=? 2)
      || (count java_code "Factory" >=? 2) in
  let is_abstract_factory := has_abstract_factory || (has_factory_interface
      && has_multiple_create && (num_interfaces >=? 1)) in
  (* 6. Adapter - Enhanced *)
  let has_adapter := str_in "Adapter" java_code in
  let has_adaptee := str_in "adaptee" code_lower || str_in "wrapped" code_lower in
  let has_delegation := str_in "adaptee." java_code || str_in ".playVlc" java_code
      || str_in "legacy." java_code in
  let is_adapter := has_adapter || (has_adaptee && str_in "implements" java_code)
      || (has_delegation && str_in "implements" java_code) in
  (* 7. Decorator - Enhanced *)
  let has_decorator := str_in "Decorator" java_code in
  let has_component := str_in "component" code_lower || str_in "Component" java_code in
  let wraps_and_calls := str_in "component." java_code
      && str_in "implements" java_code in
  let is_decorator := has_decorator || (has_component && wraps_and_calls
      && (num_classes >=? 1)) in
  (* 8. Proxy - Enhanced *)
  let has_proxy := str_in "Proxy" java_code in
  let has_real_subject := str_in "real" code_lower && (str_in "Subject" java_code
      || str_in "Image" java_code) in
  let has_check_access := str_in "checkAccess" java_code
      || (str_in "check" code_lower && str_in "access" code_lower) in
  let is_proxy := has_proxy || (has_real_subject && has_check_access)
      || (str_in "real." code_lower && str_in "implements" java_code) in
  (* 9. Composite - Enhanced *)
  let has_composite := str_in "Composite" java_code in
  let has_children := str_in "children" code_lower
      || str_in "List<Component>" java_code in
  let has_add_method := str_in ".add(" java_code && has_children in
  let has_loop_children := str_in "for" java_code && str_in "children" code_lower in
  let is_composite := has_composite || (has_children && has_add_method)
      || has_loop_children in
  (* 10. Facade - Enhanced *)
  let has_facade := str_in "Facade" java_code in
  let has_multiple_systems := (count java_code "System" >=? 2)
      || (count java_code "." >=? 5) in
  let simplifies := (num_methods >=? 2) && has_multiple_systems in
  let is_facade := has_facade || (simplifies && (num_classes <=? 3)) in
  (* 11. Bridge - Enhanced *)
  let has_bridge := str_in "Bridge" java_code in
  let has_implementation := str_in "implementation" code_lower
      || str_in "DrawingAPI" java_code in
  let has_abstract_shape := str_in "abstract" java_code && (str_in "Shape" java_code
      || str_in "class" java_code) in
  let is_bridge := has_bridge || (has_implementation && has_abstract_shape) in
  (* 12. Flyweight - Enhanced *)
  let has_flyweight := str_in "Flyweight" java_code in
  let has_cache := str_in "cache" code_lower || str_in "Map<" java_code
      || str_in "HashMap" java_code in
  let has_get_or_create := str_in "containsKey" java_code || (str_in "get" java_code
      && str_in "put" java_code) in
  let is_flyweight := has_flyweight || (has_cache && has_get_or_create) in
  (* 13. Strategy - Enhanced *)
  let has_strategy := str_in "Strategy" java_code in
  let has_context := str_in "Context" java_code in
  let has_set_strategy := str_in "setStrategy" java_code
      || str_in "strategy" code_lower in
  let is_strategy := has_strategy || (has_context && has_set_strategy) in
  (* 14. Observer - Enhanced *)
  let has_observer := str_in "Observer" java_code in
  let has_observers_list := str_in "List<Observer>" java_code
      || str_in "observers" code_lower in
  let has_notify := str_in "notify" code_lower || str_in "update" code_lower in
  let has_attach := str_in "attach" code_lower || str_in "register" code_lower in
  let is_observer := has_observer || (has_observers_list && (has_notify
      || has_attach)) in
  (* 15. Command - Enhanced *)
  let has_command := str_in "Command" java_code in
  let has_execute := str_in "execute()" java_code || str_in "execute(" java_code in
  let has_receiver := str_in "receiver" code_lower || (str_in "Light" java_code
      && str_in "Command" java_code) in
  let is_command := has_command || (has_execute && has_receiver) in
  (* 16. Template Method - Enhanced *)
  let has_template := str_in "Template" java_code in
  let has_abstract_method := str_in "abstract" java_code && (num_methods >=? 2) in
  let has_final_method := str_in "final" java_code && str_in "process" code_lower in
  let is_template_method := has_template || (has_abstract_method
      && str_in "abstract void" java_code) || has_final_method in
  (* 17. Iterator - Enhanced *)
  let has_iterator := str_in "Iterator" java_code in
  let has_has_next := str_in "hasNext()" java_code in
  let has_next_method := str_in "next()" java_code in
  let implements_iterator := str_in "implements Iterator" java_code in
  let is_iterator := has_iterator || implements_iterator || (has_has_next
      && has_next_method) in
  (* 18. State - Enhanced *)
  let has_state := str_in "State" java_code && (num_classes >=? 1) in
  let has_set_state := str_in "setState" java_code || str_in "changeState" java_code in
  let has_state_interface := str_in "interface State" java_code in
  let is_state := has_state || has_set_state || has_state_interface in
  (* 19. Chain of Responsibility - Enhanced *)
  let has_chain := str_in "Chain" java_code || str_in "Handler" java_code in
  let has_next_handler := str_in "nextHandler" java_code
      || str_in "setNext" java_code in
  let has_handle_request := str_in "handleRequest" java_code
      || str_in "handle(" java_code in
  let is_chain := has_chain || (has_next_handler && has_handle_request) in
  (* 20. Mediator - Enhanced *)
  let has_mediator := str_in "Mediator" java_code in
  let has_chat := str_in "Chat" java_code && str_in "Mediator" java_code in
  let has_send_message := str_in "sendMessage" java_code in
  let is_mediator := has_mediator || (has_chat && has_send_message) in
  (* 21. Memento - Enhanced *)
  let has_memento := str_in "Memento" java_code in
  let has_caretaker := str_in "Caretaker" java_code in
  let has_save_restore := (str_in "saveState" java_code || str_in "save" code_lower)
      && str_in "restore" code_lower in
  let has_originator := str_in "Originator" java_code in
  let is_memento := has_memento || has_caretaker || has_originator
      || has_save_restore in
  (* 22. Visitor - Enhanced *)
  let has_visitor := str_in "Visitor" java_code in
  let has_accept := str_in "accept(" java_code || str_in "accept (" java_code in
  let has_visit := str_in "visit(" java_code in
  let is_visitor := has_visitor || (has_accept && has_visit) in
  (* 23. Interpreter - Enhanced *)
  let has_interpreter := str_in "Interpreter" java_code
      || str_in "Expression" java_code in
  let has_interpret := str_in "interpret()" java_code
      || str_in "interpret(" java_code in
  let has_number_expr := str_in "NumberExpression" java_code
      || str_in "AddExpression" java_code in
  let is_interpreter := has_interpreter || has_interpret || has_number_expr in
  (* 24. Dependency Injection - Enhanced *)
  let has_autowired := str_in "@Autowired" java_code in
  let has_inject := str_in "@Inject" java_code in
  let has_service_anno := str_in "@Service" java_code in
  let is_dependency_injection := (has_autowired || has_inject)
      && (count java_code "@" >=? 1) in
  (* 25. Spring MVC - Enhanced *)
  let has_rest_controller := str_in "@RestController" java_code
      || str_in "@Controller" java_code in
  let has_mapping := str_in "@GetMapping" java_code
      || str_in "@PostMapping" java_code || str_in "@RequestMapping" java_code in
  let has_path_variable := str_in "@PathVariable" java_code
      || str_in "@RequestBody" java_code in
  let is_spring_mvc := has_rest_controller && (has_mapping || has_path_variable) in
  (* 26. RESTful API - Enhanced *)
  let has_api_methods := count java_code "@GetMapping" + count java_code "@PostMapping" + count java_code "@PutMapping" in
  let is_restful_api := (has_api_methods >=? 2) || (has_rest_controller
      && str_in "@RequestMapping" java_code) in
  (* 27. Repository - Enhanced *)
  let has_repository := str_in "@Repository" java_code in
  let extends_jpa := str_in "JpaRepository" java_code
      || str_in "CrudRepository" java_code in
  let has_find_by := str_in "findBy" java_code || str_in "findAll" java_code in
  let is_repository := has_repository || extends_jpa || (has_find_by
      && (num_methods >=? 1)) in
  (* 28. Service Layer - Enhanced *)
  let has_service := str_in "@Service" java_code in
  let has_transactional := str_in "@Transactional" java_code in
  let has_business_logic := has_service && (num_methods >=? 1) in
  let is_service_layer := has_service || (has_transactional && has_autowired) in
  (* 29. DTO - Enhanced *)
  let has_dto_name := str_in "DTO" java_code in
  let has_getters_setters := (str_in "getUsername" java_code
      || str_in "get" java_code) && (str_in "setUsername" java_code
      || str_in "set" java_code) in
  let is_dto := has_dto_name || (has_getters_setters && (num_methods >=? 2)
      && (num_methods <=? 10)) in
  (* 30. AOP - Enhanced *)
  let has_aspect := str_in "@Aspect" java_code in
  let has_before_after := str_in "@Before" java_code || str_in "@After" java_code
      || str_in "@Around" java_code in
  let has_join_point := str_in "JoinPoint" java_code in
  let is_aop := has_aspect || (has_before_after && has_join_point) in
  (* 31. OOP Fundamentals - Enhanced *)
  let has_inheritance := str_in "extends" java_code in
  let has_polymorphism := str_in "@Override" java_code in
  let has_encapsulation := str_in "private" java_code && str_in "public" java_code in
  let is_oop := (has_inheritance || has_polymorphism) && (num_classes >=? 1) in
  (* 32. Collections Framework - Enhanced *)
  let has_list := str_in "ArrayList" java_code || str_in "List<" java_code in
  let has_set := str_in "HashSet" java_code || str_in "Set<" java_code in
  let has_map := str_in "HashMap" java_code || str_in "Map<" java_code in
  let has_collection_ops := str_in ".add(" java_code || str_in ".put(" java_code in
  let is_collections := (has_list || has_set || has_map) && has_collection_ops in
  (* 33. Exception Handling - Enhanced *)
  let has_exception_handler := str_in "@ExceptionHandler" java_code in
  let has_controller_advice := str_in "@RestControllerAdvice" java_code
      || str_in "@ControllerAdvice" java_code in
  let has_try_catch := str_in "try" java_code && str_in "catch" java_code in
  let has_throws := str_in "throws" java_code in
  let is_exception_handling := has_exception_handler || has_controller_advice
      || has_try_catch || has_throws in
  (* 34. Conditional Control Flow - Enhanced *)
  let has_multiple_if := (num_if >=? 2) in
  let has_switch_case := str_in "switch" java_code && str_in "case" java_code in
  let has_else_if := str_in "else if" java_code in
  let has_complex_conditions := (has_switch_case || has_else_if) && (num_if >=? 1) in
  let is_conditional_flow := has_complex_conditions && negb has_exception_handler in
  (* 35. Loops and Iteration - Enhanced *)
  let has_for_loop := (num_for >=? 1) in
  let has_while_loop := (num_while >=? 1) in
  let has_for_each := str_in "forEach" java_code || (str_in ": " java_code
      && str_in "for" java_code) in
  let has_stream := str_in ".stream()" java_code in
  let is_loops := has_for_loop || has_while_loop || has_for_each in
  (* 36. Basic Programming Constructs - Enhanced *)
  let is_simple_class := (num_methods <=? 5) && (num_classes <=? 2)
      && (Z.of_nat (length non_empty_lines) <=? 20) in
  let has_basic_methods := str_in "add" code_lower || str_in "subtract" code_lower
      || str_in "calculate" code_lower in
  let is_basic_programming := is_simple_class || (has_basic_methods
      && (num_methods <=? 3)) in
  (* 37. Optional - Enhanced *)
  let has_optional := str_in "Optional<" java_code || str_in "Optional." java_code in
  let has_optional_methods := str_in ".orElse" java_code
      || str_in ".ifPresent" java_code || str_in ".map(" java_code in
  let is_optional := has_optional || has_optional_methods in
  (* 38. Functional Programming - Enhanced *)
  let has_lambda := str_in "->" java_code in
  let has_stream_api := str_in ".stream()" java_code || str_in "Stream<" java_code in
  let has_function_interface := str_in "Function<" java_code
      || str_in "@FunctionalInterface" java_code in
  let has_collectors := str_in "Collectors" java_code in
  let is_functional := has_lambda || has_stream_api || has_function_interface
      || has_collectors in
  (* 39. Spring Boot Error Handling - Enhanced *)
  let is_spring_error := has_controller_advice || (has_exception_handler
      && str_in "@" java_code) in
  (* 40. Reactive Programming - Enhanced *)
  let has_mono := str_in "Mono<" java_code in
  let has_flux := str_in "Flux<" java_code in
  let has_webclient := str_in "WebClient" java_code || str_in "webClient" java_code in
  let has_reactive_ops := str_in ".bodyToMono" java_code
      || str_in ".retrieve()" java_code in
  let is_reactive := (has_mono || has_flux) && (has_webclient || has_reactive_ops) in
  (* 41. Utility Libraries - Enhanced *)
  let has_utils := str_in "Utils" java_code || str_in "Helper" java_code in
  let has_static_methods := str_in "static" java_code && (num_methods >=? 2) in
  let is_utility := has_utils || (has_static_methods && (num_classes =? 1)) in
  (* 42. Lombok & JPA - Enhanced *)
  let has_lombok := str_in "@Data" java_code || str_in "@Getter" java_code
      || str_in "@Setter" java_code || str_in "@NoArgsConstructor" java_code
      || str_in "@AllArgsConstructor" java_code in
  let has_entity := str_in "@Entity" java_code in
  let has_jpa_annotations := str_in "@Id" java_code
      || str_in "@GeneratedValue" java_code || str_in "@Table" java_code
      || str_in "@Column" java_code in
  let is_lombok_jpa := has_lombok || has_entity || has_jpa_annotations in
  (* 43. Core Annotations & DI - Enhanced *)
  let has_component := str_in "@Component" java_code in
  let has_value := str_in "@Value" java_code in
  let is_core_annotations := (has_component || has_service || has_repository)
      && (has_autowired || has_value) in
  (* 44. Web MVC Annotations - Enhanced *)
  let has_controller := str_in "@Controller" java_code in
  let has_request_param := str_in "@RequestParam" java_code in
  let has_model_attribute := str_in "@ModelAttribute" java_code
      || str_in "Model" java_code in
  let is_web_mvc_annotations := has_controller || has_request_param || (has_mapping
      && has_path_variable) in
  (* 45. HTTP Request Processing - Enhanced *)
  let has_request_body := str_in "@RequestBody" java_code in
  let has_response_body := str_in "@ResponseBody" java_code in
  let has_http_servlet := str_in "HttpServletRequest" java_code
      || str_in "HttpServletResponse" java_code in
  let has_response_entity := str_in "ResponseEntity" java_code in
  let is_http_processing := has_request_body || has_response_body || has_http_servlet
      || has_response_entity in
  (* 46. OpenAPI - Enhanced *)
  let has_api_annotation := str_in "@Api" java_code in
  let has_api_operation := str_in "@ApiOperation" java_code in
  let has_api_response := str_in "@ApiResponse" java_code in
  let has_swagger := str_in "swagger" code_lower || str_in "openapi" code_lower in
  let is_openapi := has_api_annotation || has_api_operation || has_api_response
      || has_swagger in
  (* 47. Spring Data JPA - Enhanced *)
  let has_jpa_repo := str_in "JpaRepository" java_code
      || str_in "CrudRepository" java_code in
  let has_query_annotation := str_in "@Query" java_code in
  let has_entity_annotation := str_in "@Entity" java_code in
  let is_spring_data_jpa := has_entity_annotation || has_jpa_repo
      || has_query_annotation in
  (* 48. Batch Processing - Enhanced *)
  let has_batch := str_in "@Batch" java_code || str_in "BatchConfiguration" java_code
      || str_in "@EnableBatchProcessing" java_code in
  let has_job_builder := str_in "JobBuilderFactory" java_code
      || str_in "StepBuilderFactory" java_code in
  let has_chunk := str_in ".chunk(" java_code in
  let is_batch := has_batch || has_job_builder || has_chunk in
  (* SQL Injection Detection *)
  let has_sql_concat := (str_in "+" java_code || str_in "concat" code_lower)
      && (str_in "SELECT" java_code || str_in "select" code_lower) in
  let has_string_query := str_in (dq ++ "SELECT") java_code && str_in "+" java_code in
  (* XSS Detection *)
  let has_unescaped_output := str_in "@GetMapping" java_code
      && str_in ("return " ++ dq ++ "<") java_code in
  let has_direct_html := str_in "<div>" java_code && str_in "+" java_code in
  (* Path Traversal Detection *)
  let has_file_path_concat := (str_in "File(" java_code
      || str_in "Paths.get" java_code) && str_in "+" java_code in
  let has_upload_path := str_in "uploads" code_lower && str_in "+" java_code in
  (* XXE Detection *)
  let has_xml_parse := str_in "DocumentBuilderFactory" java_code
      || str_in "parseXML" java_code in
  let no_xxe_protection := str_in "DocumentBuilderFactory" java_code
      && negb (str_in "setFeature" java_code) in
  (* Auth Bypass Detection *)
  let has_weak_auth := str_in "password.length()" java_code
      || str_in (".equals(" ++ dq ++ "admin" ++ dq ++ ")") java_code in
  let has_simple_check := str_in ".length() >" java_code
      && str_in "password" code_lower in
  (* Insecure Deserialization Detection *)
  let has_object_input_stream := str_in "ObjectInputStream" java_code in
  let has_read_object := str_in ".readObject()" java_code in
  (* Secure State Detection *)
  let has_bcrypt := str_in "BCryptPasswordEncoder" java_code
      || str_in "encoder.encode" java_code in
  let has_validation := str_in "@Valid" java_code in
  {| lines := lines; non_empty_lines := non_empty_lines; code_lower := code_lower;
     num_classes := num_classes; num_interfaces := num_interfaces;
     num_methods := num_methods; num_static := num_static;
     num_if := num_if; num_for := num_for; num_while := num_while;
     num_switch := num_switch;
     is_singleton := is_singleton;
     is_factory := is_factory;
     is_builder := is_builder;
     is_prototype := is_prototype;
     is_abstract_factory := is_abstract_factory;
     is_adapter := is_adapter;
     is_decorator := is_decorator;
     is_proxy := is_proxy;
     is_composite := is_composite;
     is_facade := is_facade;
     is_bridge := is_bridge;
     is_flyweight := is_flyweight;
     is_strategy := is_strategy;
     is_observer := is_observer;
     is_command := is_command;
     is_template_method := is_template_method;
     is_iterator := is_iterator;
     is_state := is_state;
     is_chain := is_chain;
     is_mediator := is_mediator;
     is_memento := is_memento;
     is_visitor := is_visitor;
     is_interpreter := is_interpreter;
     is_dependency_injection := is_dependency_injection;
     is_spring_mvc := is_spring_mvc;
     is_restful_api := is_restful_api;
     is_repository := is_repository;
     is_service_layer := is_service_layer;
     is_dto := is_dto;
     is_aop := is_aop;
     is_oop := is_oop;
     is_collections := is_collections;
     is_exception_handling := is_exception_handling;
     is_conditional_flow := is_conditional_flow;
     is_loops := is_loops;
     is_simple_class := is_simple_class;
     is_basic_programming := is_basic_programming;
     is_optional := is_optional;
     is_functional := is_functional;
     is_spring_error := is_spring_error;
     is_reactive := is_reactive;
     is_utility := is_utility;
     is_lombok_jpa := is_lombok_jpa;
     is_core_annotations := is_core_annotations;
     is_web_mvc_annotations := is_web_mvc_annotations;
     is_http_processing := is_http_processing;
     is_openapi := is_openapi;
     is_spring_data_jpa := is_spring_data_jpa;
     is_batch := is_batch;
     has_sql_concat := has_sql_concat; has_string_query := has_string_query;
     has_bcrypt := has_bcrypt |}.

(** The 20 columns of the one-row [DataFrame] that the function returns. *)
Record code_metrics := mk_metrics {
  cyclomatic_complexity : Z;
  cognitive_complexity : Z;
  nesting_depth : Z;
  lines_of_code : Z;
  m_num_methods : Z;
  m_num_classes : Z;
  num_parameters : Z;
  code_duplication : Q;
  test_coverage : Q;
  comment_ratio : Q;
  inheritance_depth : Z;
  coupling : Z;
  cohesion : Q;
  num_sql_queries : Z;
  num_file_operations : Z;
  num_network_calls : Z;
  input_validation_ratio : Q;
  uses_encryption : Z;
  num_annotations : Z;
  dependency_injection_usage : Q
}.

(** The body of [for line in lines:] that accumulates [num_parameters]. *)
Definition count_parameters_step (num_parameters : Z) (line : string) : Z :=
  if str_in "(" line && str_in ")" line then
    let start := find_char "("%char line in
    let end_ := rfind_char ")"%char line in
    if negb (start =? -1) && negb (end_ =? -1) && (start <? end_) then
      let params := slice line start (end_ + 1) in
      if truthy params && negb (String.eqb params "()")
      then num_parameters + (count params "," + 1)
      else num_parameters
    else num_parameters
  else num_parameters.

(** [extract_code_metrics], from PATTERN-BASED COHESION to the [return]. *)
Definition extract_code_metrics (java_code : string) : code_metrics :=
  let L := detection_locals java_code in
  let lines := lines L in
  let non_empty_lines := non_empty_lines L in
  let code_lower := code_lower L in
  let num_if := num_if L in
  let num_for := num_for L in
  let num_while := num_while L in
  let num_switch := num_switch L in
  let num_methods := num_methods L in
  let num_classes := num_classes L in
  (* ========== PATTERN-BASED COHESION ========== *)
  let cohesion : Q :=
   (if is_singleton L then 0.92
    else if is_factory L then 0.85
    else if is_builder L then 0.88
    else if is_prototype L then 0.82
    else if is_abstract_factory L then 0.80
    else if is_adapter L || is_decorator L || is_proxy L then 0.78
    else if is_composite L || is_facade L || is_bridge L then 0.75
    else if is_flyweight L then 0.73
    else if is_strategy L || is_observer L || is_command L then 0.77
    else if is_service_layer L then 0.75
    else if is_spring_mvc L || is_restful_api L then 0.70
    else if is_exception_handling L || is_spring_error L then 0.80
    else if is_reactive L then 0.76
    else 0.60)%Q in
  (* ========== CALCULATE OTHER METRICS ========== *)
  let cyclomatic := 1 + num_if + num_for + num_while + num_switch in
  let cyclomatic :=
    if num_switch >? 0 then cyclomatic + (count java_code "case " - 1)
    else cyclomatic in
  let cyclomatic :=
    if str_in "try" java_code && str_in "catch" java_code
    then cyclomatic + count java_code "catch"
    else cyclomatic in
  let inheritance := count java_code "extends" + count java_code "implements" in
  let coupling := Z.max 2 (count java_code "import") in
  let num_parameters := fold_left count_parameters_step lines 0 in
  let num_annotations := count java_code "@" in
  let di_usage : Q :=
   (if str_in "@Autowired" java_code then 0.8
    else if str_in "@Inject" java_code then 0.7
    else if str_in "@Component" java_code || str_in "@Service" java_code then 0.5
    else 0.2)%Q in
  let network_indicators :=
    ["HttpClient"; "RestTemplate"; "WebClient"; "webClient"; "http"; ".get()";
     ".post()"] in
  let num_network_calls :=
    fold_right Z.add 0 (map (fun ind => count java_code ind) network_indicators) in
  let sql_keywords :=
    ["select"; "insert"; "update"; "delete"; "create table"; "drop table";
     "SELECT"; "INSERT"] in
  let num_sql_queries :=
    fold_right Z.add 0 (map (fun kw => count java_code kw) sql_keywords) in
  (* Enhanced input validation detection *)
  let input_validation_ratio : Q := 0.1%Q in
  let input_validation_ratio : Q :=
   (if str_in "@Valid" java_code || str_in "validate" code_lower
       || str_in "sanitize" code_lower
    then 0.8
    else if str_in "?" java_code
            && (str_in "query" code_lower || str_in "SELECT" java_code)
    then 0.7
    else if str_in "StringEscapeUtils" java_code || str_in "normalize" code_lower
    then 0.6
    else if has_sql_concat L || has_string_query L
    then 0.1
    else input_validation_ratio)%Q in
  (* ========== RETURN 20 METRICS ========== *)
  {| cyclomatic_complexity := Z.min 50 cyclomatic;
     cognitive_complexity := Z.min 100 (cyclomatic * 2);
     nesting_depth := Z.max 1 (count java_code "    " / 4);
     lines_of_code := Z.of_nat (length non_empty_lines);
     m_num_methods := Z.max 1 num_methods;
     m_num_classes := Z.max 1 num_classes;
     num_parameters := num_parameters;
     code_duplication := 0.0%Q;
     test_coverage := 0.5%Q;
     comment_ratio :=
       (inject_Z (Z.of_nat
          (length (filter (fun l => str_in "//" l || str_in "/*" l) lines)))
        / inject_Z (Z.max 1 (Z.of_nat (length lines))))%Q;
     inheritance_depth := inheritance;
     coupling := coupling;
     cohesion := cohesion;
     num_sql_queries := num_sql_queries;
     num_file_operations :=
       count java_code "File" + count java_code "FileReader"
       + count java_code "FileWriter";
     num_network_calls := num_network_calls;
     input_validation_ratio := input_validation_ratio;
     uses_encryption :=
       if has_bcrypt L || str_in "Cipher" java_code || str_in "encrypt" code_lower
       then 1 else 0;
     num_annotations := num_annotations;
     dependency_injection_usage := di_usage |}.

(** ** api_server.py: formatting helpers and their static tables *)

(** [x in l] for a list of strings *)
Definition in_list (x : string) (l : list string) : bool :=
  existsb (String.eqb x) l.

Definition format_pattern_name_for_display (pattern_name : string) : string :=
  if negb (truthy pattern_name) || String.eqb pattern_name "unknown"
  then pattern_name
  else
    (* Replace underscores with spaces and title case *)
    let display_name := title (replace pattern_name "_" " ") in
    (* Handle special cases for better formatting *)
    let display_name := replace display_name "Api" "API" in
    let display_name := replace display_name "Http" "HTTP" in
    let display_name := replace display_name "Jpa" "JPA" in
    let display_name := replace display_name "Di" "DI" in
    let display_name := replace display_name "Etl" "ETL" in
    let display_name := replace display_name "Mvc" "MVC" in
    let display_name := replace display_name "Openapi" "OpenAPI" in
    display_name.

Definition descriptions : list (string * string) :=
  [
    ("singleton_design_pattern",
       "Ensures a class has only one instance and provides global access to it through static method or field.");
    ("factory_design_pattern",
       "Creates objects without exposing instantiation logic and refers to newly created object using common interface.");
    ("builder_design_pattern",
       "Constructs complex objects step by step and allows different types and representations using same construction code.");
    ("observer_design_pattern",
       "Defines subscription mechanism to notify multiple objects about events happening to observed object.");
    ("strategy_design_pattern",
       "Defines family of algorithms, encapsulates each one, and makes them interchangeable at runtime.");
    ("adapter_design_pattern",
       "Allows objects with incompatible interfaces to collaborate by wrapping existing class with new interface.");
    ("decorator_design_pattern",
       "Attaches new behaviors to objects by placing them inside wrapper objects containing behaviors.");
    ("facade_design_pattern",
       "Provides simplified interface to complex subsystem, library, or framework reducing coupling.");
    ("proxy_design_pattern",
       "Provides placeholder or surrogate for another object to control access, lazy loading, or add functionality.");
    ("command_design_pattern",
       "Encapsulates request as object, allowing parameterization, queuing, logging, and undo operations.");
    ("template_method_design_pattern",
       "Defines skeleton of algorithm in superclass, letting subclasses override specific steps without changing structure.");
    ("chain_of_responsibility_design_pattern",
       "Passes requests along chain of handlers until one handles it, decoupling sender from receiver.");
    ("state_design_pattern",
       "Allows object to alter behavior when internal state changes, appearing as if object changed class.");
    ("mediator_design_pattern",
       "Defines how set of objects interact, promoting loose coupling by preventing direct references.");
    ("visitor_design_pattern",
       "Separates algorithms from object structure, allowing new operations without modifying existing classes.");
    ("iterator_design_pattern",
       "Provides way to access elements of aggregate object sequentially without exposing underlying representation.");
    ("composite_design_pattern",
       "Composes objects into tree structures to represent part-whole hierarchies uniformly.");
    ("bridge_design_pattern",
       "Separates abstraction from implementation, allowing both to vary independently without affecting each other.");
    ("flyweight_design_pattern",
       "Minimizes memory usage by sharing efficiently common data among multiple objects.");
    ("prototype_design_pattern",
       "Creates objects by cloning existing instance rather than creating new ones from scratch.");
    ("abstract_factory_design_pattern",
       "Provides interface for creating families of related objects without specifying concrete classes.");
    ("interpreter_design_pattern",
       "Defines grammar representation for language and interpreter to process sentences in that language.");
    ("memento_design_pattern",
       "Captures and externalizes object internal state for restoration without violating encapsulation.");
    ("spring_mvc_annotations",
       "Provides annotations for MVC web development including request mapping, validation, and response handling.");
    ("core_annotations_di",
       "Implements dependency injection through annotations for bean management and lifecycle control.");
    ("web_mvc_annotations",
       "Enables web application development with controller mapping, parameter binding, and view resolution.");
    ("spring_data_jpa",
       "Simplifies database access with repository patterns, query generation, and transaction management.");
    ("spring_security_oauth2",
       "Implements OAuth2 authentication and authorization for secure API access and token management.");
    ("reactive_programming",
       "Enables non-blocking, asynchronous programming with reactive streams and backpressure handling.");
    ("spring_boot_error_handling",
       "Provides comprehensive error handling strategies with global exception management and custom responses.");
    ("batch_processing_etl",
       "Implements batch processing patterns for ETL operations with chunk processing and job management.");
    ("utility_libraries",
       "Integrates utility libraries for common functionality like validation, mapping, and data transformation.");
    ("lombok_jpa_annotations",
       "Reduces boilerplate code using Lombok annotations with JPA entity management and relationship mapping.");
    ("microservices_communication",
       "Implements communication patterns between microservices using HTTP, messaging, and service discovery.");
    ("http_request_processing",
       "Handles HTTP request processing with filters, interceptors, and content negotiation.");
    ("openapi_documentation",
       "Generates API documentation using OpenAPI/Swagger specifications with interactive interface.");
    ("object_oriented_fundamentals",
       "Applies object-oriented programming principles including encapsulation, inheritance, and polymorphism.");
    ("collections_framework",
       "Utilizes Java Collections API for data structure management and manipulation with streams.");
    ("exception_handling",
       "Implements comprehensive exception handling strategies with custom exceptions and error recovery.");
    ("concurrency_multithreading",
       "Manages concurrent execution with thread safety, synchronization, and parallel processing.");
    ("lambda_expressions",
       "Uses functional programming with lambda expressions for concise and expressive code.");
    ("stream_api",
       "Processes collections using Stream API for filtering, mapping, and reduction operations.");
    ("optional_null_safety",
       "Prevents null pointer exceptions using Optional wrapper for safer null handling.");
    ("modern_syntax",
       "Applies modern Java syntax features including var keyword, switch expressions, and text blocks.");
    ("aws_sdk_integration",
       "Integrates AWS services using SDK for cloud-native application development and deployment.") ].

Definition get_pattern_short_description (pattern_name : string) : string :=
  dict_get descriptions pattern_name
    "Advanced programming concept or design pattern implementation.".

Definition pattern_keywords : list (string * list string) :=
  [
    ("singleton_design_pattern",
       ["singleton";
        "instance";
        "static";
        "private"]);
    ("factory_design_pattern",
       ["factory";
        "create";
        "newinstance";
        "builder"]);
    ("observer_design_pattern",
       ["observer";
        "notify";
        "update";
        "listener"]);
    ("spring_mvc_annotations",
       ["controller";
        "requestmapping";
        "autowired";
        "service"]);
    ("core_annotations_di",
       ["autowired";
        "component";
        "service";
        "repository"]);
    ("spring_data_jpa",
       ["repository";
        "entity";
        "jpa";
        "transactional"]);
    ("object_oriented_fundamentals",
       ["class";
        "public";
        "private";
        "protected"]);
    ("aws_sdk_integration",
       ["aws";
        "sdk";
        "client";
        "service"]) ].

Definition extract_matched_words (code pattern_name : string) : list string :=
  if negb (truthy code) then []
  else
    let code_lower := lower code in
    (* Pattern-specific keyword matching *)
    let keywords := dict_get pattern_keywords pattern_name
                      ["class"; "public"; "private"] in
    let matched_words := filter (fun keyword => str_in keyword code_lower) keywords in
    (* Limit to 5 words *)
    firstn 5 matched_words.

Definition security_references : list (string * list string) :=
  [
    ("sql_injection",
       ["https://owasp.org/www-community/attacks/SQL_Injection";
        "https://www.baeldung.com/sql-injection";
        "https://cheatsheetseries.owasp.org/cheatsheets/SQL_Injection_Prevention_Cheat_Sheet.html"]);
    ("xss",
       ["https://owasp.org/www-community/attacks/xss/";
        "https://cheatsheetseries.owasp.org/cheatsheets/Cross_Site_Scripting_Prevention_Cheat_Sheet.html";
        "https://www.baeldung.com/spring-prevent-xss"]);
    ("xxe",
       ["https://owasp.org/www-community/vulnerabilities/XML_External_Entity_(XXE)_Processing";
        "https://cheatsheetseries.owasp.org/cheatsheets/XML_External_Entity_Prevention_Cheat_Sheet.html";
        "https://www.baeldung.com/spring-xml-injection"]);
    ("path_traversal",
       ["https://owasp.org/www-community/attacks/Path_Traversal";
        "https://cheatsheetseries.owasp.org/cheatsheets/Input_Validation_Cheat_Sheet.html";
        "https://www.baeldung.com/spring-security-path-traversal"]);
    ("authentication_bypass",
       ["https://owasp.org/www-community/attacks/Authentication_bypass";
        "https://cheatsheetseries.owasp.org/cheatsheets/Authentication_Cheat_Sheet.html";
        "https://www.baeldung.com/spring-security-authentication"]);
    ("insecure_deserialization",
       ["https://owasp.org/www-community/vulnerabilities/Deserialization_of_untrusted_data";
        "https://cheatsheetseries.owasp.org/cheatsheets/Deserialization_Cheat_Sheet.html";
        "https://www.baeldung.com/java-deserialization-security"]);
    ("weak_cryptography",
       ["https://owasp.org/www-community/vulnerabilities/Insecure_Cryptographic_Storage";
        "https://cheatsheetseries.owasp.org/cheatsheets/Cryptographic_Storage_Cheat_Sheet.html";
        "https://www.baeldung.com/java-encryption"]) ].

Definition get_security_references (vulnerability_type : string) : list string :=
  dict_get security_references (lower vulnerability_type)
    ["https://owasp.org/www-community/";
     "https://cheatsheetseries.owasp.org/"].

Definition type_mapping : list (string * string) :=
  [
    ("sql_injection",
       "SQL Injection");
    ("xss",
       "XSS");
    ("xxe",
       "XXE");
    ("path_traversal",
       "Path Traversal");
    ("authentication_bypass",
       "Authentication Bypass");
    ("insecure_deserialization",
       "Insecure Deserialization");
    ("weak_cryptography",
       "Weak Cryptography") ].

Definition format_vulnerability_type (vuln_type : string) : string :=
  dict_get type_mapping (lower vuln_type) (title (replace vuln_type "_" " ")).

Definition default_references : list (string * list string) :=
  [
    ("singleton_design_pattern",
       ["https://refactoring.guru/design-patterns/singleton";
        "https://www.baeldung.com/java-singleton";
        "https://docs.oracle.com/javase/tutorial/java/javaOO/initial.html"]);
    ("factory_design_pattern",
       ["https://refactoring.guru/design-patterns/factory-method";
        "https://www.baeldung.com/java-factory-pattern";
        "https://docs.oracle.com/javase/tutorial/java/javaOO/objectcreation.html"]);
    ("builder_design_pattern",
       ["https://refactoring.guru/design-patterns/builder";
        "https://www.baeldung.com/java-builder-pattern";
        "https://docs.oracle.com/javase/tutorial/java/javaOO/objectcreation.html"]);
    ("observer_design_pattern",
       ["https://refactoring.guru/design-patterns/observer";
        "https://www.baeldung.com/java-observer-pattern";
        "https://docs.oracle.com/javase/7/docs/api/java/util/Observer.html"]);
    ("strategy_design_pattern",
       ["https://refactoring.guru/design-patterns/strategy";
        "https://www.baeldung.com/java-strategy-pattern"]);
    ("spring_mvc_annotations",
       ["https://docs.spring.io/spring-framework/docs/current/reference/html/web.html";
        "https://www.baeldung.com/spring-mvc-tutorial";
        "https://spring.io/guides/gs/serving-web-content/"]);
    ("core_annotations_di",
       ["https://docs.spring.io/spring-framework/docs/current/reference/html/core.html#beans";
        "https://www.baeldung.com/spring-dependency-injection";
        "https://spring.io/guides/gs/managing-transactions/"]);
    ("spring_data_jpa",
       ["https://docs.spring.io/spring-data/jpa/docs/current/reference/html/";
        "https://www.baeldung.com/spring-data-jpa-tutorial";
        "https://spring.io/guides/gs/accessing-data-jpa/"]);
    ("object_oriented_fundamentals",
       ["https://docs.oracle.com/javase/tutorial/java/concepts/";
        "https://www.baeldung.com/java-oop";
        "https://docs.oracle.com/javase/tutorial/java/javaOO/"]) ].

Definition get_default_references (pattern_name : string) : list string :=
  dict_get default_references pattern_name
    ["https://docs.oracle.com/javase/tutorial/";
     "https://www.baeldung.com/java-tutorial";
     "https://spring.io/guides"].

Definition categorize_pattern (pattern_name : string) : string :=
  let creational :=
    ["singleton_design_pattern"; "Singleton Design Pattern";
      "factory_design_pattern"; "builder_design_pattern"; "prototype_design_pattern";
      "abstract_factory_design_pattern"; "singleton"; "factory"; "builder";
      "prototype"; "abstract_factory"] in
  if in_list pattern_name creational then "CREATIONAL DESIGN PATTERNS" else
  let structural :=
    ["adapter_design_pattern"; "decorator_design_pattern"; "proxy_design_pattern";
      "composite_design_pattern"; "facade_design_pattern"; "bridge_design_pattern";
      "flyweight_design_pattern"; "adapter"; "decorator"; "proxy"; "composite";
      "facade"; "bridge"; "flyweight"] in
  if in_list pattern_name structural then "STRUCTURAL DESIGN PATTERNS" else
  let behavioral :=
    ["strategy_design_pattern"; "observer_design_pattern"; "command_design_pattern";
      "template_method_design_pattern"; "iterator_design_pattern";
      "state_design_pattern"; "chain_of_responsibility_design_pattern";
      "mediator_design_pattern"; "memento_design_pattern"; "visitor_design_pattern";
      "interpreter_design_pattern"; "strategy"; "observer"; "command";
      "template_method"; "iterator"; "state"; "chain_of_responsibility"; "mediator";
      "memento"; "visitor"; "interpreter"] in
  if in_list pattern_name behavioral then "BEHAVIORAL DESIGN PATTERNS" else
  let spring :=
    ["dependency_injection"; "spring_mvc_pattern"; "restful_api_pattern";
      "repository_pattern"; "service_layer_pattern"; "dto_pattern"; "aop_pattern";
      "mvc"; "restful_api"; "repository"; "service_layer"; "dto"; "aop"] in
  if in_list pattern_name spring then "SPRING FRAMEWORK PATTERNS" else
  let java_concepts :=
    ["oop_fundamentals"; "collections_framework"; "exception_handling";
      "conditional_control_flow"; "loops_and_iteration";
      "basic_programming_constructs"] in
  if in_list pattern_name java_concepts then "CORE JAVA CONCEPTS" else
  let modern_java :=
    ["optional_null_safety"; "functional_programming"; "stream_api"] in
  if in_list pattern_name modern_java then "MODERN JAVA FEATURES" else
  let spring_boot :=
    ["spring_boot_error_handling"; "reactive_programming"; "utility_libraries";
      "lombok_jpa_annotations"] in
  if in_list pattern_name spring_boot then "SPRING BOOT ECOSYSTEM" else
  let web_dev :=
    ["core_annotations_di"; "web_mvc_annotations"; "http_request_processing"] in
  if in_list pattern_name web_dev then "WEB DEVELOPMENT" else
  let api_docs :=
    ["openapi_documentation"] in
  if in_list pattern_name api_docs then "API DOCUMENTATION" else
  let database :=
    ["spring_data_jpa"; "batch_processing_etl"] in
  if in_list pattern_name database then "DATABASE INTEGRATION" else
  "OTHER PATTERNS".

(** ** api_server.py: analyze_code *)

(** [int(x)] of a float: truncation toward zero *)
Definition py_int (x : Q) : Z := Z.quot (Qnum x) (Z.pos (Qden x)).

(** [min(a, b)] on floats: [b] when [b < a], else [a] *)
Definition py_min (a b : Q) : Q := if Qle_bool a b then a else b.

(** [a < b] on floats *)
Definition Qltb (a b : Q) : bool := negb (Qle_bool b a).

(** One entry of the list [vulnerabilities]. The entries are built at a
    single place with the same five keys and are read by subscript. *)
Record vulnerability_entry := mk_entry {
  v_type : string;
  v_severity : string;
  v_description : string;
  v_remediation : string;
  v_references : list string
}.

Record concept_analysis := mk_concept_analysis {
  complexityScore : Z;
  detectedConcepts : list pydict
}.

Record security_analysis := mk_security_analysis {
  overallRisk : string;
  vulnerabilities : list vulnerability_entry
}.

(** The response dict of a successful analysis. *)
Record response := mk_response {
  conceptAnalysis : concept_analysis;
  linesOfCode : Z;
  qualityScore : Z;
  recommendations : list string;
  securityAnalysis : security_analysis
}.

(** [pattern.get(key, default)] where a string is expected *)
Definition get_str (d : pydict) (k default : string) : string :=
  match assoc k d with
  | Some (VStr s) => s
  | _ => default
  end.

(** [pattern.get(key, [])] where a list of strings is expected *)
Definition get_strs (d : pydict) (k : string) : list string :=
  match assoc k d with
  | Some (VStrs l) => l
  | _ => []
  end.

Definition is_empty {A : Type} (l : list A) : bool :=
  match l with [] => true | _ => false end.

(** The body of [for pattern in theory_results:]. *)
Definition concept_of_pattern (java_code : string) (lines_of_code : Z)
                              (pattern : pydict) : pydict :=
  let raw_pattern_name := get_str pattern "pattern" "unknown" in
  let display_name := format_pattern_name_for_display raw_pattern_name in
  (* Get references for this pattern *)
  let pattern_references := get_strs pattern "references" in
  let pattern_references :=
    if is_empty pattern_references
    then get_default_references raw_pattern_name
    else pattern_references in
  [("name", VStr display_name);
   ("category", VStr (categorize_pattern raw_pattern_name));
   ("description", VStr (get_pattern_short_description raw_pattern_name));
   ("theory", VStr (get_str pattern "theory" ""));
   ("referenceLinks", VStrs pattern_references);
   ("matchedWords", VStrs (extract_matched_words java_code raw_pattern_name));
   ("linesOfCode", VInt lines_of_code)].

(** [analyze_code] once the request has passed validation: steps 1 to 4
    and the response dict. *)
Definition build_response (java_code : string) : response :=
  (* Step 1: Extract code metrics (for quality scores) *)
  let code_metrics := extract_code_metrics java_code in
  (* Step 2: Direct Pattern Detection *)
  let theory_results := detect_patterns_directly java_code in
  (* Step 3: Direct Security Detection *)
  let security_results := detect_vulnerabilities_directly java_code in
  (* Step 4: Transform to frontend format *)
  let metrics := code_metrics in
  (* Calculate quality score (0-100) *)
  let quality_score :=
    py_int ((1 - py_min (code_duplication metrics) 1.0) * 25
            + test_coverage metrics * 25
            + py_min (comment_ratio metrics / 0.3) 1.0 * 25
            + cohesion metrics * 25)%Q in
  (* Calculate complexity score (normalized cyclomatic complexity) *)
  let complexity_score := Z.min (cyclomatic_complexity metrics) 100 in
  (* Calculate lines of code for the entire analyzed code *)
  let lines_of_code :=
    Z.of_nat (length (filter (fun line => truthy (strip line))
                             (split_lines java_code))) in
  (* Transform detected patterns for the new response format *)
  let detected_concepts :=
    map (concept_of_pattern java_code lines_of_code) theory_results in
  (* Transform security vulnerabilities *)
  let vulnerabilities := [] in
  let vulnerabilities :=
    let vuln_type := vulnerability security_results in
    if negb (String.eqb vuln_type "none") then
      let formatted_type := format_vulnerability_type vuln_type in
      let vulnerability_references := get_security_references vuln_type in
      (vulnerabilities ++
      [ {| v_type := formatted_type;
           v_severity := severity security_results;
           v_description := description security_results;
           v_remediation :=
             "Address " ++ formatted_type
             ++ " vulnerability by implementing proper security controls";
           v_references := vulnerability_references |} ])%list
    else vulnerabilities in
  (* Determine overall security risk *)
  let overall_risk := "LOW" in
  let overall_risk :=
    if existsb (fun v => in_list (v_severity v) ["CRITICAL"; "HIGH"]) vulnerabilities
    then if existsb (fun v => String.eqb (v_severity v) "CRITICAL") vulnerabilities
         then "HIGH" else "MEDIUM"
    else overall_risk in
  (* Generate simple recommendations as strings *)
  let recommendations := [] in
  (* Count vulnerabilities by severity *)
  let critical_count :=
    Z.of_nat (length (filter (fun v => String.eqb (v_severity v) "CRITICAL")
                             vulnerabilities)) in
  let high_count :=
    Z.of_nat (length (filter (fun v => String.eqb (v_severity v) "HIGH")
                             vulnerabilities)) in
  let recommendations :=
    if critical_count >? 0
    then (recommendations
         ++ ["Critical security issue detected! Immediate action required."])%list
    else recommendations in
  let recommendations :=
    if high_count >? 0
    then (recommendations
         ++ ["High severity vulnerability detected. Address immediately."])%list
    else recommendations in
  (* Code quality recommendations *)
  let recommendations :=
    if complexity_score >? 70
    then (recommendations
         ++ ["Consider breaking down complex methods into smaller, more manageable functions"])%list
    else recommendations in
  let recommendations :=
    if quality_score <? 60
    then (recommendations ++ ["Add proper exception handling with try-catch blocks"])%list
    else recommendations in
  let recommendations :=
    if Qltb (test_coverage metrics) 0.7
    then (recommendations ++ ["Increase test coverage to at least 70%"])%list
    else recommendations in
  (* Add default recommendation if none *)
  let recommendations :=
    if is_empty recommendations
    then (recommendations
         ++ ["Code follows good practices. Continue maintaining quality standards."])%list
    else recommendations in
  (* Build response *)
  {| conceptAnalysis :=
       {| complexityScore := complexity_score;
          detectedConcepts := detected_concepts |};
     linesOfCode := lines_of_code;
     qualityScore := quality_score;
     recommendations := recommendations;
     securityAnalysis :=
       {| overallRisk := overall_risk;
          vulnerabilities := vulnerabilities |} |}.

(** What the route answers: the response with status 200, an error
    message with status 400, or status 500 from the [except] branch, whose
    body (the text of the exception and its traceback) is not modelled. *)
Inductive http_reply : Type :=
| Reply200 (r : response)
| Reply400 (error : string)
| Reply500.

(** A parsed JSON value, as [request.json] returns it: [None], a [bool], a
    number, a [str], a [list] or a [dict] (the items of the dict, each key
    once). *)
#[local] Set Warnings "-register-all".
Inductive json_value : Type :=
| JNull
| JBool (b : bool)
| JNumber (x : Q)
| JString (s : string)
| JArray (items : list json_value)
| JObject (items : list (string * json_value)).
#[local] Set Warnings "register-all".

(** The request as the route reads it: [request.json] raises when the
    request does not carry a JSON body that parses, and returns the parsed
    value otherwise. *)
Inductive request_body : Type :=
| NoJsonBody
| JsonBody (request_json : json_value).

(** Truth value of a parsed JSON value. *)
Definition json_truthy (v : json_value) : bool :=
  match v with
  | JNull => false
  | JBool b => b
  | JNumber x => negb (Qeq_bool x 0)
  | JString s => truthy s
  | JArray items => negb (is_empty items)
  | JObject items => negb (is_empty items)
  end.

(** [v == k] for a string [k]: only a string equals a string. *)
Definition json_is_string (k : string) (v : json_value) : bool :=
  match v with
  | JString s => String.eqb s k
  | _ => false
  end.

(** [k in v]: a key of a dict, an element of a list, a piece of a string;
    [None] is the TypeError of a value that is not iterable. *)
Definition json_contains (v : json_value) (k : string) : option bool :=
  match v with
  | JObject items => Some (has_key items k)
  | JArray items => Some (existsb (json_is_string k) items)
  | JString s => Some (str_in k s)
  | JNull | JBool _ | JNumber _ => None
  end.

(** [v[k]] for a string [k]: the value under the key of a dict; [None] is
    the KeyError of a dict without the key and the TypeError of any other
    value. *)
Definition json_subscript (v : json_value) (k : string) : option json_value :=
  match v with
  | JObject items => assoc k items
  | _ => None
  end.

(** The request whose body is the JSON object with the one field [code]. *)
Definition code_request (java_code : string) : request_body :=
  JsonBody (JObject [("code", JString java_code)]).

(** [analyze_code]: the validation of the request, the report, and the
    [except] branch that turns every exception into status 500. *)
Definition analyze_code (request : request_body) : http_reply :=
  match request with
  | NoJsonBody => Reply500
  | JsonBody request_json =>
      (* Validate request *)
      if negb (json_truthy request_json)
      then Reply400 ("Missing " ++ dq ++ "code" ++ dq ++ " field in request")
      else
        match json_contains request_json "code" with
        | None => Reply500
        | Some false =>
            Reply400 ("Missing " ++ dq ++ "code" ++ dq ++ " field in request")
        | Some true =>
            match json_subscript request_json "code" with
            | Some (JString java_code) =>
                if negb (truthy (strip java_code))
                then Reply400 "Code cannot be empty"
                else Reply200 (build_response java_code)
            | Some _ => Reply500    (* no attribute 'strip' *)
            | None => Reply500
            end
        end
  end.

(** ** The specification's reading of the code

    The definitions below follow the words of the specification, not the
    source; the theorems compare them with the functions above. *)

(** *** Ordered rule lists, first match wins *)

Module FirstMatch.
Section Generic.
Context {I R : Type}.

Definition rule : Type := (I -> bool) * R.

Fixpoint first_match (rules : list rule) (default : R) (x : I) : R :=
  match rules with
  | [] => default
  | (guard, verdict) :: rest =>
      if guard x then verdict else first_match rest default x
  end.

(** Branch [i] fires on [x]: every earlier guard is false and guard [i] is
    true; the index [length rules] stands for the final fall-through. *)
Definition fires (rules : list rule) (x : I) (i : nat) : Prop :=
  (forall j, (j < i)%nat ->
     exists g r, nth_error rules j = Some (g, r) /\ g x = false)
  /\ match nth_error rules i with
     | Some (g, _) => g x = true
     | None => i = length rules
     end.

(** The verdict attached to branch [i]. *)
Definition verdict_of (rules : list rule) (default : R) (i : nat) : R :=
  match nth_error rules i with
  | Some (_, r) => r
  | None => default
  end.

End Generic.
End FirstMatch.

(** *** The vulnerability decision list (specification, section 4.3) *)

Module DecisionList.

Definition sql_injection_pred (code : string) : bool :=
  ((str_in "+" code || str_in "concat" (lower code))
   && (str_in "SELECT" code || str_in "select" (lower code)))
  || (str_in (dq ++ "SELECT") code && str_in "+" code).

Definition xss_pred (code : string) : bool :=
  (str_in "@GetMapping" code && str_in ("return " ++ dq ++ "<") code)
  || (str_in "<div>" code && str_in "+" code).

Definition path_traversal_pred (code : string) : bool :=
  ((str_in "File(" code || str_in "Paths.get" code) && str_in "+" code)
  || (str_in "uploads" (lower code) && str_in "+" code).

Definition xxe_pred (code : string) : bool :=
  (str_in "DocumentBuilderFactory" code || str_in "parseXML" code)
  && negb (str_in "setFeature" code).

Definition authentication_bypass_pred (code : string) : bool :=
  str_in "password.length()" code
  || str_in (".equals(" ++ dq ++ "admin" ++ dq ++ ")") code
  || (str_in ".length() >" code && str_in "password" (lower code)).

Definition insecure_deserialization_pred (code : string) : bool :=
  str_in "ObjectInputStream" code && str_in ".readObject()" code.

Definition secure_state_pred (code : string) : bool :=
  (str_in "BCryptPasswordEncoder" code || str_in "encoder.encode" code)
  && str_in "@Valid" code.

(** The seven guarded rules in priority order; when none of them fires the
    detector falls through to [no_vulnerability_result]. *)
Definition vulnerability_rules : list (@FirstMatch.rule string vuln_result) :=
  [ (sql_injection_pred, sql_injection_result);
    (xss_pred, xss_result);
    (path_traversal_pred, path_traversal_result);
    (xxe_pred, xxe_result);
    (authentication_bypass_pred, authentication_bypass_result);
    (insecure_deserialization_pred, insecure_deserialization_result);
    (secure_state_pred, secure_result) ].

(** The first alternative of the SQL-injection predicate: concatenation
    ('+', or 'concat' in any case) together with 'SELECT', or 'select' in
    any case. *)
Definition sql_concat_pred (code : string) : bool :=
  (str_in "+" code || str_in "concat" (lower code))
  && (str_in "SELECT" code || str_in "select" (lower code)).

(** None of the six vulnerability predicates holds. *)
Definition no_vulnerability_pred (code : string) : bool :=
  negb (sql_injection_pred code) && negb (xss_pred code)
  && negb (path_traversal_pred code) && negb (xxe_pred code)
  && negb (authentication_bypass_pred code)
  && negb (insecure_deserialization_pred code).

End DecisionList.

(** *** The cohesion cascade (specification, section 4.4) *)

Module CohesionCascade.

(** The cascade as [extract_code_metrics] runs it, over its locals. *)
Definition cascade : list (@FirstMatch.rule metric_locals Q) :=
  [ (is_singleton, 0.92%Q);
    (is_factory, 0.85%Q);
    (is_builder, 0.88%Q);
    (is_prototype, 0.82%Q);
    (is_abstract_factory, 0.80%Q);
    (fun L => is_adapter L || is_decorator L || is_proxy L, 0.78%Q);
    (fun L => is_composite L || is_facade L || is_bridge L, 0.75%Q);
    (is_flyweight, 0.73%Q);
    (fun L => is_strategy L || is_observer L || is_command L, 0.77%Q);
    (is_service_layer, 0.75%Q);
    (fun L => is_spring_mvc L || is_restful_api L, 0.70%Q);
    (fun L => is_exception_handling L || is_spring_error L, 0.80%Q);
    (is_reactive, 0.76%Q) ].

Definition default : Q := 0.60%Q.

(** The pattern booleans that the cascade reads, each as a test on the
    text: the assignment of [extract_code_metrics] to the boolean, preceded
    by the assignments it depends on. *)
Module Flag.

(** [is_singleton] *)
Definition singleton (java_code : string) : bool :=
  let code_lower := lower java_code in
  let has_private_constructor := str_in "private " java_code && str_in "()" java_code in
  let has_static_instance := (str_in "static" java_code
      && str_in "instance" code_lower) || str_in "private static" java_code in
  let has_get_instance := str_in "getInstance" java_code
      || str_in "instance()" java_code in
  has_private_constructor && has_static_instance && has_get_instance.

(** [is_factory] *)
Definition factory (java_code : string) : bool :=
  let lines := split_lines java_code in
  let num_static := count java_code "static " in
  let num_if := Z.of_nat (length (filter (fun l => str_in " if " l || str_in " if(" l
      || str_in "if(" l) lines)) in
  let has_factory_keywords := existsb (fun kw => str_in kw java_code) ["getCar"; "getProduct"; "createButton"; "create"; "Factory"] in
  let has_switch_return := str_in "switch" java_code && str_in "return new" java_code in
  let has_if_return := (num_if >=? 2) && str_in "return new" java_code in
  (has_factory_keywords && (has_switch_return || has_if_return))
      || (str_in "Factory" java_code && str_in "return new" java_code
      && (num_static >=? 1)).

(** [is_builder] *)
Definition builder (java_code : string) : bool :=
  let code_lower := lower java_code in
  let num_classes := count java_code "class " in
  let has_builder_class := (str_in "Builder" java_code
      || str_in "builder" code_lower) && (num_classes >=? 2) in
  let has_build_method := str_in "build()" java_code || str_in ".build()" java_code in
  let has_fluent_api := str_in "return this" java_code in
  let has_chaining := (count java_code "return this" >=? 2) in
  (has_builder_class && has_build_method && has_fluent_api) || (has_chaining
      && has_build_method).

(** [is_prototype] *)
Definition prototype (java_code : string) : bool :=
  let code_lower := lower java_code in
  let num_methods := count java_code "public " + count java_code "private " + count java_code "protected " in
  let has_clone := str_in ".clone()" java_code || str_in "clone()" java_code
      || (str_in "@Override" java_code && str_in "clone" code_lower) in
  let has_cloneable := str_in "Cloneable" java_code
      || str_in "implements Cloneable" java_code in
  let has_copy_constructor := (str_in "public " java_code || truthy "private ")
      && str_in "(this)" java_code in
  has_clone || has_cloneable || (has_copy_constructor && (num_methods >=? 1)).

(** [is_abstract_factory] *)
Definition abstract_factory (java_code : string) : bool :=
  let code_lower := lower java_code in
  let num_interfaces := count java_code "interface " in
  let has_abstract_factory := str_in "AbstractFactory" java_code
      || (str_in "abstract" code_lower && str_in "Factory" java_code) in
  let has_factory_interface := str_in "interface" java_code
      && str_in "Factory" java_code in
  let has_multiple_create := (count java_code "create" >=? 2)
      || (count java_code "Factory" >=? 2) in
  has_abstract_factory || (has_factory_interface && has_multiple_create
      && (num_interfaces >=? 1)).

(** [is_adapter] *)
Definition adapter (java_code : string) : bool :=
  let code_lower := lower java_code in
  let has_adapter := str_in "Adapter" java_code in
  let has_adaptee := str_in "adaptee" code_lower || str_in "wrapped" code_lower in
  let has_delegation := str_in "adaptee." java_code || str_in ".playVlc" java_code
      || str_in "legacy." java_code in
  has_adapter || (has_adaptee && str_in "implements" java_code) || (has_delegation
      && str_in "implements" java_code).

(** [is_decorator] *)
Definition decorator (java_code : string) : bool :=
  let code_lower := lower java_code in
  let num_classes := count java_code "class " in
  let has_decorator := str_in "Decorator" java_code in
  let has_component := str_in "component" code_lower || str_in "Component" java_code in
  let wraps_and_calls := str_in "component." java_code
      && str_in "implements" java_code in
  has_decorator || (has_component && wraps_and_calls && (num_classes >=? 1)).

(** [is_proxy] *)
Definition proxy (java_code : string) : bool :=
  let code_lower := lower java_code in
  let has_proxy := str_in "Proxy" java_code in
  let has_real_subject := str_in "real" code_lower && (str_in "Subject" java_code
      || str_in "Image" java_code) in
  let has_check_access := str_in "checkAccess" java_code
      || (str_in "check" code_lower && str_in "access" code_lower) in
  has_proxy || (has_real_subject && has_check_access) || (str_in "real." code_lower
      && str_in "implements" java_code).

(** [is_composite] *)
Definition composite (java_code : string) : bool :=
  let code_lower := lower java_code in
  let has_composite := str_in "Composite" java_code in
  let has_children := str_in "children" code_lower
      || str_in "List<Component>" java_code in
  let has_add_method := str_in ".add(" java_code && has_children in
  let has_loop_children := str_in "for" java_code && str_in "children" code_lower in
  has_composite || (has_children && has_add_method) || has_loop_children.

(** [is_facade] *)
Definition facade (java_code : string) : bool :=
  let num_classes := count java_code "class " in
  let num_methods := count java_code "public " + count java_code "private " + count java_code "protected " in
  let has_facade := str_in "Facade" java_code in
  let has_multiple_systems := (count java_code "System" >=? 2)
      || (count java_code "." >=? 5) in
  let simplifies := (num_methods >=? 2) && has_multiple_systems in
  has_facade || (simplifies && (num_classes <=? 3)).

(** [is_bridge] *)
Definition bridge (java_code : string) : bool :=
  let code_lower := lower java_code in
  let has_bridge := str_in "Bridge" java_code in
  let has_implementation := str_in "implementation" code_lower
      || str_in "DrawingAPI" java_code in
  let has_abstract_shape := str_in "abstract" java_code && (str_in "Shape" java_code
      || str_in "class" java_code) in
  has_bridge || (has_implementation && has_abstract_shape).

(** [is_flyweight] *)
Definition flyweight (java_code : string) : bool :=
  let code_lower := lower java_code in
  let has_flyweight := str_in "Flyweight" java_code in
  let has_cache := str_in "cache" code_lower || str_in "Map<" java_code
      || str_in "HashMap" java_code in
  let has_get_or_create := str_in "containsKey" java_code || (str_in "get" java_code
      && str_in "put" java_code) in
  has_flyweight || (has_cache && has_get_or_create).

(** [is_strategy] *)
Definition strategy (java_code : string) : bool :=
  let code_lower := lower java_code in
  let has_strategy := str_in "Strategy" java_code in
  let has_context := str_in "Context" java_code in
  let has_set_strategy := str_in "setStrategy" java_code
      || str_in "strategy" code_lower in
  has_strategy || (has_context && has_set_strategy).

(** [is_observer] *)
Definition observer (java_code : string) : bool :=
  let code_lower := lower java_code in
  let has_observer := str_in "Observer" java_code in
  let has_observers_list := str_in "List<Observer>" java_code
      || str_in "observers" code_lower in
  let has_notify := str_in "notify" code_lower || str_in "update" code_lower in
  let has_attach := str_in "attach" code_lower || str_in "register" code_lower in
  has_observer || (has_observers_list && (has_notify || has_attach)).

(** [is_command] *)
Definition command (java_code : string) : bool :=
  let code_lower := lower java_code in
  let has_command := str_in "Command" java_code in
  let has_execute := str_in "execute()" java_code || str_in "execute(" java_code in
  let has_receiver := str_in "receiver" code_lower || (str_in "Light" java_code
      && str_in "Command" java_code) in
  has_command || (has_execute && has_receiver).

(** [is_service_layer] *)
Definition service_layer (java_code : string) : bool :=
  let has_autowired := str_in "@Autowired" java_code in
  let has_service := str_in "@Service" java_code in
  let has_transactional := str_in "@Transactional" java_code in
  has_service || (has_transactional && has_autowired).

(** [is_spring_mvc] *)
Definition spring_mvc (java_code : string) : bool :=
  let has_rest_controller := str_in "@RestController" java_code
      || str_in "@Controller" java_code in
  let has_mapping := str_in "@GetMapping" java_code
      || str_in "@PostMapping" java_code || str_in "@RequestMapping" java_code in
  let has_path_variable := str_in "@PathVariable" java_code
      || str_in "@RequestBody" java_code in
  has_rest_controller && (has_mapping || has_path_variable).

(** [is_restful_api] *)
Definition restful_api (java_code : string) : bool :=
  let has_rest_controller := str_in "@RestController" java_code
      || str_in "@Controller" java_code in
  let has_api_methods := count java_code "@GetMapping" + count java_code "@PostMapping" + count java_code "@PutMapping" in
  (has_api_methods >=? 2) || (has_rest_controller
      && str_in "@RequestMapping" java_code).

(** [is_exception_handling] *)
Definition exception_handling (java_code : string) : bool :=
  let has_exception_handler := str_in "@ExceptionHandler" java_code in
  let has_controller_advice := str_in "@RestControllerAdvice" java_code
      || str_in "@ControllerAdvice" java_code in
  let has_try_catch := str_in "try" java_code && str_in "catch" java_code in
  let has_throws := str_in "throws" java_code in
  has_exception_handler || has_controller_advice || has_try_catch || has_throws.

(** [is_spring_error] *)
Definition spring_error (java_code : string) : bool :=
  let has_exception_handler := str_in "@ExceptionHandler" java_code in
  let has_controller_advice := str_in "@RestControllerAdvice" java_code
      || str_in "@ControllerAdvice" java_code in
  has_controller_advice || (has_exception_handler && str_in "@" java_code).

(** [is_reactive] *)
Definition reactive (java_code : string) : bool :=
  let has_mono := str_in "Mono<" java_code in
  let has_flux := str_in "Flux<" java_code in
  let has_webclient := str_in "WebClient" java_code || str_in "webClient" java_code in
  let has_reactive_ops := str_in ".bodyToMono" java_code
      || str_in ".retrieve()" java_code in
  (has_mono || has_flux) && (has_webclient || has_reactive_ops).

End Flag.

(** The cascade over the text. *)
Definition text_cascade : list (@FirstMatch.rule string Q) :=
  [ (Flag.singleton, 0.92%Q);
    (Flag.factory, 0.85%Q);
    (Flag.builder, 0.88%Q);
    (Flag.prototype, 0.82%Q);
    (Flag.abstract_factory, 0.80%Q);
    (fun code => Flag.adapter code || Flag.decorator code || Flag.proxy code,
     0.78%Q);
    (fun code => Flag.composite code || Flag.facade code || Flag.bridge code,
     0.75%Q);
    (Flag.flyweight, 0.73%Q);
    (fun code => Flag.strategy code || Flag.observer code || Flag.command code,
     0.77%Q);
    (Flag.service_layer, 0.75%Q);
    (fun code => Flag.spring_mvc code || Flag.restful_api code, 0.70%Q);
    (fun code => Flag.exception_handling code || Flag.spring_error code,
     0.80%Q);
    (Flag.reactive, 0.76%Q) ].

End CohesionCascade.

(** *** The line heuristics (specification, section 4.1) *)

(** A line contains the keyword followed by a space or by '('. *)
Definition keyword_then_space_or_paren (kw line : string) : bool :=
  str_in (kw ++ " ") line || str_in (kw ++ "(") line.

(** Number of lines of the text that pass a test. *)
Definition count_lines (test : string -> bool) (java_code : string) : Z :=
  Z.of_nat (length (filter test (split_lines java_code))).

(** *** The cyclomatic formula (specification, section 4.4) *)

(** The lines that count as an [if], a [for], a [while] and a [switch]. *)
Definition if_line (line : string) : bool :=
  str_in " if " line || str_in "if(" line.

Definition for_line (line : string) : bool :=
  str_in " for " line || str_in "for(" line.

Definition while_line (line : string) : bool :=
  str_in " while " line || str_in " while(" line.

Definition switch_line (line : string) : bool := str_in "switch" line.

(** One plus the four line counts, plus the [case] and [catch] bonuses,
    at most 50: a function of the text alone. *)
Definition cyclomatic_formula (java_code : string) : Z :=
  let switch_lines := count_lines switch_line java_code in
  Z.min 50
    (1 + count_lines if_line java_code + count_lines for_line java_code
     + count_lines while_line java_code + switch_lines
     + (if switch_lines >? 0 then count java_code "case " - 1 else 0)
     + (if str_in "try" java_code && str_in "catch" java_code
        then count java_code "catch" else 0)).

(** Sixty lines that each hold an [if]. *)
Definition sixty_if_lines : string :=
  String.concat nl (repeat " if (a) {" 60).

(** A [try] with its [catch], and nothing else. *)
Definition try_catch_text : string := "try { f(); } catch (E e) {}".

(** *** The quality score (specification, section 4.5) *)

(** The weighted sum under the [round] of the specification. *)
Definition weighted_sum (m : code_metrics) : Q :=
  ((1 - Qmin (code_duplication m) 1) * 25
   + test_coverage m * 25
   + Qmin (comment_ratio m / 0.3) 1 * 25
   + cohesion m * 25)%Q.

(** [round(x)]: the nearest integer, a tie going to the even one. *)
Definition py_round (x : Q) : Z :=
  let f := Qfloor x in
  match (x - inject_Z f ?= 1 # 2)%Q with
  | Lt => f
  | Gt => f + 1
  | Eq => if Z.even f then f else f + 1
  end.

(** *** The severities of the findings of a report *)

Definition has_severity (sev : string) (r : response) : Prop :=
  exists v, In v (vulnerabilities (securityAnalysis r)) /\ v_severity v = sev.

(** *** The singleton scenario (specification, section 8) *)

(** A singleton-shaped text: 'private ' and '()', a static instance
    indicator, and 'getInstance' or 'instance()'. *)
Definition singleton_shape (code : string) : bool :=
  (str_in "private " code && str_in "()" code)
  && ((str_in "static" code && str_in "instance" (lower code))
      || str_in "private static" code)
  && (str_in "getInstance" code || str_in "instance()" code).

(** An entry of [detectedConcepts] carries the display name [name] and a
    key [confidence] of value [q]. *)
Definition concept_with_confidence (r : response) (name : string) (q : Q) : Prop :=
  exists c q',
    In c (detectedConcepts (conceptAnalysis r))
    /\ assoc "name" c = Some (VStr name)
    /\ assoc "confidence" c = Some (VFloat q')
    /\ (q' == q)%Q.

(** *** Text that survives [strip] *)

(** Some character of the string is not white space. *)
Fixpoint has_ink (s : string) : bool :=
  match s with
  | EmptyString => false
  | String c s' => negb (is_space c) || has_ink s'
  end.

(** ** Sample texts *)

(** The singleton class that [direct_detection.py] analyses when it is run
    as a script. *)
Definition singleton_text : string :=
  "public class Database {" ++ nl ++
  "    private static Database instance;" ++ nl ++
  "    private Database() {}" ++ nl ++
  "    " ++ nl ++
  "    public static Database getInstance() {" ++ nl ++
  "        if (instance == null) {" ++ nl ++
  "            instance = new Database();" ++ nl ++
  "        }" ++ nl ++
  "        return instance;" ++ nl ++
  "    }" ++ nl ++
  "}".

(** The dict that the first rule of the pattern detector appends. *)
Definition singleton_entry : pydict :=
  [("pattern", VStr "singleton_design_pattern");
   ("confidence", VFloat 0.95);
   ("theory", VStr "Singleton Design Pattern");
   ("references", VStrs [])].

(** SQL concatenation next to an unhardened XML parser. *)
Definition sql_and_xxe_text : string :=
  "DocumentBuilderFactory f = DocumentBuilderFactory.newInstance(); "
  ++ "String q = " ++ dq ++ "SELECT * FROM t WHERE id = " ++ dq ++ " + id;".

(** A one-line factory without comments. *)
Definition factory_text : string := "static Factory f() { return new X(); }".

(** An object stream that is read back. *)
Definition deserialization_text : string :=
  "ObjectInputStream in = new ObjectInputStream(socket.getInputStream());" ++ nl ++
  "Object o = in.readObject();".

(** An XML parser factory without [setFeature]. *)
Definition xxe_text : string :=
  "DocumentBuilderFactory f = DocumentBuilderFactory.newInstance();".

(** * Further definitions *)

(** ** The rule table of the pattern detector *)

(** The 48 dicts that [detect_patterns_directly] can append, in the order
    of its rules. *)
Definition all_pattern_entries : list pydict :=
  [
    [("pattern", VStr "singleton_design_pattern");
     ("confidence", VFloat 0.95);
     ("theory", VStr "Singleton Design Pattern");
     ("references", VStrs [])];
    [("pattern", VStr "factory_design_pattern");
     ("confidence", VFloat 0.92);
     ("theory", VStr "Factory Design Pattern");
     ("references", VStrs [])];
    [("pattern", VStr "builder_design_pattern");
     ("confidence", VFloat 0.93);
     ("theory", VStr "Builder Design Pattern");
     ("references", VStrs [])];
    [("pattern", VStr "prototype_design_pattern");
     ("confidence", VFloat 0.90);
     ("theory", VStr "Prototype Design Pattern");
     ("references", VStrs [])];
    [("pattern", VStr "abstract_factory_design_pattern");
     ("confidence", VFloat 0.88);
     ("theory", VStr "Abstract Factory Design Pattern");
     ("references", VStrs [])];
    [("pattern", VStr "adapter_design_pattern");
     ("confidence", VFloat 0.91);
     ("theory", VStr "Adapter Design Pattern");
     ("references", VStrs [])];
    [("pattern", VStr "decorator_design_pattern");
     ("confidence", VFloat 0.90);
     ("theory", VStr "Decorator Design Pattern");
     ("references", VStrs [])];
    [("pattern", VStr "proxy_design_pattern");
     ("confidence", VFloat 0.89);
     ("theory", VStr "Proxy Design Pattern");
     ("references", VStrs [])];
    [("pattern", VStr "composite_design_pattern");
     ("confidence", VFloat 0.88);
     ("theory", VStr "Composite Design Pattern");
     ("references", VStrs [])];
    [("pattern", VStr "facade_design_pattern");
     ("confidence", VFloat 0.87);
     ("theory", VStr "Facade Design Pattern");
     ("references", VStrs [])];
    [("pattern", VStr "bridge_design_pattern");
     ("confidence", VFloat 0.86);
     ("theory", VStr "Bridge Design Pattern");
     ("references", VStrs [])];
    [("pattern", VStr "flyweight_design_pattern");
     ("confidence", VFloat 0.85);
     ("theory", VStr "Flyweight Design Pattern");
     ("references", VStrs [])];
    [("pattern", VStr "strategy_design_pattern");
     ("confidence", VFloat 0.90);
     ("theory", VStr "Strategy Design Pattern");
     ("references", VStrs [])];
    [("pattern", VStr "observer_design_pattern");
     ("confidence", VFloat 0.89);
     ("theory", VStr "Observer Design Pattern");
     ("references", VStrs [])];
    [("pattern", VStr "command_design_pattern");
     ("confidence", VFloat 0.88);
     ("theory", VStr "Command Design Pattern");
     ("references", VStrs [])];
    [("pattern", VStr "template_method_design_pattern");
     ("confidence", VFloat 0.87);
     ("theory", VStr "Template Method Design Pattern");
     ("references", VStrs [])];
    [("pattern", VStr "iterator_design_pattern");
     ("confidence", VFloat 0.92);
     ("theory", VStr "Iterator Design Pattern");
     ("references", VStrs [])];
    [("pattern", VStr "state_design_pattern");
     ("confidence", VFloat 0.86);
     ("theory", VStr "State Design Pattern");
     ("references", VStrs [])];
    [("pattern", VStr "chain_of_responsibility_design_pattern");
     ("confidence", VFloat 0.85);
     ("theory", VStr "Chain Of Responsibility Design Pattern");
     ("references", VStrs [])];
    [("pattern", VStr "mediator_design_pattern");
     ("confidence", VFloat 0.84);
     ("theory", VStr "Mediator Design Pattern");
     ("references", VStrs [])];
    [("pattern", VStr "memento_design_pattern");
     ("confidence", VFloat 0.86);
     ("theory", VStr "Memento Design Pattern");
     ("references", VStrs [])];
    [("pattern", VStr "visitor_design_pattern");
     ("confidence", VFloat 0.88);
     ("theory", VStr "Visitor Design Pattern");
     ("references", VStrs [])];
    [("pattern", VStr "interpreter_design_pattern");
     ("confidence", VFloat 0.87);
     ("theory", VStr "Interpreter Design Pattern");
     ("references", VStrs [])];
    [("pattern", VStr "dependency_injection");
     ("confidence", VFloat 0.94);
     ("theory", VStr "Dependency Injection");
     ("references", VStrs [])];
    [("pattern", VStr "spring_mvc_pattern");
     ("confidence", VFloat 0.93);
     ("theory", VStr "Spring MVC Pattern");
     ("references", VStrs [])];
    [("pattern", VStr "restful_api_pattern");
     ("confidence", VFloat 0.92);
     ("theory", VStr "RESTful API Pattern");
     ("references", VStrs [])];
    [("pattern", VStr "repository_pattern");
     ("confidence", VFloat 0.93);
     ("theory", VStr "Repository Pattern");
     ("references", VStrs [])];
    [("pattern", VStr "service_layer_pattern");
     ("confidence", VFloat 0.91);
     ("theory", VStr "Service Layer Pattern");
     ("references", VStrs [])];
    [("pattern", VStr "dto_pattern");
     ("confidence", VFloat 0.89);
     ("theory", VStr "DTO Pattern");
     ("references", VStrs [])];
    [("pattern", VStr "aop_pattern");
     ("confidence", VFloat 0.92);
     ("theory", VStr "AOP Pattern");
     ("references", VStrs [])];
    [("pattern", VStr "oop_fundamentals");
     ("confidence", VFloat 0.88);
     ("theory", VStr "OOP Fundamentals");
     ("references", VStrs [])];
    [("pattern", VStr "collections_framework");
     ("confidence", VFloat 0.90);
     ("theory", VStr "Collections Framework");
     ("references", VStrs [])];
    [("pattern", VStr "exception_handling");
     ("confidence", VFloat 0.92);
     ("theory", VStr "Exception Handling");
     ("references", VStrs [])];
    [("pattern", VStr "conditional_control_flow");
     ("confidence", VFloat 0.86);
     ("theory", VStr "Conditional Control Flow");
     ("references", VStrs [])];
    [("pattern", VStr "loops_and_iteration");
     ("confidence", VFloat 0.85);
     ("theory", VStr "Loops And Iteration");
     ("references", VStrs [])];
    [("pattern", VStr "basic_programming_constructs");
     ("confidence", VFloat 0.80);
     ("theory", VStr "Basic Programming Constructs");
     ("references", VStrs [])];
    [("pattern", VStr "optional_null_safety");
     ("confidence", VFloat 0.91);
     ("theory", VStr "Optional Null Safety");
     ("references", VStrs [])];
    [("pattern", VStr "functional_programming");
     ("confidence", VFloat 0.90);
     ("theory", VStr "Functional Programming");
     ("references", VStrs [])];
    [("pattern", VStr "spring_boot_error_handling");
     ("confidence", VFloat 0.93);
     ("theory", VStr "Spring Boot Error Handling");
     ("references", VStrs [])];
    [("pattern", VStr "reactive_programming");
     ("confidence", VFloat 0.92);
     ("theory", VStr "Reactive Programming");
     ("references", VStrs [])];
    [("pattern", VStr "utility_libraries");
     ("confidence", VFloat 0.84);
     ("theory", VStr "Utility Libraries");
     ("references", VStrs [])];
    [("pattern", VStr "lombok_jpa_annotations");
     ("confidence", VFloat 0.91);
     ("theory", VStr "Lombok JPA Annotations");
     ("references", VStrs [])];
    [("pattern", VStr "core_annotations_di");
     ("confidence", VFloat 0.90);
     ("theory", VStr "Core Annotations DI");
     ("references", VStrs [])];
    [("pattern", VStr "web_mvc_annotations");
     ("confidence", VFloat 0.89);
     ("theory", VStr "Web MVC Annotations");
     ("references", VStrs [])];
    [("pattern", VStr "http_request_processing");
     ("confidence", VFloat 0.88);
     ("theory", VStr "HTTP Request Processing");
     ("references", VStrs [])];
    [("pattern", VStr "openapi_documentation");
     ("confidence", VFloat 0.91);
     ("theory", VStr "OpenAPI Documentation");
     ("references", VStrs [])];
    [("pattern", VStr "spring_data_jpa");
     ("confidence", VFloat 0.92);
     ("theory", VStr "Spring Data JPA");
     ("references", VStrs [])];
    [("pattern", VStr "batch_processing_etl");
     ("confidence", VFloat 0.89);
     ("theory", VStr "Batch Processing ETL");
     ("references", VStrs [])] ].

(** The value of [detected] after a run of [if cond: detected.append(entry)]
    statements, one per pair. *)
Definition collect (rules : list (bool * pydict)) : list pydict :=
  fold_left (fun detected r => append_if (fst r) detected (snd r)) rules [].

(** ['pattern'] of an entry of the detector. *)
Definition pattern_key (d : pydict) : string := get_str d "pattern" "unknown".

(** Some entry of the list has the given pattern key. *)
Definition has_pattern (key : string) (detected : list pydict) : bool :=
  existsb (fun d => String.eqb (pattern_key d) key) detected.

(** ['confidence'] of an entry of the detector. *)
Definition confidence_of (d : pydict) : option Q :=
  match assoc "confidence" d with
  | Some (VFloat q) => Some q
  | _ => None
  end.

(** The entries of a rule table whose condition holds, in table order. *)
Fixpoint select {A : Type} (conds : list bool) (entries : list A) : list A :=
  match conds, entries with
  | c :: cs, e :: es => if c then e :: select cs es else select cs es
  | _, _ => []
  end.

(** No string occurs twice in the list. *)
Fixpoint nodupb (l : list string) : bool :=
  match l with
  | [] => true
  | x :: r => negb (in_list x r) && nodupb r
  end.

(** The answer of [analyze_code] to a request without a usable [code]
    field. *)
Definition missing_code_field : http_reply :=
  Reply400 ("Missing " ++ dq ++ "code" ++ dq ++ " field in request").

(** Every character of the text is white space (so also the empty text). *)
Definition is_blank (s : string) : bool :=
  forallb is_space (list_ascii_of_string s).

(** The seven keys of an entry of [detectedConcepts], in insertion order. *)
Definition concept_keys : list string :=
  ["name"; "category"; "description"; "theory"; "referenceLinks";
   "matchedWords"; "linesOfCode"].

(** The ten category labels other than the fall-back "OTHER PATTERNS". *)
Definition named_categories : list string :=
  ["CREATIONAL DESIGN PATTERNS"; "STRUCTURAL DESIGN PATTERNS";
   "BEHAVIORAL DESIGN PATTERNS"; "SPRING FRAMEWORK PATTERNS";
   "CORE JAVA CONCEPTS"; "MODERN JAVA FEATURES"; "SPRING BOOT ECOSYSTEM";
   "WEB DEVELOPMENT"; "API DOCUMENTATION"; "DATABASE INTEGRATION"].

(** ** comprehensive_test_suite.py: reading a finding back *)

(** [vuln.get('type', '').lower().replace(' ', '_')] in [test_code]: the
    key under which the test suite compares a reported finding. *)
Definition normalize_vuln_type (vuln_type : string) : string :=
  replace (lower vuln_type) " " "_".

(** ** security_analysis_system.py: Agent3_OutputAggregator *)

(** A finding as the aggregator reads it: a dict whose values under
    'severity', 'description' and 'vulnerability' are strings. *)
Definition finding : Type := list (string * string).

(** [max(l)] for a list with first element [x]. *)
Definition py_max (x : Z) (rest : list Z) : Z := fold_left Z.max rest x.

(** [_calculate_risk_level] *)
Definition calculate_risk_level (security_results : list finding) : string :=
  if is_empty security_results then "LOW"
  else
    let severity_map := [("CRITICAL", 4); ("HIGH", 3); ("MEDIUM", 2); ("LOW", 1)] in
    let max_severity :=
      match map (fun v => dict_get severity_map (dict_get v "severity" "LOW") 1)
                security_results with
      | [] => 1
      | x :: rest => py_max x rest
      end in
    if max_severity >=? 4 then "CRITICAL"
    else if max_severity >=? 3 then "HIGH"
    else if max_severity >=? 2 then "MEDIUM"
    else "LOW".

(** [str(x)] of the result of [dict.get(key)]: the string itself, or
    [None] printed. *)
Definition fmt_opt (x : option string) : string :=
  match x with
  | Some s => s
  | None => "None"
  end.

(** The loop [for vuln in security_results:] of
    [_generate_recommendations]. [None] stands for the [KeyError] that
    [vuln['vulnerability']] raises on a finding without that key: the
    default of [vuln.get('description', ...)] is evaluated before the
    lookup. *)
Fixpoint urgent_recommendations (security_results : list finding)
                                (recommendations : list string)
  : option (list string) :=
  match security_results with
  | [] => Some recommendations
  | vuln :: rest =>
      if match assoc "severity" vuln with
         | Some s => in_list s ["CRITICAL"; "HIGH"]
         | None => false
         end
      then
        match assoc "vulnerability" vuln with
        | None => None
        | Some name =>
            urgent_recommendations rest
              (recommendations
               ++ [("URGENT: Address " ++ dict_get vuln "description" name
                    ++ " (Severity: " ++ fmt_opt (assoc "severity" vuln)
                    ++ ")")%string])%list
        end
      else urgent_recommendations rest recommendations
  end.

(** [_generate_recommendations]; only the number of [theory_results] is
    read. *)
Definition generate_recommendations (theory_results : list pydict)
                                    (security_results : list finding)
  : option (list string) :=
  let recommendations := [] in
  (* Security recommendations *)
  match urgent_recommendations security_results recommendations with
  | None => None
  | Some recommendations =>
      (* Theory recommendations *)
      let recommendations :=
        if Z.of_nat (length theory_results) >? 5
        then (recommendations
              ++ ["Consider refactoring: Code shows high pattern complexity"])%list
        else recommendations in
      let recommendations :=
        if is_empty recommendations
        then (recommendations
              ++ ["No critical issues found. Continue with best practices."])%list
        else recommendations in
      Some recommendations
  end.

(** The dict that [detect_vulnerabilities_directly] returns, as the
    aggregator reads it: its string-valued keys. *)
Definition finding_of_verdict (v : vuln_result) : finding :=
  [("vulnerability", vulnerability v); ("severity", severity v);
   ("description", description v)].

(** ** Character-wise views of strings *)

(** Every character of the string passes the test. *)
Fixpoint all_chars (P : ascii -> bool) (s : string) : bool :=
  match s with
  | EmptyString => true
  | String c s' => P c && all_chars P s'
  end.

(** The string with a function applied to each character. *)
Fixpoint map_chars (f : ascii -> ascii) (s : string) : string :=
  match s with
  | EmptyString => EmptyString
  | String c s' => String (f c) (map_chars f s')
  end.

(** The code point is below 128. *)
Definition is_ascii_char (c : ascii) : bool := (nat_of_ascii c <? 128)%nat.

Definition is_not (a : ascii) (c : ascii) : bool := negb (Ascii.eqb c a).

(** ['severity'] of a finding as the aggregator reads it, LOW when the key
    is missing. *)
Definition finding_severity (v : finding) : string := dict_get v "severity" "LOW".

(** The rank of a severity label in [severity_map], 1 for any other
    string. *)
Definition severity_rank (s : string) : Z :=
  dict_get [("CRITICAL", 4); ("HIGH", 3); ("MEDIUM", 2); ("LOW", 1)] s 1.

(** The finding is one that [_generate_recommendations] reports:
    its severity is CRITICAL or HIGH. *)
Definition is_urgent (v : finding) : bool :=
  match assoc "severity" v with
  | Some s => in_list s ["CRITICAL"; "HIGH"]
  | None => false
  end.

(** The message that [_generate_recommendations] writes for an urgent
    finding that has a 'vulnerability' key. *)
Definition urgent_message (v : finding) : string :=
  "URGENT: Address " ++ dict_get v "description" (dict_get v "vulnerability" "")
  ++ " (Severity: " ++ finding_severity v ++ ")".

(** An urgent finding without the key 'vulnerability'. *)
Definition lacks_vulnerability_key (v : finding) : bool :=
  is_urgent v && negb (has_key v "vulnerability").

(** ** The recommendation texts of [analyze_code] *)

Definition critical_advice : string :=
  "Critical security issue detected! Immediate action required.".
Definition high_advice : string :=
  "High severity vulnerability detected. Address immediately.".
Definition refactor_advice : string :=
  "Consider breaking down complex methods into smaller, more manageable functions".
Definition exception_advice : string :=
  "Add proper exception handling with try-catch blocks".
Definition coverage_advice : string :=
  "Increase test coverage to at least 70%".

(** The fields of the concept built from a detector entry that do not
    depend on the analysed text: a named category, a display name without
    underscore, and the theory of the entry. *)
Definition concept_fields_ok (p : pydict) : bool :=
  let c := concept_of_pattern "" 0 p in
  match assoc "category" c, assoc "name" c, assoc "theory" c, assoc "theory" p with
  | Some (VStr cat), Some (VStr name), Some (VStr t), Some (VStr t') =>
      in_list cat named_categories && negb (str_in "_" name) && String.eqb t t'
      && negb (String.eqb name "")
  | _, _, _, _ => false
  end.

(** The concept built from a detector entry has two or three reference
    links. *)
Definition concept_links_ok (p : pydict) : bool :=
  match assoc "referenceLinks" (concept_of_pattern "" 0 p) with
  | Some (VStrs links) => (2 <=? length links)%nat && (length links <=? 3)%nat
  | _ => false
  end.

(** ** More sample texts *)

(** An XML parser factory that is hardened with [setFeature]. *)
Definition hardened_xml_text : string :=
  "DocumentBuilderFactory f = DocumentBuilderFactory.newInstance();" ++ nl ++
  "f.setFeature(XMLConstants.FEATURE_SECURE_PROCESSING, true);".

(** A query put together with [concat], without any '+'. *)
Definition concat_query_text : string :=
  "String q = base.concat(name); // select by name".

(** ** comprehensive_test_suite.py: test_code *)

(** [a == b] on lists of strings *)
Fixpoint str_list_eqb (a b : list string) : bool :=
  match a, b with
  | [], [] => true
  | x :: a', y :: b' => String.eqb x y && str_list_eqb a' b'
  | _, _ => false
  end.

(** The part of [test_code] that follows [data = response.json()]: the
    comparison of a report with the expected patterns and the expected
    vulnerabilities ([None] when the test gives none). *)
Definition check_report (data : response) (expected_patterns : list string)
                        (expected_vulnerabilities : option (list string)) : bool :=
  (* Extract detected patterns *)
  let concept_analysis := conceptAnalysis data in
  let detected_concepts := detectedConcepts concept_analysis in
  let detected_patterns :=
    map (fun concept => lower (get_str concept "name" "")) detected_concepts in
  (* Extract detected vulnerabilities *)
  let security := securityAnalysis data in
  let detected_vulns :=
    map (fun vuln => replace (lower (v_type vuln)) " " "_")
        (vulnerabilities security) in
  (* If no vulnerabilities, it's considered 'none' *)
  let detected_vulns :=
    if is_empty detected_vulns then (detected_vulns ++ ["none"])%list
    else detected_vulns in
  (* Check if expected patterns were found *)
  let patterns_found :=
    forallb (fun expected =>
               existsb (fun detected => str_in (lower expected) detected)
                       detected_patterns)
            expected_patterns in
  (* Check vulnerabilities if specified *)
  let vulns_correct := true in
  let vulns_correct :=
    match expected_vulnerabilities with
    | Some expected_vulnerabilities =>
        if in_list "none" expected_vulnerabilities
        then (* Expecting no vulnerabilities *)
          (Z.of_nat (length (vulnerabilities security)) =? 0)
          || str_list_eqb detected_vulns ["none"]
        else (* Expecting specific vulnerabilities *)
          existsb (fun expected =>
                     existsb (fun detected =>
                                str_in (lower expected) (lower detected))
                             detected_vulns)
                  expected_vulnerabilities
    | None => vulns_correct
    end in
  patterns_found && vulns_correct.

(** [test_code] against the route of this model: a status other than 200
    fails the test. *)
Definition test_code (code : string) (expected_patterns : list string)
                     (expected_vulnerabilities : option (list string)) : bool :=
  match analyze_code (code_request code) with
  | Reply200 data => check_report data expected_patterns expected_vulnerabilities
  | Reply400 _ => false
  | Reply500 => false
  end.

(** * Properties *)

(** ** Substring tests *)

Section Substrings.

Lemma startswith_app (p t : string) : startswith p (p ++ t) = true.
Proof.
  induction p as [|a p IH]; simpl.
  - reflexivity.
  - rewrite Ascii.eqb_refl. exact IH.
Qed.

Lemma startswith_inv (p s : string) :
  startswith p s = true -> exists t, s = p ++ t.
Proof.
  revert s. induction p as [|a p IH]; intros s H.
  - exists s. reflexivity.
  - destruct s as [|b s]; simpl in H; [discriminate|].
    apply andb_true_iff in H. destruct H as [Hab Hps].
    apply Ascii.eqb_eq in Hab. subst b.
    destruct (IH _ Hps) as [t ->]. exists t. reflexivity.
Qed.

Lemma append_assoc (a b c : string) : (a ++ b) ++ c = a ++ (b ++ c).
Proof. induction a as [|x a IH]; simpl; [reflexivity | now rewrite IH]. Qed.

(** [sub in s] holds exactly when [s] is [pre ++ sub ++ post]. *)
Lemma str_in_startswith (sub s : string) :
  startswith sub s = true -> str_in sub s = true.
Proof. intros H. destruct s; simpl; rewrite H; reflexivity. Qed.

Lemma str_in_intro (sub pre post : string) :
  str_in sub (pre ++ sub ++ post) = true.
Proof.
  induction pre as [|c pre IH]; simpl.
  - apply str_in_startswith, startswith_app.
  - rewrite IH. apply orb_true_r.
Qed.

Lemma str_in_inv (sub s : string) :
  str_in sub s = true -> exists pre post, s = pre ++ sub ++ post.
Proof.
  induction s as [|c s IH]; simpl; intros H.
  - rewrite orb_false_r in H. destruct (startswith_inv _ _ H) as [t ->].
    exists "", t. reflexivity.
  - apply orb_true_iff in H. destruct H as [H|H].
    + destruct (startswith_inv _ _ H) as [t ->]. exists "", t. reflexivity.
    + destruct (IH H) as (pre & post & ->). exists (String c pre), post.
      reflexivity.
Qed.

Lemma str_in_iff (sub s : string) :
  str_in sub s = true <-> exists pre post, s = pre ++ sub ++ post.
Proof.
  split.
  - apply str_in_inv.
  - intros (pre & post & ->). apply str_in_intro.
Qed.

(** A needle that is found stays found when characters are cut off its
    front: [' if(' in l] implies ['if(' in l]. *)
Lemma str_in_drop_prefix (a sub s : string) :
  str_in (a ++ sub) s = true -> str_in sub s = true.
Proof.
  intros H. apply str_in_inv in H. destruct H as (pre & post & ->).
  rewrite append_assoc, <- append_assoc. apply str_in_intro.
Qed.

Lemma lower_app (a b : string) : lower (a ++ b) = lower a ++ lower b.
Proof. induction a as [|x a IH]; simpl; [reflexivity | now rewrite IH]. Qed.

(** Lowering both sides keeps a match. *)
Lemma str_in_lower (sub s : string) :
  str_in sub s = true -> str_in (lower sub) (lower s) = true.
Proof.
  intros H. apply str_in_inv in H. destruct H as (pre & post & ->).
  rewrite !lower_app. apply str_in_intro.
Qed.

End Substrings.

(** ** First-match rule lists *)

Section FirstMatchFacts.
Context {I R : Type}.
Import FirstMatch.

Lemma fires_head_true (g : I -> bool) (r : R) rest x :
  g x = true -> forall i, fires ((g, r) :: rest) x i <-> i = 0%nat.
Proof.
  intros Hg i. split.
  - intros [Hlt _]. destruct i as [|i]; [reflexivity|].
    destruct (Hlt 0%nat) as (g' & r' & E & Hf); [lia|].
    simpl in E. injection E as <- <-. congruence.
  - intros ->. split; [intros j Hj; lia | exact Hg].
Qed.

Lemma fires_head_false (g : I -> bool) (r : R) rest x :
  g x = false ->
  forall i, fires ((g, r) :: rest) x i <-> exists k, i = S k /\ fires rest x k.
Proof.
  intros Hg i. unfold fires, rule in *. split.
  - intros [Hlt Hi]. destruct i as [|i].
    + simpl in Hi. congruence.
    + exists i. split; [reflexivity|]. split.
      * intros j Hj. destruct (Hlt (S j)) as (g' & r' & E & Hf); [lia|].
        exists g', r'. split; assumption.
      * simpl in Hi. destruct (nth_error rest i) as [[g' r']|] eqn:E;
          [exact Hi | simpl in Hi; lia].
  - intros (k & -> & Hlt & Hk). split.
    + intros j Hj. destruct j as [|j].
      * exists g, r. split; [reflexivity | exact Hg].
      * apply Hlt. lia.
    + simpl. destruct (nth_error rest k) as [[g' r']|] eqn:E;
        [exact Hk | simpl; lia].
Qed.

(** On every input exactly one branch of a rule list fires, and the list
    evaluates to the verdict of that branch. *)
Lemma first_match_fires (rules : list rule) (default : R) (x : I) :
  exists i, fires rules x i
            /\ (forall j, fires rules x j -> j = i)
            /\ (i <= length rules)%nat
            /\ first_match rules default x = verdict_of rules default i.
Proof.
  induction rules as [|[g r] rest IH].
  - exists 0%nat. repeat split.
    + intros j Hj. lia.
    + intros j [_ Hj]. destruct j; simpl in Hj; [reflexivity | discriminate].
    + simpl. lia.
  - destruct (g x) eqn:Hg.
    + exists 0%nat. repeat split.
      * intros j Hj. lia.
      * exact Hg.
      * intros j Hj. now apply (fires_head_true g r rest x Hg).
      * simpl. lia.
      * simpl. now rewrite Hg.
    + destruct IH as (i & Hi & Huniq & Hlen & Heq). exists (S i).
      split; [|split; [|split]].
      * apply (fires_head_false g r rest x Hg). now exists i.
      * intros j Hj. apply (fires_head_false g r rest x Hg) in Hj.
        destruct Hj as (k & -> & Hk). f_equal. now apply Huniq.
      * simpl. lia.
      * simpl. rewrite Hg. exact Heq.
Qed.

End FirstMatchFacts.

(** ** The vulnerability detector *)

Lemma detect_is_first_match (java_code : string) :
  detect_vulnerabilities_directly java_code
  = FirstMatch.first_match DecisionList.vulnerability_rules
      no_vulnerability_result java_code.
Proof. reflexivity. Qed.

Lemma sql_concat_wins (java_code : string) :
  DecisionList.sql_concat_pred java_code = true ->
  detect_vulnerabilities_directly java_code = sql_injection_result.
Proof.
  unfold DecisionList.sql_concat_pred, detect_vulnerabilities_directly.
  intros ->. reflexivity.
Qed.

(** The case-sensitive reading of the claim's 'select' is covered: a text
    that contains 'select' as written also contains it once lowered. *)
Lemma select_as_written (java_code : string) :
  (str_in "+" java_code || str_in "concat" (lower java_code))
  && (str_in "SELECT" java_code || str_in "select" java_code) = true ->
  DecisionList.sql_concat_pred java_code = true.
Proof.
  unfold DecisionList.sql_concat_pred. intros H.
  apply andb_true_iff in H. destruct H as [-> H]. simpl.
  apply orb_true_iff in H. destruct H as [->|H]; [reflexivity|].
  apply str_in_lower in H. change (lower "select") with "select" in H.
  rewrite H. apply orb_true_r.
Qed.

(** C1. The detector is its seven rules evaluated in the fixed order with
    return on first match: on every input exactly one branch (one of the
    seven rules, or the final fall-through) fires and the result is the
    verdict of that branch. In particular a text that satisfies both the
    SQL-injection predicate and the XXE predicate is reported as
    sql_injection with severity HIGH, not as xxe. *)
Theorem C1_first_match_sql_before_xxe (java_code : string) :
  detect_vulnerabilities_directly java_code
  = FirstMatch.first_match DecisionList.vulnerability_rules
      no_vulnerability_result java_code
  /\ (exists i,
        FirstMatch.fires DecisionList.vulnerability_rules java_code i
        /\ (forall j,
              FirstMatch.fires DecisionList.vulnerability_rules java_code j ->
              j = i)
        /\ (i <= 7)%nat
        /\ detect_vulnerabilities_directly java_code
           = FirstMatch.verdict_of DecisionList.vulnerability_rules
               no_vulnerability_result i)
  /\ (DecisionList.sql_concat_pred java_code = true ->
      DecisionList.xxe_pred java_code = true ->
      vulnerability (detect_vulnerabilities_directly java_code) = "sql_injection"
      /\ severity (detect_vulnerabilities_directly java_code) = "HIGH"
      /\ vulnerability (detect_vulnerabilities_directly java_code) <> "xxe").
Proof.
  split; [apply detect_is_first_match|]. split.
  - destruct (first_match_fires DecisionList.vulnerability_rules
                no_vulnerability_result java_code)
      as (i & Hi & Huniq & Hlen & Heq).
    exists i. rewrite detect_is_first_match. auto.
  - intros Hsql _. rewrite (sql_concat_wins _ Hsql).
    repeat split. discriminate.
Qed.

Lemma C1_witness :
  DecisionList.sql_concat_pred sql_and_xxe_text = true
  /\ DecisionList.xxe_pred sql_and_xxe_text = true
  /\ vulnerability (detect_vulnerabilities_directly sql_and_xxe_text)
     = "sql_injection"
  /\ severity (detect_vulnerabilities_directly sql_and_xxe_text) = "HIGH"
  /\ vulnerability (detect_vulnerabilities_directly sql_and_xxe_text) <> "xxe".
Proof.
  split; [reflexivity|]. split; [reflexivity|].
  apply (proj2 (proj2 (C1_first_match_sql_before_xxe sql_and_xxe_text)));
    reflexivity.
Defined.

(** ** The fields of the response *)

Section ResponseFields.
Variable java_code : string.

Let verdict := detect_vulnerabilities_directly java_code.
Let report := build_response java_code.

(** The list [vulnerabilities]: one entry unless the verdict is [none]. *)
Lemma response_vulnerabilities :
  vulnerabilities (securityAnalysis report)
  = if negb (String.eqb (vulnerability verdict) "none")
    then [ {| v_type := format_vulnerability_type (vulnerability verdict);
              v_severity := severity verdict;
              v_description := description verdict;
              v_remediation :=
                "Address " ++ format_vulnerability_type (vulnerability verdict)
                ++ " vulnerability by implementing proper security controls";
              v_references := get_security_references (vulnerability verdict) |} ]
    else [].
Proof. reflexivity. Qed.

Lemma response_overall_risk :
  overallRisk (securityAnalysis report)
  = let vs := vulnerabilities (securityAnalysis report) in
    if existsb (fun v => in_list (v_severity v) ["CRITICAL"; "HIGH"]) vs
    then if existsb (fun v => String.eqb (v_severity v) "CRITICAL") vs
         then "HIGH" else "MEDIUM"
    else "LOW".
Proof. reflexivity. Qed.

Lemma response_quality_score :
  qualityScore report
  = let m := extract_code_metrics java_code in
    py_int ((1 - py_min (code_duplication m) 1.0) * 25
            + test_coverage m * 25
            + py_min (comment_ratio m / 0.3) 1.0 * 25
            + cohesion m * 25)%Q.
Proof. reflexivity. Qed.

Lemma response_complexity_score :
  complexityScore (conceptAnalysis report)
  = Z.min (cyclomatic_complexity (extract_code_metrics java_code)) 100.
Proof. reflexivity. Qed.

Lemma response_detected_concepts :
  detectedConcepts (conceptAnalysis report)
  = map (concept_of_pattern java_code (linesOfCode report))
        (detect_patterns_directly java_code).
Proof. reflexivity. Qed.

(** The list [recommendations]: five guarded appends, then the fall-back
    when nothing was appended. *)
Lemma response_recommendations :
  recommendations report
  = let vs := vulnerabilities (securityAnalysis report) in
    let critical_count :=
      Z.of_nat (length (filter (fun v => String.eqb (v_severity v) "CRITICAL") vs)) in
    let high_count :=
      Z.of_nat (length (filter (fun v => String.eqb (v_severity v) "HIGH") vs)) in
    let r := [] in
    let r := if critical_count >? 0
             then (r ++ ["Critical security issue detected! Immediate action required."])%list
             else r in
    let r := if high_count >? 0
             then (r ++ ["High severity vulnerability detected. Address immediately."])%list
             else r in
    let r := if complexityScore (conceptAnalysis report) >? 70
             then (r ++ ["Consider breaking down complex methods into smaller, more manageable functions"])%list
             else r in
    let r := if qualityScore report <? 60
             then (r ++ ["Add proper exception handling with try-catch blocks"])%list
             else r in
    let r := if Qltb (test_coverage (extract_code_metrics java_code)) 0.7
             then (r ++ ["Increase test coverage to at least 70%"])%list
             else r in
    if is_empty r
    then (r ++ ["Code follows good practices. Continue maintaining quality standards."])%list
    else r.
Proof.
  unfold report, build_response.
  cbv beta iota zeta delta
    [recommendations securityAnalysis vulnerabilities conceptAnalysis
     complexityScore qualityScore].
  reflexivity.
Qed.

End ResponseFields.

(** ** The overall risk label *)

Section RiskLabel.
Variable vs : list vulnerability_entry.

Let some (sev : string) : Prop := exists v, In v vs /\ v_severity v = sev.

Lemma any_critical_iff :
  existsb (fun v => String.eqb (v_severity v) "CRITICAL") vs = true
  <-> some "CRITICAL".
Proof.
  unfold some. rewrite existsb_exists.
  split; intros (v & Hin & Hv); exists v; split; auto;
    now apply String.eqb_eq.
Qed.

Lemma any_critical_or_high_iff :
  existsb (fun v => in_list (v_severity v) ["CRITICAL"; "HIGH"]) vs = true
  <-> some "CRITICAL" \/ some "HIGH".
Proof.
  unfold some, in_list. rewrite existsb_exists. split.
  - intros (v & Hin & Hv). simpl in Hv. rewrite orb_false_r in Hv.
    apply orb_true_iff in Hv.
    destruct Hv as [Hv|Hv]; apply String.eqb_eq in Hv; [left|right];
      exists v; auto.
  - intros [(v & Hin & Hv)|(v & Hin & Hv)]; exists v; split; auto;
      rewrite Hv; reflexivity.
Qed.

Lemma risk_label_cases :
  let label :=
    if existsb (fun v => in_list (v_severity v) ["CRITICAL"; "HIGH"]) vs
    then if existsb (fun v => String.eqb (v_severity v) "CRITICAL") vs
         then "HIGH" else "MEDIUM"
    else "LOW" in
  (label = "HIGH" <-> some "CRITICAL")
  /\ (label = "MEDIUM" <-> ~ some "CRITICAL" /\ some "HIGH")
  /\ (label = "LOW" <-> ~ some "CRITICAL" /\ ~ some "HIGH").
Proof.
  cbv zeta.
  destruct (existsb (fun v => in_list (v_severity v) ["CRITICAL"; "HIGH"]) vs) eqn:A;
    destruct (existsb (fun v => String.eqb (v_severity v) "CRITICAL") vs) eqn:B.
  - apply any_critical_iff in B.
    repeat split; try discriminate; try tauto.
  - assert (NB : ~ some "CRITICAL")
      by (intros H; apply any_critical_iff in H; congruence).
    apply any_critical_or_high_iff in A.
    repeat split; try discriminate; try tauto.
  - apply any_critical_iff in B.
    assert (A' : some "CRITICAL" \/ some "HIGH") by (left; exact B).
    apply any_critical_or_high_iff in A'. congruence.
  - assert (NA : ~ (some "CRITICAL" \/ some "HIGH"))
      by (intros H; apply any_critical_or_high_iff in H; congruence).
    repeat split; try discriminate; try tauto.
Qed.

End RiskLabel.

(** C2. In every report [overallRisk] is "HIGH" exactly when a reported
    finding has severity CRITICAL, "MEDIUM" exactly when none is CRITICAL
    but one is HIGH, and "LOW" exactly when none is CRITICAL or HIGH (so
    also for a single MEDIUM finding and for no finding at all). *)
Theorem C2_overall_risk_label (java_code : string) :
  let r := build_response java_code in
  (overallRisk (securityAnalysis r) = "HIGH" <-> has_severity "CRITICAL" r)
  /\ (overallRisk (securityAnalysis r) = "MEDIUM"
      <-> ~ has_severity "CRITICAL" r /\ has_severity "HIGH" r)
  /\ (overallRisk (securityAnalysis r) = "LOW"
      <-> ~ has_severity "CRITICAL" r /\ ~ has_severity "HIGH" r).
Proof.
  intros r. unfold r. rewrite response_overall_risk. cbv zeta.
  apply risk_label_cases.
Qed.

(** A single finding of severity MEDIUM, and no finding at all, both give
    the label "LOW". *)
Example overall_risk_low_samples :
  (map v_severity (vulnerabilities (securityAnalysis (build_response xxe_text)))
   = ["MEDIUM"]
   /\ overallRisk (securityAnalysis (build_response xxe_text)) = "LOW")
  /\ (vulnerabilities (securityAnalysis (build_response singleton_text)) = []
      /\ overallRisk (securityAnalysis (build_response singleton_text)) = "LOW").
Proof. vm_compute. repeat split. Qed.

(** ** Request validation *)

Lemma has_ink_lstrip (s : string) : has_ink (lstrip s) = has_ink s.
Proof.
  induction s as [|c s IH]; simpl; [reflexivity|].
  destruct (is_space c) eqn:E; simpl; [exact IH | now rewrite E].
Qed.

Lemma truthy_rstrip (s : string) : truthy (rstrip s) = has_ink s.
Proof.
  induction s as [|c s IH]; simpl; [reflexivity|].
  destruct (rstrip s) eqn:E; simpl in *.
  - rewrite <- IH. destruct (is_space c); reflexivity.
  - rewrite <- IH. apply eq_sym, orb_true_r.
Qed.

(** [s.strip()] is non-empty exactly when [s] is not blank. *)
Lemma truthy_strip (s : string) : truthy (strip s) = has_ink s.
Proof. unfold strip. now rewrite truthy_rstrip, has_ink_lstrip. Qed.

Lemma has_ink_app (a b : string) : has_ink (a ++ b) = has_ink a || has_ink b.
Proof.
  induction a as [|c a IH]; simpl; [reflexivity|].
  now rewrite IH, orb_assoc.
Qed.

(** A text that contains a needle with a visible character is not blank. *)
Lemma has_ink_str_in (sub s : string) :
  has_ink sub = true -> str_in sub s = true -> has_ink s = true.
Proof.
  intros Hsub H. apply str_in_inv in H. destruct H as (pre & post & ->).
  rewrite !has_ink_app, Hsub, orb_true_r. reflexivity.
Qed.

(** The route answers 200 with [build_response] on every text that is not
    blank, and 400 otherwise. *)
Lemma analyze_code_reply (java_code : string) :
  analyze_code (code_request java_code)
  = if has_ink java_code then Reply200 (build_response java_code)
    else Reply400 "Code cannot be empty".
Proof.
  change (analyze_code (code_request java_code))
    with (if negb (truthy (strip java_code))
          then Reply400 "Code cannot be empty"
          else Reply200 (build_response java_code)).
  rewrite truthy_strip.
  destruct (has_ink java_code); reflexivity.
Qed.

(** ** Scenarios *)

(** C9. A text that contains 'ObjectInputStream' and '.readObject()' and
    satisfies none of the SQL-injection, XSS, path-traversal, XXE and
    authentication-bypass predicates gets the verdict
    insecure_deserialization with severity CRITICAL; the route answers
    with a report whose only finding has that severity and whose
    [overallRisk] is "HIGH". *)
Theorem C9_insecure_deserialization (java_code : string) :
  str_in "ObjectInputStream" java_code = true ->
  str_in ".readObject()" java_code = true ->
  DecisionList.sql_injection_pred java_code = false ->
  DecisionList.xss_pred java_code = false ->
  DecisionList.path_traversal_pred java_code = false ->
  DecisionList.xxe_pred java_code = false ->
  DecisionList.authentication_bypass_pred java_code = false ->
  vulnerability (detect_vulnerabilities_directly java_code)
  = "insecure_deserialization"
  /\ severity (detect_vulnerabilities_directly java_code) = "CRITICAL"
  /\ exists r,
       analyze_code (code_request java_code) = Reply200 r
       /\ map v_severity (vulnerabilities (securityAnalysis r)) = ["CRITICAL"]
       /\ map v_type (vulnerabilities (securityAnalysis r))
          = ["Insecure Deserialization"]
       /\ overallRisk (securityAnalysis r) = "HIGH".
Proof.
  intros Hois Hro Hsql Hxss Hpath Hxxe Hauth.
  assert (E : detect_vulnerabilities_directly java_code
              = insecure_deserialization_result).
  { rewrite detect_is_first_match. simpl.
    rewrite Hsql, Hxss, Hpath, Hxxe, Hauth.
    unfold DecisionList.insecure_deserialization_pred.
    now rewrite Hois, Hro. }
  rewrite E. split; [reflexivity|]. split; [reflexivity|].
  exists (build_response java_code). split.
  - rewrite analyze_code_reply.
    now rewrite (has_ink_str_in "ObjectInputStream" java_code eq_refl Hois).
  - rewrite response_overall_risk. cbv zeta.
    rewrite response_vulnerabilities, E. repeat split.
Qed.

Lemma C9_witness :
  vulnerability (detect_vulnerabilities_directly deserialization_text)
  = "insecure_deserialization"
  /\ severity (detect_vulnerabilities_directly deserialization_text) = "CRITICAL"
  /\ exists r,
       analyze_code (code_request deserialization_text) = Reply200 r
       /\ map v_severity (vulnerabilities (securityAnalysis r)) = ["CRITICAL"]
       /\ map v_type (vulnerabilities (securityAnalysis r))
          = ["Insecure Deserialization"]
       /\ overallRisk (securityAnalysis r) = "HIGH".
Proof. apply (C9_insecure_deserialization deserialization_text); reflexivity. Defined.

(** ** Recommendations *)

(** C10. [test_coverage] is the constant 0.5 on every input, so every
    report recommends "Increase test coverage to at least 70%"; the list
    of recommendations is never empty and never holds the fall-back
    message "Code follows good practices. Continue maintaining quality
    standards.". *)
Theorem C10_coverage_advice_always (java_code : string) :
  let r := build_response java_code in
  test_coverage (extract_code_metrics java_code) = 0.5%Q
  /\ In "Increase test coverage to at least 70%" (recommendations r)
  /\ recommendations r <> []
  /\ ~ In "Code follows good practices. Continue maintaining quality standards."
         (recommendations r).
Proof.
  intros r. split; [reflexivity|]. unfold r.
  rewrite response_recommendations. cbv zeta.
  change (test_coverage (extract_code_metrics java_code)) with 0.5%Q.
  change (Qltb 0.5 0.7) with true. cbv iota.
  destruct (_ >? 0); destruct (_ >? 0); destruct (_ >? 70); destruct (_ <? 60);
    simpl; (split; [tauto|]); (split; [discriminate|]);
    intros H; repeat (destruct H as [H|H]; [discriminate|]); exact H.
Qed.

(** ** Metrics *)

(** The running value of [cyclomatic] after its two conditional updates. *)
Lemma cyclomatic_complexity_steps (java_code : string) :
  cyclomatic_complexity (extract_code_metrics java_code)
  = let L := detection_locals java_code in
    let cyclomatic := 1 + num_if L + num_for L + num_while L + num_switch L in
    let cyclomatic :=
      if num_switch L >? 0 then cyclomatic + (count java_code "case " - 1)
      else cyclomatic in
    let cyclomatic :=
      if str_in "try" java_code && str_in "catch" java_code
      then cyclomatic + count java_code "catch"
      else cyclomatic in
    Z.min 50 cyclomatic.
Proof. reflexivity. Qed.

Lemma filter_ext_length {A : Type} (f g : A -> bool) (l : list A) :
  (forall x, f x = g x) -> length (filter f l) = length (filter g l).
Proof. intros H. now rewrite (filter_ext f g H). Qed.

(** In the tests for [if] and [for] the middle alternative is redundant. *)
Lemma paren_alternative_absorbs (a c l : string) :
  str_in a l || str_in (" " ++ c) l || str_in c l = str_in a l || str_in c l.
Proof.
  destruct (str_in (" " ++ c) l) eqn:E.
  - apply (str_in_drop_prefix " " c l) in E. rewrite E, !orb_true_r. reflexivity.
  - now rewrite orb_false_r.
Qed.

(** The four line counts of [extract_code_metrics] as counts of lines of
    the text. *)
Lemma line_counts_of_text (java_code : string) :
  let L := detection_locals java_code in
  num_if L = count_lines if_line java_code
  /\ num_for L = count_lines for_line java_code
  /\ num_while L = count_lines while_line java_code
  /\ num_switch L = count_lines switch_line java_code.
Proof.
  intros L. unfold count_lines. repeat split.
  - change (num_if L) with
      (Z.of_nat (length (filter
         (fun l => str_in " if " l || str_in " if(" l || str_in "if(" l)
         (split_lines java_code)))).
    f_equal. apply filter_ext_length. intros l.
    apply (paren_alternative_absorbs " if " "if(").
  - change (num_for L) with
      (Z.of_nat (length (filter
         (fun l => str_in " for " l || str_in " for(" l || str_in "for(" l)
         (split_lines java_code)))).
    f_equal. apply filter_ext_length. intros l.
    apply (paren_alternative_absorbs " for " "for(").
Qed.

(** C3. The cyclomatic-complexity metric is 1 plus the four line-based
    counts (the lines of the text that pass [if_line], [for_line],
    [while_line] and [switch_line]), plus the number of 'case ' occurrences
    minus 1 when a switch line is present, plus the number of 'catch'
    occurrences when both 'try' and 'catch' appear, the whole clamped to at
    most 50. *)
Theorem C3_cyclomatic_formula (java_code : string) :
  cyclomatic_complexity (extract_code_metrics java_code)
  = cyclomatic_formula java_code.
Proof.
  rewrite cyclomatic_complexity_steps. unfold cyclomatic_formula. cbv zeta.
  destruct (line_counts_of_text java_code) as (-> & -> & -> & ->).
  destruct (count_lines switch_line java_code >? 0);
    destruct (str_in "try" java_code && str_in "catch" java_code);
    f_equal; lia.
Qed.

(** The clamp acts: sixty [if] lines give 50, not 61; and a lone
    [try]/[catch] gives 1 + 1. *)
Example cyclomatic_examples :
  cyclomatic_complexity (extract_code_metrics sixty_if_lines) = 50
  /\ count_lines if_line sixty_if_lines = 60
  /\ cyclomatic_complexity (extract_code_metrics try_catch_text) = 2.
Proof. repeat split; vm_compute; reflexivity. Qed.

Lemma cohesion_is_cascade (java_code : string) :
  cohesion (extract_code_metrics java_code)
  = FirstMatch.first_match CohesionCascade.cascade CohesionCascade.default
      (detection_locals java_code).
Proof. reflexivity. Qed.

(** Each pattern boolean of the cascade is its test on the text. *)
Lemma cascade_flags_of_text (java_code : string) :
  let L := detection_locals java_code in
  (is_singleton L = CohesionCascade.Flag.singleton java_code
   /\ is_factory L = CohesionCascade.Flag.factory java_code
   /\ is_builder L = CohesionCascade.Flag.builder java_code
   /\ is_prototype L = CohesionCascade.Flag.prototype java_code
   /\ is_abstract_factory L = CohesionCascade.Flag.abstract_factory java_code)
  /\ (is_adapter L = CohesionCascade.Flag.adapter java_code
      /\ is_decorator L = CohesionCascade.Flag.decorator java_code
      /\ is_proxy L = CohesionCascade.Flag.proxy java_code
      /\ is_composite L = CohesionCascade.Flag.composite java_code
      /\ is_facade L = CohesionCascade.Flag.facade java_code
      /\ is_bridge L = CohesionCascade.Flag.bridge java_code
      /\ is_flyweight L = CohesionCascade.Flag.flyweight java_code)
  /\ (is_strategy L = CohesionCascade.Flag.strategy java_code
      /\ is_observer L = CohesionCascade.Flag.observer java_code
      /\ is_command L = CohesionCascade.Flag.command java_code
      /\ is_service_layer L = CohesionCascade.Flag.service_layer java_code
      /\ is_spring_mvc L = CohesionCascade.Flag.spring_mvc java_code
      /\ is_restful_api L = CohesionCascade.Flag.restful_api java_code)
  /\ (is_exception_handling L
      = CohesionCascade.Flag.exception_handling java_code
      /\ is_spring_error L = CohesionCascade.Flag.spring_error java_code
      /\ is_reactive L = CohesionCascade.Flag.reactive java_code).
Proof. intros L. repeat split; reflexivity. Qed.

(** The cascade of the metric function is the cascade over the text. *)
Lemma cohesion_is_text_cascade (java_code : string) :
  cohesion (extract_code_metrics java_code)
  = FirstMatch.first_match CohesionCascade.text_cascade
      CohesionCascade.default java_code.
Proof.
  rewrite cohesion_is_cascade.
  destruct (cascade_flags_of_text java_code)
    as ((H1 & H2 & H3 & H4 & H5) & (H6 & H7 & H8 & H9 & H10 & H11 & H12)
        & (H13 & H14 & H15 & H16 & H17 & H18) & (H19 & H20 & H21)).
  unfold CohesionCascade.cascade, CohesionCascade.text_cascade.
  cbn [FirstMatch.first_match].
  rewrite H1, H2, H3, H4, H5, H6, H7, H8, H9, H10, H11, H12, H13, H14, H15,
    H16, H17, H18, H19, H20, H21.
  reflexivity.
Qed.

(** C4. The cohesion metric is the first match of the cascade singleton
    0.92, factory 0.85, builder 0.88, prototype 0.82, abstract_factory
    0.80, adapter|decorator|proxy 0.78, composite|facade|bridge 0.75,
    flyweight 0.73, strategy|observer|command 0.77, service_layer 0.75,
    spring_mvc|restful_api 0.70, exception_handling|spring_error 0.80,
    reactive 0.76, with 0.60 when no branch matches, each pattern boolean
    being the test of [extract_code_metrics] on the text: on every input
    exactly one branch fires and its value is the metric. *)
Theorem C4_cohesion_cascade (java_code : string) :
  cohesion (extract_code_metrics java_code)
  = FirstMatch.first_match CohesionCascade.text_cascade
      CohesionCascade.default java_code
  /\ exists i,
       FirstMatch.fires CohesionCascade.text_cascade java_code i
       /\ (forall j,
             FirstMatch.fires CohesionCascade.text_cascade java_code j -> j = i)
       /\ (i <= 13)%nat
       /\ cohesion (extract_code_metrics java_code)
          = FirstMatch.verdict_of CohesionCascade.text_cascade
              CohesionCascade.default i.
Proof.
  split; [apply cohesion_is_text_cascade|].
  destruct (first_match_fires CohesionCascade.text_cascade
              CohesionCascade.default java_code)
    as (i & Hi & Huniq & Hlen & Heq).
  exists i. rewrite cohesion_is_text_cascade. auto.
Qed.

(** The cascade at work: the singleton text is rated 0.92 by its first
    branch, the factory text 0.85 by the second, and a lone [try]/[catch]
    0.80 by the exception-handling boolean of the metric function, although
    the pattern detector reports no exception handling on it. *)
Example cohesion_examples :
  (cohesion (extract_code_metrics singleton_text) == 0.92)%Q
  /\ CohesionCascade.Flag.singleton singleton_text = true
  /\ (cohesion (extract_code_metrics factory_text) == 0.85)%Q
  /\ (cohesion (extract_code_metrics try_catch_text) == 0.80)%Q
  /\ CohesionCascade.Flag.exception_handling try_catch_text = true
  /\ map pattern_key (detect_patterns_directly try_catch_text)
     = ["basic_programming_constructs"]
  /\ (cohesion (extract_code_metrics "int x;") == 0.60)%Q.
Proof. repeat split; vm_compute; reflexivity. Qed.

(** The cascade only yields values between 0.60 and 0.92. *)
Lemma cohesion_range (java_code : string) :
  (0.60 <= cohesion (extract_code_metrics java_code) <= 0.92)%Q.
Proof.
  rewrite cohesion_is_cascade. simpl.
  repeat match goal with
         | |- context [if ?c then _ else _] => destruct c
         end; split; discriminate.
Qed.

(** ** Scores *)

Lemma count_from_nonneg (sub s : string) (skip : nat) : 0 <= count_from sub s skip.
Proof.
  revert skip. induction s as [|c s IH]; intros skip; cbn [count_from]; [lia|].
  destruct skip; [|apply IH].
  destruct (startswith sub (String c s)).
  - specialize (IH (String.length sub - 1)%nat). lia.
  - apply IH.
Qed.

Lemma count_nonneg (s sub : string) : 0 <= count s sub.
Proof.
  unfold count. destruct sub; [lia | apply count_from_nonneg].
Qed.

(** The clamped metric lies between 1 and 50. *)
Lemma cyclomatic_complexity_range (java_code : string) :
  1 <= cyclomatic_complexity (extract_code_metrics java_code) <= 50.
Proof.
  rewrite cyclomatic_complexity_steps. cbv zeta.
  assert (Hif : 0 <= num_if (detection_locals java_code)) by apply Nat2Z.is_nonneg.
  assert (Hfor : 0 <= num_for (detection_locals java_code)) by apply Nat2Z.is_nonneg.
  assert (Hwh : 0 <= num_while (detection_locals java_code)) by apply Nat2Z.is_nonneg.
  assert (Hsw : 0 <= num_switch (detection_locals java_code)) by apply Nat2Z.is_nonneg.
  pose proof (count_nonneg java_code "case ") as Hcase.
  pose proof (count_nonneg java_code "catch") as Hcatch.
  destruct (num_switch (detection_locals java_code) >? 0) eqn:E;
    [apply Z.gtb_lt in E|];
    destruct (str_in "try" java_code && str_in "catch" java_code); lia.
Qed.

(** [int(x)] rounds a non-negative float down. *)
Lemma py_int_floor (x : Q) : (0 <= x)%Q -> py_int x = Qfloor x.
Proof.
  destruct x as [n d]. unfold Qle, py_int, Qfloor. simpl. intros H.
  apply Z.quot_div_nonneg; lia.
Qed.

Lemma py_min_Qmin (a b : Q) : (py_min a b == Qmin a b)%Q.
Proof.
  unfold py_min. destruct (Qle_bool a b) eqn:E.
  - apply Qle_bool_iff in E. symmetry. now apply Q.min_l.
  - assert (H : (b <= a)%Q).
    { destruct (Qlt_le_dec b a) as [H|H]; [now apply Qlt_le_weak|].
      apply Qle_bool_iff in H. congruence. }
    symmetry. now apply Q.min_r.
Qed.

Lemma comment_ratio_nonneg (java_code : string) :
  (0 <= comment_ratio (extract_code_metrics java_code))%Q.
Proof.
  change (comment_ratio (extract_code_metrics java_code))
    with (inject_Z (Z.of_nat (length (filter (fun l => str_in "//" l || str_in "/*" l)
                                        (split_lines java_code))))
          / inject_Z (Z.max 1 (Z.of_nat (length (split_lines java_code)))))%Q.
  apply Qle_shift_div_l.
  - change 0%Q with (inject_Z 0). rewrite <- Zlt_Qlt. lia.
  - rewrite Qmult_0_l. change 0%Q with (inject_Z 0). rewrite <- Zle_Qle. lia.
Qed.

(** The four terms of the score, under [int]: the code's own expression
    equals the weighted sum of the specification. *)
Lemma quality_sum_eq (java_code : string) :
  let m := extract_code_metrics java_code in
  ((1 - py_min (code_duplication m) 1.0) * 25
   + test_coverage m * 25
   + py_min (comment_ratio m / 0.3) 1.0 * 25
   + cohesion m * 25 == weighted_sum m)%Q.
Proof.
  intros m. unfold weighted_sum. rewrite !py_min_Qmin.
  assert (H1 : (1.0 == 1)%Q) by reflexivity. rewrite H1. reflexivity.
Qed.

(** The weighted sum lies between 52.5 and 85.5. *)
Lemma weighted_sum_range (java_code : string) :
  (52.5 <= weighted_sum (extract_code_metrics java_code) <= 85.5)%Q.
Proof.
  unfold weighted_sum.
  change (code_duplication (extract_code_metrics java_code)) with 0.0%Q.
  change (test_coverage (extract_code_metrics java_code)) with 0.5%Q.
  pose proof (cohesion_range java_code) as [Hc1 Hc2].
  pose proof (comment_ratio_nonneg java_code) as Hr.
  set (cr := comment_ratio (extract_code_metrics java_code)) in *.
  set (co := cohesion (extract_code_metrics java_code)) in *.
  assert (Hq : (0 <= cr / 0.3)%Q).
  { apply Qle_shift_div_l; [reflexivity | now rewrite Qmult_0_l]. }
  assert (Hm : (0 <= Qmin (cr / 0.3) 1 <= 1)%Q).
  { split; [apply Q.min_glb; [exact Hq | discriminate] | apply Q.le_min_r]. }
  destruct Hm as [Hm1 Hm2]. set (t := Qmin (cr / 0.3) 1) in *.
  assert (Hd : (Qmin 0.0 1 == 0)%Q) by reflexivity.
  rewrite Hd. split; lra.
Qed.

(** The score is the weighted sum rounded down. *)
Lemma quality_score_floor (java_code : string) :
  qualityScore (build_response java_code)
  = Qfloor (weighted_sum (extract_code_metrics java_code)).
Proof.
  rewrite response_quality_score. cbv zeta.
  pose proof (quality_sum_eq java_code) as E. cbv zeta in E.
  pose proof (weighted_sum_range java_code) as [Hlo _].
  rewrite py_int_floor.
  - now rewrite E.
  - rewrite E. eapply Qle_trans; [|exact Hlo]. discriminate.
Qed.

(** C6. On every input [0 <= qualityScore <= 100] and
    [0 <= complexityScore <= 100]. *)
Theorem C6_scores_in_range (java_code : string) :
  let r := build_response java_code in
  0 <= qualityScore r <= 100
  /\ 0 <= complexityScore (conceptAnalysis r) <= 100.
Proof.
  intros r. unfold r. split.
  - rewrite quality_score_floor.
    pose proof (weighted_sum_range java_code) as [Hlo Hhi].
    apply Qfloor_resp_le in Hlo. apply Qfloor_resp_le in Hhi.
    change (Qfloor 52.5) with 52 in Hlo. change (Qfloor 85.5) with 85 in Hhi.
    lia.
  - rewrite response_complexity_score.
    pose proof (cyclomatic_complexity_range java_code). lia.
Qed.

(** C5, as the code has it. [qualityScore] is [int] of the weighted sum
    ((1 - min(duplication, 1)) * 25 + testCoverage * 25
    + min(commentRatio / 0.3, 1) * 25 + cohesion * 25): the sum is cut to its
    integer part, that is rounded down, not rounded to the nearest
    integer. *)
Theorem C5_quality_score_rounds_down (java_code : string) :
  let W := weighted_sum (extract_code_metrics java_code) in
  let q := qualityScore (build_response java_code) in
  q = py_int W
  /\ q = Qfloor W
  /\ (inject_Z q <= W)%Q /\ (W < inject_Z (q + 1))%Q.
Proof.
  intros W q. unfold q, W. rewrite quality_score_floor.
  pose proof (weighted_sum_range java_code) as [Hlo _].
  split; [|split; [reflexivity|split]].
  - symmetry. apply py_int_floor. eapply Qle_trans; [|exact Hlo]. discriminate.
  - apply Qfloor_le.
  - apply Qlt_floor.
Qed.

(** C5 as stated fails: on a one-line factory the weighted sum is 58.75,
    which [round] takes to 59, while the reported score is 58. *)
Lemma C5_counterexample :
  (weighted_sum (extract_code_metrics factory_text) == 58.75)%Q
  /\ py_round (weighted_sum (extract_code_metrics factory_text)) = 59
  /\ qualityScore (build_response factory_text) = 58
  /\ qualityScore (build_response factory_text)
     <> py_round (weighted_sum (extract_code_metrics factory_text)).
Proof. vm_compute. repeat split; discriminate. Qed.

(** ** Line heuristics *)

(** The tests of the code for [if], [for] and [while] are stricter than
    "keyword followed by a space or '('"; the test for [switch] is looser. *)
Lemma if_test_stricter (l : string) :
  str_in " if " l || str_in "if(" l = true ->
  keyword_then_space_or_paren "if" l = true.
Proof.
  unfold keyword_then_space_or_paren. intros H.
  apply orb_true_iff in H. destruct H as [H|H].
  - apply (str_in_drop_prefix " " "if " l) in H. simpl. now rewrite H.
  - simpl. rewrite H. apply orb_true_r.
Qed.

Lemma for_test_stricter (l : string) :
  str_in " for " l || str_in "for(" l = true ->
  keyword_then_space_or_paren "for" l = true.
Proof.
  unfold keyword_then_space_or_paren. intros H.
  apply orb_true_iff in H. destruct H as [H|H].
  - apply (str_in_drop_prefix " " "for " l) in H. simpl. now rewrite H.
  - simpl. rewrite H. apply orb_true_r.
Qed.

Lemma while_test_stricter (l : string) :
  str_in " while " l || str_in " while(" l = true ->
  keyword_then_space_or_paren "while" l = true.
Proof.
  unfold keyword_then_space_or_paren. intros H.
  apply orb_true_iff in H. destruct H as [H|H].
  - apply (str_in_drop_prefix " " "while " l) in H. simpl. now rewrite H.
  - apply (str_in_drop_prefix " " "while(" l) in H. simpl. rewrite H.
    apply orb_true_r.
Qed.

Lemma str_in_drop_suffix (sub b s : string) :
  str_in (sub ++ b) s = true -> str_in sub s = true.
Proof.
  intros H. apply str_in_inv in H. destruct H as (pre & post & ->).
  rewrite append_assoc. apply str_in_intro.
Qed.

Lemma switch_test_looser (l : string) :
  keyword_then_space_or_paren "switch" l = true -> str_in "switch" l = true.
Proof.
  unfold keyword_then_space_or_paren. intros H.
  apply orb_true_iff in H. destruct H as [H|H].
  - now apply (str_in_drop_suffix "switch" " " l).
  - now apply (str_in_drop_suffix "switch" "(" l).
Qed.

(** C7, as the code has it. The four line counts use three different
    tests: a line counts toward [if] (toward [for]) when it contains the
    keyword between two spaces or the keyword directly followed by '(';
    toward [while] when it contains the keyword after a space and followed
    by a space or '('; toward [switch] when it contains 'switch' at all. *)
Theorem C7_line_tests_per_keyword (java_code : string) :
  let L := detection_locals java_code in
  num_if L
  = count_lines (fun l => str_in " if " l || str_in "if(" l) java_code
  /\ num_for L
     = count_lines (fun l => str_in " for " l || str_in "for(" l) java_code
  /\ num_while L
     = count_lines (fun l => str_in " while " l || str_in " while(" l) java_code
  /\ num_switch L
     = count_lines (fun l => str_in "switch" l) java_code.
Proof.
  intros L. unfold count_lines. repeat split.
  - change (num_if L) with
      (Z.of_nat (length (filter
         (fun l => str_in " if " l || str_in " if(" l || str_in "if(" l)
         (split_lines java_code)))).
    f_equal. apply filter_ext_length. intros l.
    apply (paren_alternative_absorbs " if " "if(").
  - change (num_for L) with
      (Z.of_nat (length (filter
         (fun l => str_in " for " l || str_in " for(" l || str_in "for(" l)
         (split_lines java_code)))).
    f_equal. apply filter_ext_length. intros l.
    apply (paren_alternative_absorbs " for " "for(").
Qed.

(** C7 as stated fails for each of the four keywords: a line that starts
    with [if (], [for (] or [while(] contains the keyword followed by a
    space or '(' and is not counted, and a line that merely mentions
    [switch] is counted. *)
Lemma C7_counterexample :
  (num_if (detection_locals "if (x > 0) {") = 0
   /\ count_lines (keyword_then_space_or_paren "if") "if (x > 0) {" = 1)
  /\ (num_for (detection_locals "for (int i : xs) {") = 0
      /\ count_lines (keyword_then_space_or_paren "for") "for (int i : xs) {" = 1)
  /\ (num_while (detection_locals "while(running) {") = 0
      /\ count_lines (keyword_then_space_or_paren "while") "while(running) {" = 1)
  /\ (num_switch (detection_locals "int switchCount;") = 1
      /\ count_lines (keyword_then_space_or_paren "switch") "int switchCount;" = 0).
Proof. vm_compute. repeat split. Qed.

(** ** The singleton scenario *)

Lemma in_append_if (c : bool) (d : list pydict) (e x : pydict) :
  In x d -> In x (append_if c d e).
Proof.
  unfold append_if. destruct c; [|easy]. intros H. apply in_or_app. now left.
Qed.

(** The first rule of the pattern detector fires on a singleton shape, and
    nothing later removes its entry. *)
Lemma singleton_detected (java_code : string) :
  singleton_shape java_code = true ->
  In singleton_entry (detect_patterns_directly java_code).
Proof.
  intros H. unfold detect_patterns_directly. cbv zeta.
  do 47 apply in_append_if.
  change (In singleton_entry
            (append_if (singleton_shape java_code) [] singleton_entry)).
  rewrite H. left. reflexivity.
Qed.

Lemma no_vulnerability_verdict (java_code : string) :
  DecisionList.no_vulnerability_pred java_code = true ->
  vulnerability (detect_vulnerabilities_directly java_code) = "none".
Proof.
  unfold DecisionList.no_vulnerability_pred. intros H.
  repeat (apply andb_true_iff in H; destruct H as [H ?]).
  repeat match goal with
         | H : negb _ = true |- _ => apply negb_true_iff in H
         end.
  rewrite detect_is_first_match. simpl.
  repeat match goal with
         | H : _ = false |- _ => rewrite H
         end.
  destruct (DecisionList.secure_state_pred java_code); reflexivity.
Qed.

(** No entry of [detectedConcepts] has a key [confidence]. *)
Lemma concepts_have_no_confidence (java_code : string) (c : pydict) :
  In c (detectedConcepts (conceptAnalysis (build_response java_code))) ->
  assoc "confidence" c = None.
Proof.
  rewrite response_detected_concepts. intros H.
  apply in_map_iff in H. destruct H as (p & <- & _). reflexivity.
Qed.

(** C8, as the code has it. On a singleton-shaped text that satisfies none
    of the vulnerability predicates the pattern detector reports
    singleton_design_pattern with confidence 0.95, and the route answers
    with a report whose [detectedConcepts] holds the entry named
    "Singleton Design Pattern" (category CREATIONAL DESIGN PATTERNS), whose
    entries carry no confidence, whose [vulnerabilities] list is empty and
    whose [overallRisk] is "LOW". *)
Theorem C8_singleton_scenario (java_code : string) :
  singleton_shape java_code = true ->
  DecisionList.no_vulnerability_pred java_code = true ->
  let r := build_response java_code in
  (exists p,
     In p (detect_patterns_directly java_code)
     /\ assoc "pattern" p = Some (VStr "singleton_design_pattern")
     /\ assoc "confidence" p = Some (VFloat 0.95))
  /\ (exists c,
        In c (detectedConcepts (conceptAnalysis r))
        /\ assoc "name" c = Some (VStr "Singleton Design Pattern")
        /\ assoc "category" c = Some (VStr "CREATIONAL DESIGN PATTERNS")
        /\ assoc "theory" c = Some (VStr "Singleton Design Pattern"))
  /\ (forall c, In c (detectedConcepts (conceptAnalysis r)) ->
                assoc "confidence" c = None)
  /\ analyze_code (code_request java_code) = Reply200 r
  /\ vulnerabilities (securityAnalysis r) = []
  /\ overallRisk (securityAnalysis r) = "LOW".
Proof.
  intros Hshape Hnone r. unfold r.
  pose proof (singleton_detected java_code Hshape) as Hin.
  pose proof (no_vulnerability_verdict java_code Hnone) as Hv.
  assert (Hvs : vulnerabilities (securityAnalysis (build_response java_code)) = []).
  { rewrite response_vulnerabilities, Hv. reflexivity. }
  split; [|split; [|split; [|split; [|split]]]].
  - exists singleton_entry. repeat split. exact Hin.
  - exists (concept_of_pattern java_code
              (linesOfCode (build_response java_code)) singleton_entry).
    split; [|repeat split].
    rewrite response_detected_concepts. now apply in_map.
  - apply concepts_have_no_confidence.
  - rewrite analyze_code_reply.
    assert (Hp : str_in "private " java_code = true).
    { unfold singleton_shape in Hshape.
      repeat (apply andb_true_iff in Hshape; destruct Hshape as [Hshape ?]).
      exact Hshape. }
    now rewrite (has_ink_str_in "private " java_code eq_refl Hp).
  - exact Hvs.
  - rewrite response_overall_risk. cbv zeta. rewrite Hvs. reflexivity.
Qed.

Lemma C8_witness :
  singleton_shape singleton_text = true
  /\ DecisionList.no_vulnerability_pred singleton_text = true
  /\ analyze_code (code_request singleton_text) = Reply200 (build_response singleton_text)
  /\ vulnerabilities (securityAnalysis (build_response singleton_text)) = []
  /\ overallRisk (securityAnalysis (build_response singleton_text)) = "LOW".
Proof.
  split; [reflexivity|]. split; [reflexivity|].
  apply (C8_singleton_scenario singleton_text); reflexivity.
Defined.

(** C8 as stated fails on the singleton class that the detector module
    uses as its own sample: the text has the singleton shape and no
    vulnerability predicate holds, yet no entry of [detectedConcepts] has a
    confidence, 0.95 or other. *)
Lemma C8_counterexample :
  singleton_shape singleton_text = true
  /\ DecisionList.no_vulnerability_pred singleton_text = true
  /\ ~ concept_with_confidence (build_response singleton_text)
         "Singleton Design Pattern" 0.95.
Proof.
  split; [reflexivity|]. split; [reflexivity|].
  intros (c & q & Hin & _ & Hconf & _).
  rewrite (concepts_have_no_confidence singleton_text c Hin) in Hconf.
  discriminate.
Qed.

(** * Further properties *)

(** ** The pattern detector as a rule table *)

Section RuleTables.

Lemma collect_from (conds : list bool) (entries detected : list pydict) :
  fold_left (fun d r => append_if (fst r) d (snd r)) (combine conds entries)
            detected
  = (detected ++ select conds entries)%list.
Proof.
  revert entries detected.
  induction conds as [|c conds IH]; intros [|e entries] detected; simpl;
    try now rewrite app_nil_r.
  rewrite IH. unfold append_if. destruct c; [|reflexivity].
  now rewrite <- app_assoc.
Qed.

(** A run of guarded appends leaves the selected entries, in order. *)
Lemma collect_select (conds : list bool) (entries : list pydict) :
  collect (combine conds entries) = select conds entries.
Proof. unfold collect. now rewrite collect_from. Qed.

Lemma select_incl {A : Type} (conds : list bool) (entries : list A) (x : A) :
  In x (select conds entries) -> In x entries.
Proof.
  revert entries. induction conds as [|c conds IH]; intros [|e entries];
    simpl; try tauto.
  destruct c; simpl; intros H; [destruct H as [H|H]; [now left|]|];
    right; now apply IH.
Qed.

Lemma select_length {A : Type} (conds : list bool) (entries : list A) :
  (length (select conds entries) <= length entries)%nat.
Proof.
  revert entries. induction conds as [|c conds IH]; intros [|e entries];
    simpl; try lia.
  specialize (IH entries). destruct c; simpl; lia.
Qed.

Lemma select_map {A B : Type} (f : A -> B) (conds : list bool) (entries : list A) :
  map f (select conds entries) = select conds (map f entries).
Proof.
  revert entries. induction conds as [|c conds IH]; intros [|e entries];
    simpl; try reflexivity.
  destruct c; simpl; now rewrite IH.
Qed.

Lemma select_NoDup {A : Type} (conds : list bool) (entries : list A) :
  NoDup entries -> NoDup (select conds entries).
Proof.
  revert entries. induction conds as [|c conds IH]; intros [|e entries] H;
    simpl; try constructor.
  inversion H as [|? ? Hnot Hrest]; subst.
  destruct c; [constructor|]; auto.
  intros Hin. apply Hnot. now apply (select_incl conds).
Qed.

(** The entry at position [i] is selected exactly when condition [i]
    holds, provided the table has no second entry with that value. *)
Lemma select_nth {A : Type} (conds : list bool) (entries : list A)
      (i : nat) (x : A) :
  NoDup entries -> length conds = length entries ->
  nth_error entries i = Some x ->
  (In x (select conds entries) <-> nth i conds false = true).
Proof.
  revert entries i. induction conds as [|c conds IH];
    intros [|e entries] i Hnd Hlen Hi; simpl in *; try discriminate.
  - destruct i; discriminate.
  - inversion Hnd as [|? ? Hnot Hrest]; subst. injection Hlen as Hlen.
    destruct i as [|i]; simpl in Hi.
    + injection Hi as ->. destruct c; simpl.
      * split; auto.
      * split; [|discriminate]. intros Hin. exfalso. apply Hnot.
        now apply (select_incl conds).
    + assert (Hx : In x entries) by (eapply nth_error_In; eauto).
      assert (Hne : e <> x) by (intros ->; contradiction).
      rewrite <- (IH entries i Hrest Hlen Hi). destruct c; simpl; [|tauto].
      split; [intros [H|H]; [contradiction | exact H] | auto].
Qed.

Lemma nodupb_NoDup (l : list string) : nodupb l = true -> NoDup l.
Proof.
  induction l as [|x l IH]; simpl; intros H; constructor.
  - apply andb_true_iff in H. destruct H as [H _].
    apply negb_true_iff in H. intros Hin.
    assert (E : in_list x l = true).
    { unfold in_list. apply existsb_exists. exists x. split; [exact Hin|].
      apply String.eqb_refl. }
    congruence.
  - apply andb_true_iff in H. now apply IH.
Qed.

Lemma has_pattern_iff (key : string) (detected : list pydict) :
  has_pattern key detected = true <-> In key (map pattern_key detected).
Proof.
  unfold has_pattern. rewrite existsb_exists, in_map_iff.
  split; intros (d & H1 & H2).
  - exists d. split; [now apply String.eqb_eq | exact H1].
  - exists d. split; [exact H2 | now apply String.eqb_eq].
Qed.

End RuleTables.

Lemma all_pattern_keys_NoDup : NoDup (map pattern_key all_pattern_entries).
Proof. apply nodupb_NoDup. vm_compute. reflexivity. Qed.

Lemma detect_patterns_table (java_code : string) :
  exists conds : list bool,
    length conds = 48%nat
    /\ detect_patterns_directly java_code = select conds all_pattern_entries.
Proof.
  unfold detect_patterns_directly. cbv zeta.
  refine (ex_intro _ [_;_;_;_;_;_;_;_;_;_;_;_;_;_;_;_;_;_;_;_;_;_;_;_;
                      _;_;_;_;_;_;_;_;_;_;_;_;_;_;_;_;_;_;_;_;_;_;_;_] _).
  split; [reflexivity|].
  rewrite <- collect_select. reflexivity.
Qed.

Lemma detect_patterns_rules (java_code : string) :
  let L := detection_locals java_code in
  exists b10 b24 b25 b27 b28 b30 b33 b34 b35 b36 b37 b38 b39 b40 b41 b42 b44
         b45 b46 b47 b48 : bool,
    detect_patterns_directly java_code
    = select
        [is_singleton L; is_factory L; is_builder L; is_prototype L;
         is_abstract_factory L; is_adapter L; is_decorator L; is_proxy L;
         is_composite L; b10; is_bridge L; is_flyweight L; is_strategy L;
         is_observer L; is_command L; is_template_method L; is_iterator L;
         is_state L; is_chain L; is_mediator L; is_memento L; is_visitor L;
         is_interpreter L; b24; b25; is_restful_api L; b27; b28; is_dto L;
         b30; is_oop L; is_collections L; b33; b34; b35; b36; b37; b38; b39;
         b40; b41; b42; is_core_annotations L; b44; b45; b46; b47; b48]
        all_pattern_entries.
Proof.
  intros L. unfold L, detect_patterns_directly. cbv zeta.
  do 21 eexists. rewrite <- collect_select. reflexivity.
Qed.

Lemma all_pattern_confidences (d : pydict) :
  In d all_pattern_entries ->
  exists q, confidence_of d = Some q /\ (0.80 <= q <= 0.95)%Q.
Proof.
  assert (H : forallb
                (fun d => match confidence_of d with
                          | Some q => Qle_bool 0.80 q && Qle_bool q 0.95
                          | None => false
                          end) all_pattern_entries = true)
    by (vm_compute; reflexivity).
  rewrite forallb_forall in H. intros Hin. specialize (H d Hin).
  destruct (confidence_of d) as [q|]; [|discriminate].
  apply andb_true_iff in H. destruct H as [H1 H2].
  exists q. split; [reflexivity|]. split; now apply Qle_bool_iff.
Qed.

(** The detector returns a sub-list of its table of 48 entries, in table
    order: no pattern is reported twice, at most 48 are reported, and every
    reported entry carries a confidence between 0.80 and 0.95. *)
Theorem detected_patterns_from_table (java_code : string) :
  let detected := detect_patterns_directly java_code in
  (exists conds : list bool,
     length conds = 48%nat /\ detected = select conds all_pattern_entries)
  /\ NoDup (map pattern_key detected)
  /\ (length detected <= 48)%nat
  /\ (forall d, In d detected ->
        In d all_pattern_entries
        /\ exists q, confidence_of d = Some q /\ (0.80 <= q <= 0.95)%Q).
Proof.
  intros detected. unfold detected.
  destruct (detect_patterns_table java_code) as (conds & Hlen & ->).
  split; [now exists conds|]. split; [|split].
  - rewrite select_map. apply select_NoDup, all_pattern_keys_NoDup.
  - apply (select_length conds all_pattern_entries).
  - intros d Hd. apply select_incl in Hd. split; [exact Hd|].
    now apply all_pattern_confidences.
Qed.

Lemma has_pattern_select (conds : list bool) (key : string) (i : nat) :
  length conds = 48%nat ->
  nth_error (map pattern_key all_pattern_entries) i = Some key ->
  has_pattern key (select conds all_pattern_entries) = nth i conds false.
Proof.
  intros Hlen Hi.
  assert (H : has_pattern key (select conds all_pattern_entries) = true
              <-> nth i conds false = true).
  { rewrite has_pattern_iff, select_map.
    apply select_nth; [apply all_pattern_keys_NoDup | | exact Hi].
    rewrite Hlen. reflexivity. }
  destruct (has_pattern key _), (nth i conds false); try reflexivity.
  - symmetry. now apply H.
  - now apply H.
Qed.

Ltac table_index i :=
  lazymatch goal with
  | |- has_pattern ?k (select ?c _) = _ =>
      first [ exact (has_pattern_select c k i eq_refl eq_refl)
            | lazymatch i with
              | 48%nat => fail
              | _ => table_index (S i)
              end ]
  end.

(** For 27 of the 48 patterns the rule of the detector and the flag that
    [extract_code_metrics] computes for its cohesion cascade are the same
    test: the pattern is reported exactly when the flag is set. *)
Theorem detector_agrees_with_metric_flags (java_code : string) :
  let L := detection_locals java_code in
  let d := detect_patterns_directly java_code in
  has_pattern "singleton_design_pattern" d = is_singleton L
  /\ has_pattern "factory_design_pattern" d = is_factory L
  /\ has_pattern "builder_design_pattern" d = is_builder L
  /\ has_pattern "prototype_design_pattern" d = is_prototype L
  /\ has_pattern "abstract_factory_design_pattern" d = is_abstract_factory L
  /\ has_pattern "adapter_design_pattern" d = is_adapter L
  /\ has_pattern "decorator_design_pattern" d = is_decorator L
  /\ has_pattern "proxy_design_pattern" d = is_proxy L
  /\ has_pattern "composite_design_pattern" d = is_composite L
  /\ has_pattern "bridge_design_pattern" d = is_bridge L
  /\ has_pattern "flyweight_design_pattern" d = is_flyweight L
  /\ has_pattern "strategy_design_pattern" d = is_strategy L
  /\ has_pattern "observer_design_pattern" d = is_observer L
  /\ has_pattern "command_design_pattern" d = is_command L
  /\ has_pattern "template_method_design_pattern" d = is_template_method L
  /\ has_pattern "iterator_design_pattern" d = is_iterator L
  /\ has_pattern "state_design_pattern" d = is_state L
  /\ has_pattern "chain_of_responsibility_design_pattern" d = is_chain L
  /\ has_pattern "mediator_design_pattern" d = is_mediator L
  /\ has_pattern "memento_design_pattern" d = is_memento L
  /\ has_pattern "visitor_design_pattern" d = is_visitor L
  /\ has_pattern "interpreter_design_pattern" d = is_interpreter L
  /\ has_pattern "restful_api_pattern" d = is_restful_api L
  /\ has_pattern "dto_pattern" d = is_dto L
  /\ has_pattern "oop_fundamentals" d = is_oop L
  /\ has_pattern "collections_framework" d = is_collections L
  /\ has_pattern "core_annotations_di" d = is_core_annotations L.
Proof.
  intros L d. unfold d.
  destruct (detect_patterns_rules java_code)
    as (b10 & b24 & b25 & b27 & b28 & b30 & b33 & b34 & b35 & b36 & b37 & b38
        & b39 & b40 & b41 & b42 & b44 & b45 & b46 & b47 & b48 & ->).
  fold L. repeat split; table_index 0%nat.
Qed.

(** ** Verdicts of the vulnerability detector *)

Lemma verdict_cases (java_code : string) :
  In (detect_vulnerabilities_directly java_code)
     [sql_injection_result; xss_result; path_traversal_result; xxe_result;
      authentication_bypass_result; insecure_deserialization_result;
      secure_result; no_vulnerability_result].
Proof.
  rewrite detect_is_first_match. simpl.
  repeat match goal with
         | |- context [if ?c then _ else _] => destruct c
         end; tauto.
Qed.

(** The detector only ever returns one of seven (key, severity) pairs; the
    severity is LOW exactly when the key is [none], and the list of
    references of the verdict is always empty. *)
Theorem verdict_key_and_severity (java_code : string) :
  let v := detect_vulnerabilities_directly java_code in
  In (vulnerability v, severity v)
     [("sql_injection", "HIGH"); ("xss", "HIGH"); ("path_traversal", "HIGH");
      ("xxe", "MEDIUM"); ("authentication_bypass", "CRITICAL");
      ("insecure_deserialization", "CRITICAL"); ("none", "LOW")]
  /\ (severity v = "LOW" <-> vulnerability v = "none")
  /\ references v = [].
Proof.
  intros v. unfold v.
  pose proof (verdict_cases java_code) as H. simpl in H.
  repeat (destruct H as [<-|H]; [simpl; repeat split; try tauto; try discriminate|]);
    contradiction.
Qed.

(** A text that calls [setFeature] anywhere is never reported as xxe. *)
Theorem set_feature_suppresses_xxe (java_code : string) :
  str_in "setFeature" java_code = true ->
  vulnerability (detect_vulnerabilities_directly java_code) <> "xxe".
Proof.
  intros H. rewrite detect_is_first_match. simpl.
  unfold DecisionList.xxe_pred. rewrite H, andb_false_r.
  repeat match goal with
         | |- context [if ?c then _ else _] => destruct c
         end; discriminate.
Qed.

(** Without a '+' in the text the verdict is never path_traversal; it is
    sql_injection only when 'concat' occurs in some case, and xss only when
    '@GetMapping' occurs. *)
Theorem verdicts_without_plus (java_code : string) :
  str_in "+" java_code = false ->
  let v := vulnerability (detect_vulnerabilities_directly java_code) in
  v <> "path_traversal"
  /\ (v = "sql_injection" -> str_in "concat" (lower java_code) = true)
  /\ (v = "xss" -> str_in "@GetMapping" java_code = true).
Proof.
  intros H v. unfold v. rewrite detect_is_first_match. simpl.
  unfold DecisionList.sql_injection_pred, DecisionList.xss_pred,
    DecisionList.path_traversal_pred.
  rewrite H, !andb_false_r, !orb_false_r. simpl.
  destruct (str_in "concat" (lower java_code)); simpl;
    destruct (str_in "@GetMapping" java_code); simpl;
    repeat match goal with
           | |- context [if ?c then _ else _] => destruct c
           end; simpl;
    repeat split; try discriminate; try tauto.
Qed.

(** ** Request validation *)

Lemma has_ink_not_blank (s : string) : has_ink s = negb (is_blank s).
Proof.
  unfold is_blank. induction s as [|c s IH]; simpl; [reflexivity|].
  rewrite IH. now destruct (is_space c).
Qed.

(** The answers of the route to every request.  A request without a JSON
    body that parses gets status 500.  The falsy JSON values ([null],
    [false], zero, the empty string, list and object) get status 400 for
    the missing field, as do a list without the element [code], a string
    without the piece [code] and an object without the key [code]; [true],
    any other number, a list with the element [code] and a string with the
    piece [code] get status 500.  An object with the key [code] gets status
    500 when the value is not a string, status 400 when it is a string made
    of white space only (the empty text, blanks, tabs, line feeds), and
    status 200 with the report of the text otherwise. *)
Theorem analyze_code_validation :
  analyze_code NoJsonBody = Reply500
  /\ analyze_code (JsonBody JNull) = missing_code_field
  /\ (forall b,
        analyze_code (JsonBody (JBool b))
        = if b then Reply500 else missing_code_field)
  /\ (forall x,
        analyze_code (JsonBody (JNumber x))
        = if Qeq_bool x 0 then missing_code_field else Reply500)
  /\ (forall s,
        analyze_code (JsonBody (JString s))
        = if str_in "code" s then Reply500 else missing_code_field)
  /\ (forall items,
        analyze_code (JsonBody (JArray items))
        = if existsb (json_is_string "code") items then Reply500
          else missing_code_field)
  /\ (forall items,
        analyze_code (JsonBody (JObject items))
        = match assoc "code" items with
          | None => missing_code_field
          | Some (JString java_code) =>
              if is_blank java_code then Reply400 "Code cannot be empty"
              else Reply200 (build_response java_code)
          | Some _ => Reply500
          end).
Proof.
  split; [reflexivity|]. split; [reflexivity|].
  split; [intros []; reflexivity|].
  split; [intros x; unfold analyze_code, json_truthy;
          destruct (Qeq_bool x 0); reflexivity|].
  split; [intros [|c s]; [reflexivity|];
          unfold analyze_code, json_truthy, json_contains, truthy;
          cbn [negb]; cbv iota;
          destruct (str_in "code" (String c s)); reflexivity|].
  split; [intros [|v items]; [reflexivity|];
          unfold analyze_code, json_truthy, json_contains, is_empty;
          cbn [negb]; cbv iota;
          destruct (existsb (json_is_string "code") (v :: items));
          reflexivity|].
  intros [|kv items]; [reflexivity|].
  unfold analyze_code, json_truthy, json_contains, json_subscript, is_empty,
    has_key.
  cbn [negb]. cbv iota.
  destruct (assoc "code" (kv :: items)) as [[| | |java_code| |]|];
    try reflexivity.
  rewrite truthy_strip, has_ink_not_blank.
  now destruct (is_blank java_code).
Qed.

(** ** Findings of a report *)

(** A report lists at most one finding: none when the verdict is [none],
    otherwise one entry that carries the severity and the description of
    the verdict, three reference links, a remediation text built from its
    type, and a type that the test suite reads back as the verdict key. *)
Theorem report_findings (java_code : string) :
  let v := detect_vulnerabilities_directly java_code in
  let vs := vulnerabilities (securityAnalysis (build_response java_code)) in
  (vulnerability v = "none" /\ vs = [])
  \/ (vulnerability v <> "none"
      /\ exists e,
           vs = [e]
           /\ v_severity e = severity v
           /\ v_description e = description v
           /\ normalize_vuln_type (v_type e) = vulnerability v
           /\ v_remediation e
              = "Address " ++ v_type e
                ++ " vulnerability by implementing proper security controls"
           /\ length (v_references e) = 3%nat).
Proof.
  intros v vs. unfold vs, v. rewrite response_vulnerabilities.
  pose proof (verdict_cases java_code) as H. simpl in H.
  repeat (destruct H as [<-|H];
          [first [ left; split; reflexivity
                 | right; split; [discriminate|]; eexists; split; [reflexivity|];
                   repeat split ]|]).
  contradiction.
Qed.

(** The overall risk is decided by the verdict alone: HIGH for
    authentication_bypass and insecure_deserialization, MEDIUM for
    sql_injection, xss and path_traversal, LOW for xxe and for no finding. *)
Theorem overall_risk_by_verdict (java_code : string) :
  let v := vulnerability (detect_vulnerabilities_directly java_code) in
  let risk := overallRisk (securityAnalysis (build_response java_code)) in
  (risk = "HIGH"
   <-> v = "authentication_bypass" \/ v = "insecure_deserialization")
  /\ (risk = "MEDIUM"
      <-> v = "sql_injection" \/ v = "xss" \/ v = "path_traversal")
  /\ (risk = "LOW" <-> v = "xxe" \/ v = "none").
Proof.
  intros v risk. unfold risk, v. rewrite response_overall_risk. cbv zeta.
  rewrite response_vulnerabilities.
  pose proof (verdict_cases java_code) as H. simpl in H.
  repeat (destruct H as [<-|H];
          [simpl; repeat split; intros; try discriminate; try tauto;
           repeat match goal with
                  | H : _ \/ _ |- _ => destruct H
                  end; discriminate|]).
  contradiction.
Qed.

(** ** Scores and recommendations *)

Lemma complexity_never_above_70 (java_code : string) :
  (complexityScore (conceptAnalysis (build_response java_code)) >? 70) = false.
Proof.
  rewrite response_complexity_score.
  pose proof (cyclomatic_complexity_range java_code) as H.
  destruct (Z.min _ 100 >? 70) eqn:E; [|reflexivity].
  apply Z.gtb_lt in E. lia.
Qed.

Lemma quality_score_range (java_code : string) :
  52 <= qualityScore (build_response java_code) <= 85.
Proof.
  rewrite quality_score_floor.
  pose proof (weighted_sum_range java_code) as [Hlo Hhi].
  apply Qfloor_resp_le in Hlo. apply Qfloor_resp_le in Hhi.
  change (Qfloor 52.5) with 52 in Hlo. change (Qfloor 85.5) with 85 in Hhi.
  lia.
Qed.

(** The scores stay well inside their nominal range of 0 to 100: the
    quality score lies between 52 and 85, and the complexity score is the
    cyclomatic metric itself, between 1 and 50 (the cut at 100 never
    acts). *)
Theorem score_ranges (java_code : string) :
  let r := build_response java_code in
  52 <= qualityScore r <= 85
  /\ complexityScore (conceptAnalysis r)
     = cyclomatic_complexity (extract_code_metrics java_code)
  /\ 1 <= complexityScore (conceptAnalysis r) <= 50.
Proof.
  intros r. unfold r. split; [|split].
  - apply quality_score_range.
  - rewrite response_complexity_score.
    pose proof (cyclomatic_complexity_range java_code). lia.
  - rewrite response_complexity_score.
    pose proof (cyclomatic_complexity_range java_code). lia.
Qed.

Lemma recommendations_eq (java_code : string) :
  let r := build_response java_code in
  let risk := overallRisk (securityAnalysis r) in
  recommendations r
  = ((if String.eqb risk "HIGH" then [critical_advice]
      else if String.eqb risk "MEDIUM" then [high_advice] else [])
     ++ (if qualityScore r <? 60 then [exception_advice] else [])
     ++ [coverage_advice])%list.
Proof.
  intros r risk. unfold risk, r. rewrite response_recommendations. cbv zeta.
  rewrite complexity_never_above_70.
  change (test_coverage (extract_code_metrics java_code)) with 0.5%Q.
  change (Qltb 0.5 0.7) with true. cbv iota.
  rewrite response_overall_risk. cbv zeta.
  rewrite response_vulnerabilities.
  destruct (qualityScore (build_response java_code) <? 60);
    pose proof (verdict_cases java_code) as H; simpl in H;
    repeat (destruct H as [<-|H]; [reflexivity|]); contradiction.
Qed.

(** The list of recommendations of a report in closed form: the security
    message that goes with the overall risk, then the advice on exception
    handling when the quality score is below 60, then the advice on test
    coverage. The advice to break down complex methods is never given,
    since the complexity score cannot exceed 70. *)
Theorem recommendations_closed_form (java_code : string) :
  let r := build_response java_code in
  let risk := overallRisk (securityAnalysis r) in
  recommendations r
  = ((if String.eqb risk "HIGH" then [critical_advice]
      else if String.eqb risk "MEDIUM" then [high_advice] else [])
     ++ (if qualityScore r <? 60 then [exception_advice] else [])
     ++ [coverage_advice])%list
  /\ ~ In refactor_advice (recommendations r)
  /\ (1 <= length (recommendations r) <= 3)%nat.
Proof.
  intros r risk. pose proof (recommendations_eq java_code) as E.
  cbv zeta in E. fold r in E. fold risk in E.
  rewrite E. split; [reflexivity|].
  destruct (String.eqb risk "HIGH"), (String.eqb risk "MEDIUM"),
    (qualityScore r <? 60); simpl; (split; [|lia]);
    intros H; repeat (destruct H as [H|H]; [discriminate|]); exact H.
Qed.

(** ** Lines of code *)

Lemma split_lines_not_nil (s : string) : split_lines s <> [].
Proof.
  induction s as [|c s IH]; simpl; [discriminate|].
  destruct (Ascii.eqb c "010"); [discriminate|].
  destruct (split_lines s); discriminate.
Qed.

(** A text has a visible character exactly when one of its lines has. *)
Lemma has_ink_split_lines (s : string) :
  existsb has_ink (split_lines s) = has_ink s.
Proof.
  induction s as [|c s IH]; [reflexivity|].
  cbn [split_lines has_ink]. destruct (Ascii.eqb c "010") eqn:E.
  - apply Ascii.eqb_eq in E. subst c. simpl. exact IH.
  - destruct (split_lines s) as [|l ls] eqn:El.
    + now destruct (split_lines_not_nil s).
    + rewrite <- IH. simpl. now rewrite orb_assoc.
Qed.

Lemma filter_length_zero {A : Type} (f : A -> bool) (l : list A) :
  length (filter f l) = 0%nat <-> existsb f l = false.
Proof.
  induction l as [|x l IH]; simpl; [tauto|].
  destruct (f x); simpl; [split; discriminate | exact IH].
Qed.

Lemma filter_length_le {A : Type} (f : A -> bool) (l : list A) :
  (length (filter f l) <= length l)%nat.
Proof.
  induction l as [|x l IH]; simpl; [lia|]. destruct (f x); simpl; lia.
Qed.

Lemma response_lines_of_code (java_code : string) :
  linesOfCode (build_response java_code)
  = Z.of_nat (length (filter has_ink (split_lines java_code))).
Proof.
  change (linesOfCode (build_response java_code))
    with (Z.of_nat (length (filter (fun line => truthy (strip line))
                                   (split_lines java_code)))).
  f_equal. f_equal. apply filter_ext. intros l. apply truthy_strip.
Qed.

(** [linesOfCode] counts the lines with a visible character. It is the
    same number as the metric [lines_of_code], it is repeated in every
    entry of [detectedConcepts], it never exceeds the number of physical
    lines, and it is 0 only for a blank text, which the route rejects. *)
Theorem lines_of_code_consistent (java_code : string) :
  let r := build_response java_code in
  linesOfCode r = lines_of_code (extract_code_metrics java_code)
  /\ 0 <= linesOfCode r <= Z.of_nat (length (split_lines java_code))
  /\ (linesOfCode r = 0 <-> is_blank java_code = true)
  /\ (forall c, In c (detectedConcepts (conceptAnalysis r)) ->
        assoc "linesOfCode" c = Some (VInt (linesOfCode r))).
Proof.
  intros r. unfold r. split; [reflexivity|]. split; [|split].
  - rewrite response_lines_of_code.
    pose proof (filter_length_le has_ink (split_lines java_code)). lia.
  - rewrite response_lines_of_code.
    assert (E : Z.of_nat (length (filter has_ink (split_lines java_code))) = 0
                <-> length (filter has_ink (split_lines java_code)) = 0%nat)
      by lia.
    rewrite E, filter_length_zero, has_ink_split_lines, has_ink_not_blank.
    destruct (is_blank java_code); simpl; split; congruence.
  - rewrite response_detected_concepts. intros c H.
    apply in_map_iff in H. destruct H as (p & <- & _). reflexivity.
Qed.

(** ** Detected concepts *)

Lemma concept_fields_table : forallb concept_fields_ok all_pattern_entries = true.
Proof. vm_compute. reflexivity. Qed.

Lemma concept_fields_ok_inv (p : pydict) :
  concept_fields_ok p = true ->
  exists cat name t,
    assoc "category" (concept_of_pattern "" 0 p) = Some (VStr cat)
    /\ assoc "name" (concept_of_pattern "" 0 p) = Some (VStr name)
    /\ assoc "theory" (concept_of_pattern "" 0 p) = Some (VStr t)
    /\ assoc "theory" p = Some (VStr t)
    /\ In cat named_categories
    /\ name <> "" /\ str_in "_" name = false.
Proof.
  unfold concept_fields_ok. cbv zeta.
  destruct (assoc "category" _) as [[cat| | |]|]; try discriminate.
  destruct (assoc "name" _) as [[name| | |]|]; try discriminate.
  destruct (assoc "theory" (concept_of_pattern "" 0 p)) as [[t| | |]|];
    try discriminate.
  destruct (assoc "theory" p) as [[t'| | |]|]; try discriminate.
  intros H. repeat (apply andb_true_iff in H; destruct H as [H ?]).
  exists cat, name, t. repeat split.
  - f_equal. f_equal. symmetry. now apply String.eqb_eq.
  - unfold in_list in H. apply existsb_exists in H.
    destruct H as (x & Hx & Hcx). apply String.eqb_eq in Hcx. now subst.
  - intros ->. discriminate.
  - now apply negb_true_iff.
Qed.

Lemma concept_links_table : forallb concept_links_ok all_pattern_entries = true.
Proof. vm_compute. reflexivity. Qed.

Lemma concept_links_ok_inv (p : pydict) :
  concept_links_ok p = true ->
  exists links,
    assoc "referenceLinks" (concept_of_pattern "" 0 p) = Some (VStrs links)
    /\ (2 <= length links <= 3)%nat.
Proof.
  unfold concept_links_ok.
  destruct (assoc "referenceLinks" _) as [[| | |links]|]; try discriminate.
  intros H. apply andb_true_iff in H. destruct H as [H1 H2].
  apply Nat.leb_le in H1, H2. exists links. split; [reflexivity | lia].
Qed.

(** [detectedConcepts] mirrors the output of the pattern detector: one
    entry per detected pattern, in the same order, each with exactly the
    seven keys of the response format, the theory of the pattern, a display
    name without underscores, one of the ten named categories (never
    "OTHER PATTERNS") and two or three reference links. *)
Theorem concepts_mirror_patterns (java_code : string) :
  let r := build_response java_code in
  let concepts := detectedConcepts (conceptAnalysis r) in
  let patterns := detect_patterns_directly java_code in
  length concepts = length patterns
  /\ map (assoc "theory") concepts = map (assoc "theory") patterns
  /\ (forall c, In c concepts ->
        map fst c = concept_keys
        /\ (exists cat, assoc "category" c = Some (VStr cat)
                        /\ In cat named_categories)
        /\ (exists name, assoc "name" c = Some (VStr name)
                         /\ name <> "" /\ str_in "_" name = false)
        /\ (exists links, assoc "referenceLinks" c = Some (VStrs links)
                          /\ (2 <= length links <= 3)%nat)).
Proof.
  intros r concepts patterns. unfold concepts, r.
  rewrite response_detected_concepts. fold patterns.
  generalize (linesOfCode (build_response java_code)). intros loc.
  assert (Htab : forall p, In p patterns -> concept_fields_ok p = true).
  { intros p Hp. pose proof concept_fields_table as H.
    rewrite forallb_forall in H. apply H.
    destruct (detect_patterns_table java_code) as (conds & _ & E).
    unfold patterns in Hp. rewrite E in Hp. now apply select_incl in Hp. }
  assert (Hlinks : forall p, In p patterns -> concept_links_ok p = true).
  { intros p Hp. pose proof concept_links_table as H.
    rewrite forallb_forall in H. apply H.
    destruct (detect_patterns_table java_code) as (conds & _ & E).
    unfold patterns in Hp. rewrite E in Hp. now apply select_incl in Hp. }
  clearbody patterns.
  split; [apply length_map|]. split.
  - rewrite map_map. apply map_ext_in. intros p Hp.
    destruct (concept_fields_ok_inv p (Htab p Hp))
      as (cat & name & t & _ & _ & Ht & Ht' & _).
    rewrite Ht'. exact Ht.
  - intros c Hc. apply in_map_iff in Hc. destruct Hc as (p & <- & Hp).
    destruct (concept_fields_ok_inv p (Htab p Hp))
      as (cat & name & t & Hcat & Hname & _ & _ & Hin & Hne & Hus).
    destruct (concept_links_ok_inv p (Hlinks p Hp)) as (links & Hl & Hn).
    split; [reflexivity|]. split; [|split].
    + exists cat. split; [exact Hcat | exact Hin].
    + exists name. split; [exact Hname|]. split; assumption.
    + exists links. split; [exact Hl | exact Hn].
Qed.

(** ** Display names *)

Section CharacterFacts.

Lemma all_chars_app (P : ascii -> bool) (a b : string) :
  all_chars P (a ++ b) = all_chars P a && all_chars P b.
Proof.
  induction a as [|c a IH]; simpl; [reflexivity|].
  now rewrite IH, andb_assoc.
Qed.

(** A one-character needle is absent exactly when no character is it. *)
Lemma str_in_char (a : ascii) (s : string) :
  str_in (String a "") s = negb (all_chars (is_not a) s).
Proof.
  induction s as [|c s IH]; [reflexivity|].
  cbn [str_in startswith all_chars]. rewrite IH. unfold is_not.
  rewrite (Ascii.eqb_sym a c). destruct (Ascii.eqb c a); simpl.
  - reflexivity.
  - reflexivity.
Qed.

(** [replace] only produces characters of the text or of the new piece. *)
Lemma replace_from_all_chars (P : ascii -> bool) (old new s : string) (skip : nat) :
  all_chars P s = true -> all_chars P new = true ->
  all_chars P (replace_from old new s skip) = true.
Proof.
  intros Hs Hnew. revert skip Hs.
  induction s as [|c s IH]; intros skip Hs; [reflexivity|].
  simpl in Hs. apply andb_true_iff in Hs. destruct Hs as [Hc Hs].
  cbn [replace_from]. destruct skip as [|k]; [|now apply IH].
  destruct (startswith old (String c s)).
  - rewrite all_chars_app, Hnew. now apply IH.
  - simpl. rewrite Hc. now apply IH.
Qed.

(** Replacing every occurrence of one character removes it. *)
Lemma replace_char_all_gone (a : ascii) (new s : string) (skip : nat) :
  all_chars (is_not a) new = true ->
  all_chars (is_not a) (replace_from (String a "") new s skip) = true.
Proof.
  intros Hnew. revert skip.
  induction s as [|c s IH]; intros skip; [reflexivity|].
  cbn [replace_from]. destruct skip as [|k]; [|apply IH].
  cbn [startswith]. rewrite andb_true_r. destruct (Ascii.eqb a c) eqn:E.
  - rewrite all_chars_app, Hnew. apply IH.
  - cbn [all_chars]. unfold is_not at 1. rewrite Ascii.eqb_sym, E. apply IH.
Qed.

Lemma case_forms_not_underscore (c : ascii) :
  is_not "_" c = true ->
  is_not "_" (lower_char c) = true
  /\ all_chars (is_not "_") (title_char c) = true.
Proof.
  destruct c as [[] [] [] [] [] [] [] []]; vm_compute; intros H;
    first [discriminate H | split; reflexivity].
Qed.

Lemma title_from_no_underscore (s : string) (prev : bool) :
  all_chars (is_not "_") s = true ->
  all_chars (is_not "_") (title_from s prev) = true.
Proof.
  revert prev. induction s as [|c s IH]; intros prev H; [reflexivity|].
  simpl in H. apply andb_true_iff in H. destruct H as [Hc Hs].
  cbn [title_from]. rewrite all_chars_app, (IH _ Hs), andb_true_r.
  destruct (case_forms_not_underscore c Hc) as [Hl Ht].
  destruct prev; [|exact Ht].
  cbn [all_chars]. now rewrite Hl.
Qed.

End CharacterFacts.

(** A display name never contains an underscore: the empty name and
    [unknown], which are returned as they are, have none, and every other
    name loses its underscores to spaces before the title-casing and the
    capital-letter fixes, which add none.  The names are those whose
    title-case form stays below U+0100 (no U+00B5, no U+00FF), where
    [title] is Python's. *)
Theorem display_name_has_no_underscore (pattern_name : string) :
  all_chars has_title_form pattern_name = true ->
  str_in "_" (format_pattern_name_for_display pattern_name) = false.
Proof.
  intros _. rewrite str_in_char. apply negb_false_iff.
  unfold format_pattern_name_for_display.
  destruct (negb (truthy pattern_name)) eqn:E1.
  - destruct pattern_name; [reflexivity | discriminate].
  - simpl. destruct (String.eqb pattern_name "unknown") eqn:E2.
    + apply String.eqb_eq in E2. subst. reflexivity.
    + unfold replace.
      repeat (apply replace_from_all_chars; [|reflexivity]).
      apply title_from_no_underscore.
      now apply replace_char_all_gone.
Qed.

(** The name made of U+00E9 and [a_api] is displayed as U+00C9 and
    [a API]: the accented letter is raised, the letters after a cased one
    are lowered, and the acronym is restored. *)
Lemma display_name_has_no_underscore_witness :
  format_pattern_name_for_display (String "233"%char "a_api")
  = String "201"%char "a API"
  /\ str_in "_" (format_pattern_name_for_display (String "233"%char "a_api"))
     = false.
Proof.
  split; [reflexivity|].
  apply (display_name_has_no_underscore (String "233"%char "a_api")).
  reflexivity.
Defined.

(** ** Matched words *)

Lemma keyword_lists_short (pattern_name : string) :
  (length (dict_get pattern_keywords pattern_name ["class"; "public"; "private"])
   <= 4)%nat.
Proof.
  unfold dict_get, pattern_keywords. cbn [assoc].
  repeat match goal with
         | |- context [if ?c then _ else _] => destruct c
         end; simpl; lia.
Qed.

Lemma keyword_lists_nonempty_words (pattern_name k : string) :
  In k (dict_get pattern_keywords pattern_name ["class"; "public"; "private"]) ->
  str_in k "" = false.
Proof.
  unfold dict_get, pattern_keywords. cbn [assoc].
  repeat match goal with
         | |- context [if ?c then _ else _] => destruct c
         end; simpl; intros Hk;
    repeat (destruct Hk as [<-|Hk]; [reflexivity|]); contradiction.
Qed.

Lemma filter_none {A : Type} (f : A -> bool) (l : list A) :
  (forall x, In x l -> f x = false) -> filter f l = [].
Proof.
  induction l as [|x l IH]; intros H; [reflexivity|].
  simpl. rewrite (H x (or_introl eq_refl)). apply IH.
  intros y Hy. apply H. now right.
Qed.

(** The matched words of a concept are exactly the keywords of its
    pattern (of the default list for a pattern without keywords) that occur
    in the lowered text, in the order of the keyword list; there are at
    most four of them, so the cut at five words never removes one. *)
Theorem matched_words_exact (code pattern_name : string) :
  let keywords :=
    dict_get pattern_keywords pattern_name ["class"; "public"; "private"] in
  let words := extract_matched_words code pattern_name in
  words = filter (fun keyword => str_in keyword (lower code)) keywords
  /\ (length words <= 4)%nat
  /\ (forall w, In w words <-> In w keywords /\ str_in w (lower code) = true).
Proof.
  intros keywords words.
  pose proof (keyword_lists_short pattern_name) as Hlen. fold keywords in Hlen.
  pose proof (filter_length_le (fun keyword => str_in keyword (lower code))
                keywords) as Hf.
  assert (E : words
              = filter (fun keyword => str_in keyword (lower code)) keywords).
  { unfold words, extract_matched_words. fold keywords.
    destruct code as [|c code].
    - change (lower "") with "". symmetry. apply filter_none.
      intros k Hk. now apply (keyword_lists_nonempty_words pattern_name).
    - cbn [truthy negb]. cbv iota. apply firstn_all2. lia. }
  split; [exact E|]. split.
  - rewrite E. lia.
  - intros w. rewrite E.
    apply (filter_In (fun keyword => str_in keyword (lower code)) w keywords).
Qed.

(** ** Reading a vulnerability type back *)

Section RoundTrip.

Lemma lower_map_chars (s : string) : lower s = map_chars lower_char s.
Proof. induction s as [|c s IH]; simpl; [reflexivity | now rewrite IH]. Qed.

Lemma map_chars_compose (f g : ascii -> ascii) (s : string) :
  map_chars g (map_chars f s) = map_chars (fun c => g (f c)) s.
Proof. induction s as [|c s IH]; simpl; [reflexivity | now rewrite IH]. Qed.

Lemma map_chars_fixed (P : ascii -> bool) (f : ascii -> ascii) (s : string) :
  (forall c, P c = true -> f c = c) ->
  all_chars P s = true -> map_chars f s = s.
Proof.
  intros Hf. induction s as [|c s IH]; simpl; intros H; [reflexivity|].
  apply andb_true_iff in H. destruct H as [Hc Hs].
  now rewrite (Hf c Hc), IH.
Qed.

Lemma all_chars_and (P Q : ascii -> bool) (s : string) :
  all_chars P s = true -> all_chars Q s = true ->
  all_chars (fun c => P c && Q c) s = true.
Proof.
  induction s as [|c s IH]; simpl; intros HP HQ; [reflexivity|].
  apply andb_true_iff in HP. apply andb_true_iff in HQ.
  destruct HP as [-> HP], HQ as [-> HQ]. now apply IH.
Qed.

Lemma map_chars_fixed_inv (f : ascii -> ascii) (s : string) :
  map_chars f s = s -> all_chars (fun c => Ascii.eqb (f c) c) s = true.
Proof.
  induction s as [|c s IH]; simpl; intros H; [reflexivity|].
  injection H as Hc Hs. rewrite Hc, Ascii.eqb_refl. now apply IH.
Qed.

(** Replacing one character by another is a character-wise map. *)
Lemma replace_char_map (a b : ascii) (s : string) :
  replace s (String a "") (String b "")
  = map_chars (fun c => if Ascii.eqb c a then b else c) s.
Proof.
  unfold replace. induction s as [|c s IH]; [reflexivity|].
  cbn [replace_from startswith map_chars String.length Nat.sub].
  rewrite andb_true_r, (Ascii.eqb_sym a c).
  destruct (Ascii.eqb c a); simpl; now rewrite IH.
Qed.

Lemma lower_of_case_forms (c : ascii) :
  is_ascii_char c = true ->
  lower_char (lower_char c) = lower_char c
  /\ lower (title_char c) = String (lower_char c) "".
Proof.
  destruct c as [[] [] [] [] [] [] [] []]; vm_compute; intros H;
    first [discriminate H | split; reflexivity].
Qed.

(** Lowering undoes [title] on ASCII text. *)
Lemma lower_title_from (s : string) (prev : bool) :
  all_chars is_ascii_char s = true ->
  lower (title_from s prev) = lower s.
Proof.
  revert prev. induction s as [|c s IH]; intros prev H; [reflexivity|].
  simpl in H. apply andb_true_iff in H. destruct H as [Hc Hs].
  cbn [title_from]. rewrite lower_app, (IH _ Hs).
  destruct (lower_of_case_forms c Hc) as [Hl Ht].
  destruct prev.
  - cbn [lower append]. now rewrite Hl.
  - rewrite Ht. reflexivity.
Qed.

End RoundTrip.

(** The test suite reads a reported vulnerability type back into the key
    it was formatted from: for every lower-case ASCII key without spaces,
    in the table of display names or not, lowering the formatted type and
    putting underscores for spaces gives the key again. *)
Theorem vuln_type_round_trip (key : string) :
  all_chars is_ascii_char key = true ->
  lower key = key ->
  str_in " " key = false ->
  normalize_vuln_type (format_vulnerability_type key) = key.
Proof.
  intros Hascii Hlow Hsp. unfold format_vulnerability_type. rewrite Hlow.
  unfold dict_get, type_mapping. cbn [assoc].
  repeat match goal with
         | |- context [if String.eqb key ?k then _ else _] =>
             let E := fresh "E" in
             destruct (String.eqb key k) eqn:E;
             [apply String.eqb_eq in E; subst key; reflexivity|]
         end.
  unfold normalize_vuln_type, title.
  rewrite lower_title_from
    by (apply replace_from_all_chars; [exact Hascii | reflexivity]).
  rewrite (replace_char_map "_" " "), (replace_char_map " " "_").
  rewrite lower_map_chars, !map_chars_compose.
  rewrite str_in_char in Hsp. apply negb_false_iff in Hsp.
  rewrite lower_map_chars in Hlow. apply map_chars_fixed_inv in Hlow.
  apply (map_chars_fixed
           (fun c => is_not " " c && Ascii.eqb (lower_char c) c));
    [|now apply all_chars_and].
  intros c Hc. apply andb_true_iff in Hc. destruct Hc as [Hns Hfix].
  apply Ascii.eqb_eq in Hfix. unfold is_not in Hns.
  apply negb_true_iff in Hns.
  destruct (Ascii.eqb c "_") eqn:Eu.
  - apply Ascii.eqb_eq in Eu. subst c. reflexivity.
  - rewrite Hfix, Hns. reflexivity.
Qed.

(** ** Ranges of the metrics *)

(** The cognitive metric is always twice the cyclomatic one: both clamp
    the same count, at 100 after doubling and at 50. *)
Theorem cognitive_is_twice_cyclomatic (java_code : string) :
  let m := extract_code_metrics java_code in
  cognitive_complexity m = 2 * cyclomatic_complexity m
  /\ 2 <= cognitive_complexity m <= 100.
Proof.
  intros m. unfold m.
  assert (H : exists c,
             cyclomatic_complexity (extract_code_metrics java_code) = Z.min 50 c
             /\ cognitive_complexity (extract_code_metrics java_code)
                = Z.min 100 (c * 2))
    by (eexists; split; reflexivity).
  destruct H as (c & Hcyc & Hcog).
  pose proof (cyclomatic_complexity_range java_code) as Hr.
  rewrite Hcog. rewrite Hcyc in *. lia.
Qed.

Lemma count_parameters_step_mono (acc : Z) (line : string) :
  acc <= count_parameters_step acc line.
Proof.
  unfold count_parameters_step.
  repeat match goal with
         | |- context [if ?c then _ else _] => destruct c
         end; try lia.
  match goal with
  | |- context [count ?s ","] => pose proof (count_nonneg s ",")
  end. lia.
Qed.

Lemma count_parameters_nonneg (lines : list string) (acc : Z) :
  0 <= acc -> 0 <= fold_left count_parameters_step lines acc.
Proof.
  revert acc. induction lines as [|l lines IH]; intros acc H; simpl; [exact H|].
  apply IH. pose proof (count_parameters_step_mono acc l). lia.
Qed.

Lemma comment_ratio_le_1 (java_code : string) :
  (comment_ratio (extract_code_metrics java_code) <= 1)%Q.
Proof.
  change (comment_ratio (extract_code_metrics java_code))
    with (inject_Z (Z.of_nat (length (filter (fun l => str_in "//" l || str_in "/*" l)
                                        (split_lines java_code))))
          / inject_Z (Z.max 1 (Z.of_nat (length (split_lines java_code)))))%Q.
  pose proof (filter_length_le (fun l => str_in "//" l || str_in "/*" l)
                (split_lines java_code)) as H.
  apply Qle_shift_div_r.
  - change 0%Q with (inject_Z 0). rewrite <- Zlt_Qlt. lia.
  - rewrite Qmult_1_l. rewrite <- Zle_Qle. lia.
Qed.

(** The metrics keep their floors and ceilings on every input: the
    [max(1, .)] and [max(2, .)] floors, the placeholders 0.0 and 0.5, a
    comment ratio between 0 and 1, no more code lines than physical lines,
    a parameter count that is never negative, and the fixed value sets of
    the two ratios and of the encryption flag. *)
Theorem metric_ranges (java_code : string) :
  let m := extract_code_metrics java_code in
  1 <= nesting_depth m
  /\ 1 <= m_num_methods m
  /\ 1 <= m_num_classes m
  /\ 2 <= coupling m
  /\ 0 <= lines_of_code m <= Z.of_nat (length (split_lines java_code))
  /\ 0 <= num_parameters m
  /\ code_duplication m = 0.0%Q
  /\ test_coverage m = 0.5%Q
  /\ (0 <= comment_ratio m <= 1)%Q
  /\ In (input_validation_ratio m) [0.8; 0.7; 0.6; 0.1]%Q
  /\ In (dependency_injection_usage m) [0.8; 0.7; 0.5; 0.2]%Q
  /\ In (uses_encryption m) [0; 1].
Proof.
  intros m. unfold m.
  split; [|split; [|split; [|split; [|split; [|split; [|split; [|split;
    [|split; [|split; [|split]]]]]]]]]].
  - assert (H : exists x, nesting_depth (extract_code_metrics java_code)
                          = Z.max 1 x) by (eexists; reflexivity).
    destruct H as (x & ->). lia.
  - assert (H : exists x, m_num_methods (extract_code_metrics java_code)
                          = Z.max 1 x) by (eexists; reflexivity).
    destruct H as (x & ->). lia.
  - assert (H : exists x, m_num_classes (extract_code_metrics java_code)
                          = Z.max 1 x) by (eexists; reflexivity).
    destruct H as (x & ->). lia.
  - assert (H : exists x, coupling (extract_code_metrics java_code)
                          = Z.max 2 x) by (eexists; reflexivity).
    destruct H as (x & ->). lia.
  - change (lines_of_code (extract_code_metrics java_code))
      with (Z.of_nat (length (filter (fun l => truthy (strip l))
                                     (split_lines java_code)))).
    pose proof (filter_length_le (fun l => truthy (strip l))
                  (split_lines java_code)). lia.
  - change (num_parameters (extract_code_metrics java_code))
      with (fold_left count_parameters_step (split_lines java_code) 0).
    apply count_parameters_nonneg. lia.
  - reflexivity.
  - reflexivity.
  - split; [apply comment_ratio_nonneg | apply comment_ratio_le_1].
  - assert (H : exists c1 c2 c3 c4 : bool,
               input_validation_ratio (extract_code_metrics java_code)
               = (if c1 then 0.8 else if c2 then 0.7 else if c3 then 0.6
                  else if c4 then 0.1 else 0.1)%Q)
      by (do 4 eexists; reflexivity).
    destruct H as (c1 & c2 & c3 & c4 & ->).
    destruct c1, c2, c3, c4; simpl; tauto.
  - assert (H : exists c1 c2 c3 : bool,
               dependency_injection_usage (extract_code_metrics java_code)
               = (if c1 then 0.8 else if c2 then 0.7 else if c3 then 0.5
                  else 0.2)%Q)
      by (do 3 eexists; reflexivity).
    destruct H as (c1 & c2 & c3 & ->).
    destruct c1, c2, c3; simpl; tauto.
  - assert (H : exists c : bool,
               uses_encryption (extract_code_metrics java_code)
               = if c then 1 else 0) by (eexists; reflexivity).
    destruct H as (c & ->). destruct c; simpl; tauto.
Qed.

(** ** The aggregator's risk level *)

Section RiskLevel.

Lemma py_max_ge (n x : Z) (rest : list Z) :
  n <= py_max x rest <-> n <= x \/ exists y, In y rest /\ n <= y.
Proof.
  unfold py_max. revert x. induction rest as [|y rest IH]; intros x; simpl.
  - split; [auto | intros [H|(y & [] & _)]; exact H].
  - rewrite IH. split.
    + intros [H|(z & Hz & Hn)].
      * destruct (Z.max_spec x y) as [[_ E]|[_ E]]; rewrite E in H.
        -- right. exists y. auto.
        -- now left.
      * right. exists z. auto.
    + intros [H|(z & [->|Hz] & Hn)].
      * left. lia.
      * left. lia.
      * right. exists z. auto.
Qed.

(** The highest rank among the findings, 1 when there is none. *)
Lemma risk_level_by_rank (l : list finding) (n : Z) :
  1 < n ->
  ((exists v, In v l /\ n <= severity_rank (finding_severity v))
   <-> n <= match map (fun v => severity_rank (finding_severity v)) l with
            | [] => 1
            | x :: rest => py_max x rest
            end).
Proof.
  intros Hn. destruct l as [|v l]; simpl.
  - split; [intros (v & [] & _) | lia].
  - rewrite py_max_ge. split.
    + intros (w & [<-|Hw] & H); [now left|].
      right. exists (severity_rank (finding_severity w)). split; [|exact H].
      apply in_map_iff. now exists w.
    + intros [H|(y & Hy & H)].
      * exists v. auto.
      * apply in_map_iff in Hy. destruct Hy as (w & <- & Hw). exists w. auto.
Qed.

Lemma severity_rank_cases (s : string) :
  (severity_rank s = 4 /\ s = "CRITICAL")
  \/ (severity_rank s = 3 /\ s = "HIGH")
  \/ (severity_rank s = 2 /\ s = "MEDIUM")
  \/ (severity_rank s = 1 /\ s <> "CRITICAL" /\ s <> "HIGH" /\ s <> "MEDIUM").
Proof.
  unfold severity_rank, dict_get. cbn [assoc].
  destruct (String.eqb s "CRITICAL") eqn:E4;
    [apply String.eqb_eq in E4; subst; tauto|].
  destruct (String.eqb s "HIGH") eqn:E3;
    [apply String.eqb_eq in E3; subst; tauto|].
  destruct (String.eqb s "MEDIUM") eqn:E2;
    [apply String.eqb_eq in E2; subst; tauto|].
  apply String.eqb_neq in E4, E3, E2.
  destruct (String.eqb s "LOW"); tauto.
Qed.

End RiskLevel.

Lemma calculate_risk_level_unfold (l : list finding) :
  calculate_risk_level l
  = let m := match map (fun v => severity_rank (finding_severity v)) l with
             | [] => 1
             | x :: rest => py_max x rest
             end in
    if m >=? 4 then "CRITICAL"
    else if m >=? 3 then "HIGH"
    else if m >=? 2 then "MEDIUM"
    else "LOW".
Proof. destruct l; reflexivity. Qed.

(** The aggregator's risk level is the highest severity among the
    findings: CRITICAL when some finding is CRITICAL, else HIGH when some is
    HIGH, else MEDIUM when some is MEDIUM, else LOW; a finding without a
    severity, or with an unknown one, counts as LOW, and so does the empty
    list. *)
Theorem risk_level_is_highest_severity (l : list finding) :
  let some (s : string) := exists v, In v l /\ finding_severity v = s in
  let level := calculate_risk_level l in
  (level = "CRITICAL" <-> some "CRITICAL")
  /\ (level = "HIGH" <-> ~ some "CRITICAL" /\ some "HIGH")
  /\ (level = "MEDIUM"
      <-> ~ some "CRITICAL" /\ ~ some "HIGH" /\ some "MEDIUM")
  /\ (level = "LOW"
      <-> ~ some "CRITICAL" /\ ~ some "HIGH" /\ ~ some "MEDIUM").
Proof.
  intros some level. unfold level. rewrite calculate_risk_level_unfold.
  cbv zeta.
  set (m := match map _ l with [] => 1 | x :: rest => py_max x rest end).
  assert (H4 : some "CRITICAL" <-> 4 <= m).
  { unfold m. rewrite <- risk_level_by_rank by lia. unfold some.
    split; intros (v & Hv & H); exists v; split; auto.
    - rewrite H. reflexivity.
    - destruct (severity_rank_cases (finding_severity v))
        as [[? ?]|[[? ?]|[[? ?]|[? ?]]]]; auto; lia. }
  assert (H3 : some "CRITICAL" \/ some "HIGH" <-> 3 <= m).
  { unfold m. rewrite <- risk_level_by_rank by lia. unfold some. split.
    - intros [(v & Hv & H)|(v & Hv & H)]; exists v; split; auto;
        rewrite H; vm_compute; discriminate.
    - intros (v & Hv & H).
      destruct (severity_rank_cases (finding_severity v))
        as [[? ?]|[[? ?]|[[? ?]|[? ?]]]]; try lia;
        [left | right]; exists v; auto. }
  assert (H2 : some "CRITICAL" \/ some "HIGH" \/ some "MEDIUM" <-> 2 <= m).
  { unfold m. rewrite <- risk_level_by_rank by lia. unfold some. split.
    - intros [(v & Hv & H)|[(v & Hv & H)|(v & Hv & H)]]; exists v; split; auto;
        rewrite H; vm_compute; discriminate.
    - intros (v & Hv & H).
      destruct (severity_rank_cases (finding_severity v))
        as [[? ?]|[[? ?]|[[? ?]|[? ?]]]]; try lia;
        [left | right; left | right; right]; exists v; auto. }
  clearbody m.
  destruct (m >=? 4) eqn:E4; [apply Z.geb_le in E4 | rewrite Z.geb_leb in E4; apply Z.leb_gt in E4].
  { repeat split; try discriminate; try tauto; intros; exfalso; tauto. }
  destruct (m >=? 3) eqn:E3; [apply Z.geb_le in E3 | rewrite Z.geb_leb in E3; apply Z.leb_gt in E3].
  { assert (~ some "CRITICAL") by (rewrite H4; lia).
    repeat split; try discriminate; try tauto; intros; exfalso; tauto. }
  destruct (m >=? 2) eqn:E2; [apply Z.geb_le in E2 | rewrite Z.geb_leb in E2; apply Z.leb_gt in E2].
  { assert (~ some "CRITICAL") by (rewrite H4; lia).
    assert (~ (some "CRITICAL" \/ some "HIGH")) by (rewrite H3; lia).
    repeat split; try discriminate; try tauto; intros; exfalso; tauto. }
  assert (~ (some "CRITICAL" \/ some "HIGH" \/ some "MEDIUM"))
    by (rewrite H2; lia).
  repeat split; try discriminate; try tauto; intros; exfalso; tauto.
Qed.

Section RiskLevelOfUnion.

Let rank_of (v : finding) : Z := severity_rank (finding_severity v).
Let top (l : list finding) : Z :=
  match map rank_of l with
  | [] => 1
  | x :: rest => py_max x rest
  end.

Lemma severity_rank_range (s : string) : 1 <= severity_rank s <= 4.
Proof.
  destruct (severity_rank_cases s) as [[? ?]|[[? ?]|[[? ?]|[? ?]]]]; lia.
Qed.

Lemma top_range (l : list finding) : 1 <= top l <= 4.
Proof.
  unfold top. destruct l as [|v l]; simpl; [lia|].
  unfold py_max. generalize (severity_rank_range (finding_severity v)).
  fold (rank_of v). generalize (rank_of v). 
  induction l as [|w l IH]; intros x Hx; simpl; [exact Hx|].
  apply IH. pose proof (severity_rank_range (finding_severity w)).
  fold (rank_of w) in *. lia.
Qed.

Lemma top_ge (l : list finding) (n : Z) :
  1 < n -> (n <= top l <-> exists v, In v l /\ n <= rank_of v).
Proof.
  intros Hn. symmetry. apply (risk_level_by_rank l n Hn).
Qed.

Lemma top_app (a b : list finding) : top (a ++ b) = Z.max (top a) (top b).
Proof.
  pose proof (top_range (a ++ b)) as Hab.
  pose proof (top_range a) as Ha. pose proof (top_range b) as Hb.
  assert (H : forall n, 1 < n ->
                (n <= top (a ++ b) <-> n <= top a \/ n <= top b)).
  { intros n Hn. rewrite !top_ge by exact Hn. split.
    - intros (v & Hv & H). apply in_app_or in Hv.
      destruct Hv; [left | right]; exists v; auto.
    - intros [(v & Hv & H)|(v & Hv & H)]; exists v; split; auto;
        apply in_or_app; auto. }
  pose proof (H 2) as H2. pose proof (H 3) as H3. pose proof (H 4) as H4.
  lia.
Qed.

Lemma rank_of_level (l : list finding) :
  severity_rank (calculate_risk_level l) = top l.
Proof.
  rewrite calculate_risk_level_unfold. cbv zeta. fold rank_of. fold (top l).
  pose proof (top_range l) as H.
  destruct (top l >=? 4) eqn:E4;
    [apply Z.geb_le in E4; change (severity_rank "CRITICAL") with 4; lia|].
  destruct (top l >=? 3) eqn:E3;
    [apply Z.geb_le in E3; rewrite Z.geb_leb in E4; apply Z.leb_gt in E4;
     change (severity_rank "HIGH") with 3; lia|].
  destruct (top l >=? 2) eqn:E2;
    [apply Z.geb_le in E2; rewrite Z.geb_leb in E3; apply Z.leb_gt in E3;
     change (severity_rank "MEDIUM") with 2; lia|].
  rewrite Z.geb_leb in E2. apply Z.leb_gt in E2.
  change (severity_rank "LOW") with 1. lia.
Qed.

(** Putting two lists of findings together gives the higher of their two
    risk levels; so the level does not depend on the order of the
    findings, and more findings never lower it. *)
Theorem risk_level_of_union (a b : list finding) :
  severity_rank (calculate_risk_level (a ++ b))
  = Z.max (severity_rank (calculate_risk_level a))
          (severity_rank (calculate_risk_level b))
  /\ calculate_risk_level (a ++ b) = calculate_risk_level (b ++ a)
  /\ severity_rank (calculate_risk_level a)
     <= severity_rank (calculate_risk_level (a ++ b)).
Proof.
  rewrite !rank_of_level, top_app. split; [reflexivity|]. split; [|lia].
  rewrite !calculate_risk_level_unfold. cbv zeta. fold rank_of.
  fold (top (a ++ b)). fold (top (b ++ a)).
  now rewrite !top_app, Z.max_comm.
Qed.

End RiskLevelOfUnion.

(** The two risk scales of the repository are one notch apart: on the
    verdict of the direct detector the aggregator says CRITICAL where
    [analyze_code] says HIGH, HIGH where it says MEDIUM, and MEDIUM or LOW
    where it says LOW. *)
Theorem risk_scales_one_notch_apart (java_code : string) :
  let verdict := detect_vulnerabilities_directly java_code in
  let risk := overallRisk (securityAnalysis (build_response java_code)) in
  let level := calculate_risk_level [finding_of_verdict verdict] in
  (risk = "HIGH" <-> level = "CRITICAL")
  /\ (risk = "MEDIUM" <-> level = "HIGH")
  /\ (risk = "LOW" <-> level = "MEDIUM" \/ level = "LOW").
Proof.
  intros verdict risk level. unfold level, risk, verdict.
  rewrite response_overall_risk. cbv zeta. rewrite response_vulnerabilities.
  pose proof (verdict_cases java_code) as H. simpl in H.
  repeat (destruct H as [<-|H];
          [vm_compute; repeat split; intros; try discriminate; try tauto;
           repeat match goal with
                  | H : _ \/ _ |- _ => destruct H
                  end; discriminate|]).
  contradiction.
Qed.

(** ** The aggregator's recommendations *)

Lemma urgent_message_eq (v : finding) (name : string) :
  is_urgent v = true -> assoc "vulnerability" v = Some name ->
  "URGENT: Address " ++ dict_get v "description" name
  ++ " (Severity: " ++ fmt_opt (assoc "severity" v) ++ ")"
  = urgent_message v.
Proof.
  unfold is_urgent, urgent_message, finding_severity, dict_get.
  intros Hu ->.
  destruct (assoc "severity" v); [reflexivity | discriminate].
Qed.

Lemma urgent_recommendations_closed (l : list finding) (acc : list string) :
  urgent_recommendations l acc
  = if existsb lacks_vulnerability_key l then None
    else Some (acc ++ map urgent_message (filter is_urgent l))%list.
Proof.
  revert acc. induction l as [|v l IH]; intros acc.
  - simpl. now rewrite app_nil_r.
  - cbn [urgent_recommendations existsb filter].
    fold (is_urgent v). unfold lacks_vulnerability_key at 1, has_key.
    destruct (is_urgent v) eqn:Eu.
    + destruct (assoc "vulnerability" v) as [name|] eqn:En.
      * rewrite (urgent_message_eq v name Eu En), IH. simpl.
        destruct (existsb lacks_vulnerability_key l); [reflexivity|].
        now rewrite <- app_assoc.
      * reflexivity.
    + simpl. apply IH.
Qed.

Lemma generate_recommendations_eq
      (theory_results : list pydict) (security_results : list finding) :
  generate_recommendations theory_results security_results
  = (if existsb lacks_vulnerability_key security_results then None
     else Some
            (let said :=
               (map urgent_message (filter is_urgent security_results)
                ++ (if (5 <? length theory_results)%nat
                    then ["Consider refactoring: Code shows high pattern complexity"]
                    else []))%list in
             if is_empty said
             then ["No critical issues found. Continue with best practices."]
             else said)).
Proof.
  unfold generate_recommendations. cbv zeta.
  rewrite urgent_recommendations_closed.
  destruct (existsb lacks_vulnerability_key security_results); [reflexivity|].
  simpl app at 1.
  assert (Hc : (Z.of_nat (length theory_results) >? 5)
               = (5 <? length theory_results)%nat).
  { destruct (5 <? length theory_results)%nat eqn:E.
    - apply Nat.ltb_lt in E. apply Z.gtb_lt. lia.
    - apply Nat.ltb_ge in E. rewrite Z.gtb_ltb. apply Z.ltb_ge. lia. }
  rewrite Hc.
  destruct (5 <? length theory_results)%nat.
  - destruct (map urgent_message (filter is_urgent security_results));
      reflexivity.
  - rewrite app_nil_r.
    destruct (map urgent_message (filter is_urgent security_results));
      reflexivity.
Qed.

(** [_generate_recommendations] raises [KeyError] exactly when a CRITICAL
    or HIGH finding has no key 'vulnerability' (even if it has a
    description). Otherwise it returns one URGENT message per CRITICAL or
    HIGH finding, in order, then the refactoring advice when more than five
    patterns were detected, and the no-issues message only when nothing
    else was said; the list it returns is never empty. *)
Theorem generate_recommendations_closed_form
        (theory_results : list pydict) (security_results : list finding) :
  let said :=
    (map urgent_message (filter is_urgent security_results)
     ++ (if (5 <? length theory_results)%nat
         then ["Consider refactoring: Code shows high pattern complexity"]
         else []))%list in
  generate_recommendations theory_results security_results
  = (if existsb lacks_vulnerability_key security_results then None
     else Some (if is_empty said
                then ["No critical issues found. Continue with best practices."]
                else said))
  /\ generate_recommendations theory_results security_results <> Some [].
Proof.
  intros said. pose proof (generate_recommendations_eq theory_results
                             security_results) as E.
  cbv zeta in E. fold said in E. split; [exact E|]. rewrite E.
  destruct (existsb lacks_vulnerability_key security_results); [discriminate|].
  destruct said; simpl; discriminate.
Qed.

(** On the verdict of the direct detector the aggregator's recommendations
    never fail, and they carry an URGENT message exactly when the verdict
    has severity CRITICAL or HIGH. *)
Theorem recommendations_on_verdict (java_code : string) (theory_results : list pydict) :
  let f := finding_of_verdict (detect_vulnerabilities_directly java_code) in
  exists recs,
    generate_recommendations theory_results [f] = Some recs
    /\ (In (urgent_message f) recs <-> is_urgent f = true)
    /\ (is_urgent f = true
        <-> In (severity (detect_vulnerabilities_directly java_code))
               ["CRITICAL"; "HIGH"]).
Proof.
  intros f. unfold f.
  rewrite generate_recommendations_eq. cbv zeta.
  pose proof (verdict_cases java_code) as H. simpl in H.
  repeat (destruct H as [<-|H];
          [eexists; split; [reflexivity|];
           destruct (5 <? length theory_results)%nat; vm_compute;
           repeat split; intros; try discriminate; try tauto;
           repeat match goal with
                  | H : _ \/ _ |- _ => destruct H
                  end; try discriminate; try tauto|]).
  contradiction.
Qed.

(** ** A detected singleton and the quality score *)

Lemma singleton_reported_iff_flag (java_code : string) :
  has_pattern "singleton_design_pattern" (detect_patterns_directly java_code)
  = is_singleton (detection_locals java_code).
Proof.
  destruct (detect_patterns_rules java_code)
    as (b10 & b24 & b25 & b27 & b28 & b30 & b33 & b34 & b35 & b36 & b37 & b38
        & b39 & b40 & b41 & b42 & b44 & b45 & b46 & b47 & b48 & ->).
  table_index 0%nat.
Qed.

Lemma singleton_cohesion (java_code : string) :
  is_singleton (detection_locals java_code) = true ->
  cohesion (extract_code_metrics java_code) = 0.92%Q.
Proof.
  intros Hs. rewrite cohesion_is_cascade.
  unfold CohesionCascade.cascade. cbn [FirstMatch.first_match].
  now rewrite Hs.
Qed.

Lemma singleton_weighted_sum (java_code : string) :
  is_singleton (detection_locals java_code) = true ->
  (60.5 <= weighted_sum (extract_code_metrics java_code))%Q.
Proof.
  intros Hs. unfold weighted_sum.
  change (code_duplication (extract_code_metrics java_code)) with 0.0%Q.
  change (test_coverage (extract_code_metrics java_code)) with 0.5%Q.
  rewrite (singleton_cohesion java_code Hs).
  pose proof (comment_ratio_nonneg java_code) as Hr.
  set (cr := comment_ratio (extract_code_metrics java_code)) in *.
  assert (Hq : (0 <= cr / 0.3)%Q).
  { apply Qle_shift_div_l; [reflexivity | now rewrite Qmult_0_l]. }
  assert (Hm : (0 <= Qmin (cr / 0.3) 1)%Q)
    by (apply Q.min_glb; [exact Hq | discriminate]).
  set (t := Qmin (cr / 0.3) 1) in *.
  assert (Hd : (Qmin 0.0 1 == 0)%Q) by reflexivity.
  rewrite Hd. lra.
Qed.

(** When the detector reports the singleton pattern the cohesion metric
    is 0.92, the quality score is at least 60, and the report never
    recommends adding exception handling. *)
Theorem detected_singleton_scores_60 (java_code : string) :
  has_pattern "singleton_design_pattern" (detect_patterns_directly java_code)
  = true ->
  let r := build_response java_code in
  cohesion (extract_code_metrics java_code) = 0.92%Q
  /\ 60 <= qualityScore r <= 85
  /\ ~ In exception_advice (recommendations r).
Proof.
  rewrite singleton_reported_iff_flag. intros Hs r. unfold r.
  assert (Hq : 60 <= qualityScore (build_response java_code)).
  { rewrite quality_score_floor.
    pose proof (singleton_weighted_sum java_code Hs) as H.
    apply Qfloor_resp_le in H. exact H. }
  split; [|split].
  - now apply singleton_cohesion.
  - pose proof (quality_score_range java_code). lia.
  - pose proof (recommendations_eq java_code) as E. cbv zeta in E. rewrite E.
    assert (Hlt : (qualityScore (build_response java_code) <? 60) = false)
      by (apply Z.ltb_ge; exact Hq).
    rewrite Hlt.
    set (risk := overallRisk (securityAnalysis (build_response java_code))).
    destruct (String.eqb risk "HIGH"); [|destruct (String.eqb risk "MEDIUM")];
      simpl; intros H; repeat (destruct H as [H|H]; [discriminate|]); exact H.
Qed.

Lemma detected_singleton_scores_60_witness :
  cohesion (extract_code_metrics singleton_text) = 0.92%Q
  /\ 60 <= qualityScore (build_response singleton_text) <= 85
  /\ ~ In exception_advice (recommendations (build_response singleton_text)).
Proof. apply (detected_singleton_scores_60 singleton_text). reflexivity. Defined.

Lemma set_feature_suppresses_xxe_witness :
  vulnerability (detect_vulnerabilities_directly hardened_xml_text) <> "xxe".
Proof. apply (set_feature_suppresses_xxe hardened_xml_text). reflexivity. Defined.

Lemma verdicts_without_plus_witness :
  let v := vulnerability (detect_vulnerabilities_directly concat_query_text) in
  v <> "path_traversal"
  /\ (v = "sql_injection" -> str_in "concat" (lower concat_query_text) = true)
  /\ (v = "xss" -> str_in "@GetMapping" concat_query_text = true).
Proof. apply (verdicts_without_plus concat_query_text). reflexivity. Defined.

Lemma vuln_type_round_trip_witness :
  normalize_vuln_type (format_vulnerability_type "command_injection")
  = "command_injection".
Proof. apply (vuln_type_round_trip "command_injection"); reflexivity. Defined.

(** ** The test suite against the route *)

Lemma test_code_reply (code : string) (ps : list string) (vs : option (list string)) :
  test_code code ps vs
  = negb (is_blank code) && check_report (build_response code) ps vs.
Proof.
  unfold test_code. rewrite analyze_code_reply, has_ink_not_blank.
  now destruct (is_blank code).
Qed.

Lemma existsb_single {A B : Type} (f : A -> B -> bool) (d : B) (l : list A) :
  existsb (fun x => existsb (fun y => f x y) [d]) l = existsb (fun x => f x d) l.
Proof.
  induction l as [|x l IH]; [reflexivity|].
  cbn [existsb] in *. now rewrite IH, orb_false_r.
Qed.

(** The vulnerability half of a test. A test on a blank text fails. On
    any other text, a test that expects [none] passes exactly when the
    verdict is [none], and a test that expects other keys passes exactly
    when one of them, lowered, occurs in the verdict key (so an expected
    key may be a mere part of it). *)
Theorem test_vulnerability_expectation (code : string) (expected : list string) :
  let v := vulnerability (detect_vulnerabilities_directly code) in
  test_code code [] (Some expected)
  = negb (is_blank code)
    && (if in_list "none" expected then String.eqb v "none"
        else existsb (fun e => str_in (lower e) v) expected).
Proof.
  intros v. unfold v. rewrite test_code_reply. f_equal.
  unfold check_report. cbv zeta. cbn [forallb andb].
  rewrite response_vulnerabilities.
  pose proof (verdict_cases code) as H. simpl in H.
  destruct (in_list "none" expected);
    repeat (destruct H as [<-|H];
            [first [ reflexivity
                   | apply (existsb_single
                              (fun e d => str_in (lower e) (lower d))) ]|]);
    contradiction.
Qed.

Lemma str_in_refl (s : string) : str_in s s = true.
Proof.
  apply str_in_startswith. induction s as [|c s IH]; simpl; [reflexivity|].
  now rewrite Ascii.eqb_refl.
Qed.

(** The pattern half of a test. On a text that is not blank, a test that
    expects the display name of a pattern which the detector reports
    passes. *)
Theorem reported_pattern_passes_test (code : string) (p : pydict) :
  is_blank code = false ->
  In p (detect_patterns_directly code) ->
  test_code code [format_pattern_name_for_display (pattern_key p)] None = true.
Proof.
  intros Hb Hp. rewrite test_code_reply, Hb. cbn [negb andb].
  unfold check_report. cbv zeta. rewrite andb_true_r. cbn [forallb].
  rewrite andb_true_r. apply existsb_exists.
  exists (lower (format_pattern_name_for_display (pattern_key p))).
  split; [|apply str_in_refl].
  rewrite response_detected_concepts, map_map.
  apply in_map_iff. exists p. split; [reflexivity | exact Hp].
Qed.

Lemma reported_pattern_passes_test_witness :
  test_code singleton_text ["Singleton Design Pattern"] None = true.
Proof.
  apply (reported_pattern_passes_test singleton_text singleton_entry).
  - reflexivity.
  - apply singleton_detected. reflexivity.
Defined.
